(** * DermCareAI backend: cascade, Grad-CAM and preprocessing

A shallow embedding of the Python backend
([ImagePreprocessing.py], [grad_cam.py], [MelanomaClassifier.py],
[SkinLesionClassifier.py], [app.py]).

Conventions.
- Python exceptions are values of [exn]; a call that may raise has
type [result A].  Every exception the backend meets derives from
[Exception], so [except Exception] catches all of [exn].
- Finite float samples are exact rationals ([Q]); rounding is not
modelled.  Where the source divides without a guard the quotient is
an [fl], which carries IEEE's NaN and infinities.
- OpenCV, PIL, torch and Keras are libraries outside the repository:
their entry points are fields of interface records, taken as they
are called in the source (same constants, same argument order).
- [logger.info]/[logger.error] calls have no effect on results and
are left out. *)

From Stdlib Require Import String ZArith QArith Qround Lia Lqa Bool Arith List.
Import ListNotations.

Set Implicit Arguments.

(* ===================================================================== *)
(** ** Python exceptions and fallible calls *)
(* ===================================================================== *)

Module Py.

Inductive exn : Type :=
  | Cv2Error (msg : string)
  | ValueError (msg : string)
  | TypeError (msg : string)
  | AttributeError (msg : string)
  | UnboundLocalError (msg : string)
  | IndexError (msg : string)
  | KeyError (msg : string)
  | UnidentifiedImageError (msg : string)
  | RuntimeError (msg : string)
  | HTTPException (status_code : Z) (detail : string).

Inductive result (A : Type) : Type :=
  | Ok (a : A)
  | Raise (e : exn).

Arguments Ok {A} a.
Arguments Raise {A} e.

Definition bind {A B} (c : result A) (k : A -> result B) : result B :=
    match c with
    | Ok a => k a
    | Raise e => Raise e
    end.

(** [try: body except Exception as e: handler e] *)
Definition try_except {A} (body : result A) (handler : exn -> result A)
    : result A :=
    match body with
    | Ok a => Ok a
    | Raise e => handler e
    end.

Definition is_ValueError (e : exn) : bool :=
    match e with ValueError _ => true | _ => false end.

(** [try: body except ValueError: handler]; other exceptions pass. *)
Definition try_except_ValueError {A} (body : result A)
(handler : result A) : result A :=
    match body with
    | Ok a => Ok a
    | Raise e => if is_ValueError e then handler else Raise e
    end.

Definition of_option {A} (o : option A) (e : exn) : result A :=
    match o with Some a => Ok a | None => Raise e end.

End Py.

Import Py.

Declare Scope py_scope.
Delimit Scope py_scope with py.
Notation "x <- c ;; k" := (Py.bind c (fun x => k))
(at level 100, c at next level, right associativity) : py_scope.
Notation "' pat <- c ;; k" :=
(Py.bind c (fun x => match x with pat => k end))
(at level 100, pat pattern, c at next level, right associativity) : py_scope.
Open Scope py_scope.

(* ===================================================================== *)
(** ** ImagePreprocessing.py *)
(* ===================================================================== *)

Module ImagePreprocessing.

(** The OpenCV entry points [ImagePreprocessor] calls.  [Image] is a
colour array, [Gray] a single-channel one. *)
Record cv2 (Image Gray Kernel : Type) : Type := {
    cvtColor_RGB2GRAY : Image -> result Gray;
    cvtColor_BGR2RGB : Image -> result Image;
    getStructuringElement_RECT : nat * nat -> result Kernel;
    morphologyEx_BLACKHAT : Gray -> Kernel -> result Gray;
    threshold_BINARY : Gray -> Z -> Z -> result (Z * Gray);
    inpaint_TELEA : Image -> Gray -> Z -> result Image;
    GaussianBlur : Image -> nat * nat -> Q -> result Image;
    addWeighted : Image -> Q -> Image -> Q -> Q -> result Image;
    resize_NEAREST : Image -> nat * nat -> result Image;
(** [cv2.imdecode] gives [None] on undecodable data *)
    imdecode_COLOR : list Z -> result (option Image)
}.

Section Preprocessor.
Context {Image Gray Kernel : Type}.
Variable cv : cv2 Image Gray Kernel.

(** [self.target_size] *)
Variable target_size : nat * nat.

Definition hair_remove_body (image : Image) : result Image :=
      gray_scale <- cvtColor_RGB2GRAY cv image ;;
      kernel <- getStructuringElement_RECT cv (17, 17)%nat ;;
      blackhat <- morphologyEx_BLACKHAT cv gray_scale kernel ;;
      '(_, threshold) <- threshold_BINARY cv blackhat 10 255 ;;
      final_image <- inpaint_TELEA cv image threshold 1 ;;
      Ok final_image.

Definition hair_remove (image : Image) : result Image :=
      try_except (hair_remove_body image) (fun _ => Ok image).

Definition sharpen_image_body (image : Image) : result Image :=
      gaussian <- GaussianBlur cv image (0, 0)%nat 2 ;;
      addWeighted cv image (3 # 2) gaussian (- (1 # 2)) 0.

Definition sharpen_image (image : Image) : result Image :=
      try_except (sharpen_image_body image) (fun _ => Ok image).

Definition preprocess_body (image : Image) : result Image :=
      image <- hair_remove image ;;
      image <- sharpen_image image ;;
      image <- resize_NEAREST cv image target_size ;;
      Ok image.

(** [Optional[np.ndarray]]: [None] is the sentinel. *)
Definition preprocess (image : Image) : result (option Image) :=
      try_except (r <- preprocess_body image ;; Ok (Some r))
                 (fun _ => Ok None).

Definition process_bytes (image_bytes : list Z) : result (option Image) :=
      try_except
        (image <- imdecode_COLOR cv image_bytes ;;
         image <- match image with
                  | Some im => cvtColor_BGR2RGB cv im
                  | None => Raise (Cv2Error "(-215:Assertion failed) !_src.empty() in function 'cvtColor'")
                  end ;;
         preprocess image)
        (fun _ => Ok None).

End Preprocessor.

End ImagePreprocessing.

(* ===================================================================== *)
(** ** Arrays *)
(* ===================================================================== *)

Module Arr.

(** A float that may be non-finite.  [Num q] is a finite sample. *)
Inductive fl : Type :=
  | Num (q : Q)
  | NaN
  | PInf
  | NInf.

(** IEEE division of two finite floats. *)
Definition fdiv (x y : Q) : fl :=
  if Qeq_bool y 0 then
    if Qeq_bool x 0 then NaN
    else if Qle_bool 0 x then PInf else NInf
  else Num (x / y).

(** [c * x] for a finite non-zero constant [c > 0]. *)
Definition fl_scale (c : Q) (x : fl) : fl :=
  match x with
  | Num q => Num (c * q)
  | other => other
  end.

Definition grid (A : Type) := list (list A).
(** channel-first [C x H x W] (one PyTorch batch entry) *)
Definition chw := list (grid Q).
(** channel-last [H x W x C] (one TensorFlow batch entry, a numpy image) *)
Definition hwc := grid (list Q).

Fixpoint zip_with {A B C} (f : A -> B -> C) (l : list A) (m : list B)
  : list C :=
  match l, m with
  | a :: l', b :: m' => f a b :: zip_with f l' m'
  | _, _ => []
  end.

(** [a.shape[:2]] *)
Definition shape2 {A} (g : grid A) : nat * nat :=
  (length g, length (hd [] g)).

Definition shape_eqb (s t : nat * nat) : bool :=
  Nat.eqb (fst s) (fst t) && Nat.eqb (snd s) (snd t).

Definition qmin (x y : Q) : Q := if Qle_bool x y then x else y.
Definition qmax (x y : Q) : Q := if Qle_bool x y then y else x.

(** [a.min()], [a.max()] over a flat list of samples; numpy raises on an
    empty array. *)
Definition list_min (l : list Q) : option Q :=
  match l with
  | [] => None
  | x :: r => Some (fold_left qmin r x)
  end.

Definition list_max (l : list Q) : option Q :=
  match l with
  | [] => None
  | x :: r => Some (fold_left qmax r x)
  end.

Definition zero_size : exn :=
  ValueError "zero-size array to reduction operation which has no identity".

Definition qsum (l : list Q) : Q := fold_left Qplus l 0.

(** mean of all samples of one plane *)
Definition plane_mean (g : grid Q) : Q :=
  qsum (concat g) / inject_Z (Z.of_nat (length (concat g))).

Definition grid_add (g h : grid Q) : grid Q := zip_with (zip_with Qplus) g h.
Definition grid_scale (w : Q) (g : grid Q) : grid Q := map (map (Qmult w)) g.
Definition zeros (h w : nat) : grid Q := repeat (repeat 0 w) h.

(** [np.transpose(a, (1, 2, 0))] *)
Definition chw_to_hwc (t : chw) : hwc :=
  fold_right (fun plane acc => zip_with (zip_with cons) plane acc)
             (map (map (fun _ => [])) (hd [] t)) t.

(** [tf.transpose(a, [0, 2, 1])] on a rank-3 tensor: each [a[i]] is
    transposed. *)
Fixpoint transpose {A} (width : nat) (rows : list (list A)) : list (list A) :=
  match rows with
  | [] => repeat [] width
  | r :: rest => zip_with cons r (transpose width rest)
  end.

Definition transpose_021 (t : hwc) : hwc :=
  map (fun m => transpose (length (hd [] m)) m) t.

(** [(a - a.min()) / (a.max() - a.min() + 1e-8)] *)
Definition eps : Q := 1 # 100000000.

Definition minmax_scale (lo hi x : Q) : Q := (x - lo) / (hi - lo + eps).

Definition relu (x : Q) : Q := qmax x 0.

(** first index of the largest entry *)
Fixpoint argmax_from (best : Q) (besti i : nat) (l : list Q) : nat :=
  match l with
  | [] => besti
  | x :: r => if Qle_bool x best then argmax_from best besti (S i) r
              else argmax_from x i (S i) r
  end.

Definition argmax (l : list Q) : option nat :=
  match l with
  | [] => None
  | x :: r => Some (argmax_from x 0%nat 1%nat r)
  end.

(** C's float-to-integer conversion rounds toward zero. *)
Definition Qtrunc (x : Q) : Z := Z.quot (Qnum x) (Zpos (Qden x)).

(** [np.clip(x, lo, hi)] is [minimum(maximum(x, lo), hi)] *)
Definition clip (x lo hi : Q) : Q := qmin (qmax x lo) hi.

End Arr.

Import Arr.

(* ===================================================================== *)
(** ** grad_cam.py *)
(* ===================================================================== *)

Module GradCam.

(** *** The two inference backends, as [grad_cam.py] uses them *)

(** A [torch.nn.Module] inside the model: calling it on a tensor, and
    whether it is an [nn.Conv2d]. *)
Record torch_module : Type := {
  module_call : chw -> result chw;
  is_Conv2d : bool
}.

Record torch_model : Type := {
  (** [model.model.named_modules()] when [hasattr(model, 'model')] *)
  model_attr : option (list (string * torch_module));
  (** [model.named_modules()] *)
  named_modules : list (string * torch_module);
  (** [model(input_tensor)[0]] *)
  model_call : chw -> result (list Q);
  (** [input_tensor.grad.data[0]] after [output.backward(gradient=g)] *)
  backward_input_grad : chw -> list Q -> result chw;
  (** Output of the named module during [model(input_tensor)], and the
      gradient that [output.backward(gradient=g)] sends to it: what a
      forward and a backward hook on that module record.
      [pytorch_grad_cam] registers no hook and reads neither. *)
  hook_activation : string -> chw -> result chw;
  hook_gradient : string -> chw -> list Q -> result chw
}.

Record keras_layer : Type := {
  name : string;
  is_Conv2D : bool
}.

Record keras_model : Type := {
  layers : list keras_layer;
  (** [model.predict(image[None])[0]] *)
  predict : hwc -> result (list Q);
  (** [Model([model.inputs], [layer.output, model.output])(x)], batch
      entry 0 of both outputs *)
  grad_model : keras_layer -> hwc -> result (hwc * list Q);
  (** [tape.gradient(predictions[:, c], conv_output)[0]] for that call *)
  tape_gradient : keras_layer -> hwc -> nat -> result hwc
}.

(** *** pytorch_grad_cam *)

Definition find_module (mods : list (string * torch_module))
           (layer_name : string) : option torch_module :=
  match find (fun nm => String.eqb (fst nm) layer_name) mods with
  | Some nm => Some (snd nm)
  | None => None
  end.

(** [model.model if hasattr(model, 'model') else model], as its
    [named_modules()] *)
Definition target_model (model : torch_model)
  : list (string * torch_module) :=
  match model_attr model with
  | Some inner => inner
  | None => named_modules model
  end.

Definition pytorch_target_layer (model : torch_model) (layer_name : string)
  : result torch_module :=
  match find_module (target_model model) layer_name with
  | Some target_layer => Ok target_layer
  | None => Raise (ValueError ("Layer " ++ layer_name ++ " not found in model"))
  end.

(** [one_hot = zeros_like(output); one_hot[0][target_class] = 1] *)
Fixpoint set_one (l : list Q) (i : nat) : option (list Q) :=
  match l, i with
  | [], _ => None
  | _ :: r, O => Some (1 :: r)
  | x :: r, S j => option_map (cons x) (set_one r j)
  end.

Definition one_hot (output : list Q) (target_class : nat) : result (list Q) :=
  of_option (set_one (map (fun _ => 0) output) target_class)
            (IndexError "index is out of bounds for dimension 1").

(** [weights = torch.mean(gradients, dim=(2, 3))[0]] *)
Definition torch_mean_23 (t : chw) : list Q := map plane_mean t.

(** [for i, w in enumerate(weights[0]): heatmap += w * features[0, i]] *)
Fixpoint heatmap_loop (weights : list Q) (i : nat) (features : chw)
         (heatmap : grid Q) : result (grid Q) :=
  match weights with
  | [] => Ok heatmap
  | w :: rest =>
      plane <- of_option (nth_error features i)
                 (IndexError "index is out of bounds for dimension 1") ;;
      heatmap_loop rest (S i) features (grid_add heatmap (grid_scale w plane))
  end.

(** [(a - a.min()) / (a.max() - a.min() + 1e-8)] on a numpy array of
    any rank, given its samples in a flat list *)
Definition np_minmax {T} (samples : T -> list Q)
           (rescale : (Q -> Q) -> T -> T) (a : T) : result T :=
  lo <- of_option (list_min (samples a)) zero_size ;;
  hi <- of_option (list_max (samples a)) zero_size ;;
  Ok (rescale (minmax_scale lo hi) a).

Definition normalize_grid : grid Q -> result (grid Q) :=
  np_minmax (@concat Q) (fun f => map (map f)).

Definition normalize_image : hwc -> result hwc :=
  np_minmax (fun a => concat (concat a)) (fun f => map (map (map f))).

(** Weights and raw weighted sum, up to the line before [F.relu]. *)
Definition pytorch_weighted_sum (model : torch_model) (input_tensor : chw)
           (target_class : nat) (layer_name : string)
  : result (list Q * grid Q) :=
  target_layer <- pytorch_target_layer model layer_name ;;
  output <- model_call model input_tensor ;;
  one_hot <- one_hot output target_class ;;
  gradients <- backward_input_grad model input_tensor one_hot ;;
  features <- module_call target_layer input_tensor ;;
  let weights := torch_mean_23 gradients in
  let heatmap := zeros (length (hd [] features))
                       (length (hd [] (hd [] features))) in
  heatmap <- heatmap_loop weights 0 features heatmap ;;
  Ok (weights, heatmap).

Definition pytorch_grad_cam (model : torch_model) (input_tensor : chw)
           (target_class : nat) (layer_name : string)
  : result (hwc * grid Q) :=
  '(_, heatmap) <- pytorch_weighted_sum model input_tensor target_class
                                        layer_name ;;
  let heatmap := map (map relu) heatmap in
  heatmap <- normalize_grid heatmap ;;
  original_image <- normalize_image (chw_to_hwc input_tensor) ;;
  Ok (original_image, heatmap).

(** *** tensorflow_grad_cam *)

(** [model.get_layer(layer_name)] *)
Definition get_layer (model : keras_model) (layer_name : string)
  : result keras_layer :=
  of_option (find (fun l => String.eqb (name l) layer_name) (layers model))
            (ValueError ("No such layer: " ++ layer_name)).

(** The [for layer in reversed(model.layers)] loop with its [break]:
    [None] when the loop ends without assigning [target_layer]. *)
Definition last_Conv2D (model : keras_model) : option keras_layer :=
  find is_Conv2D (rev (layers model)).

(** The [try]/[except ValueError] block; returns [(layer_name,
    target_layer)].  When [get_layer] raised and the loop assigned
    nothing, [target_layer] is an unbound local when [if not
    target_layer] reads it. *)
Definition tensorflow_target_layer (model : keras_model) (layer_name : string)
  : result (string * keras_layer) :=
  try_except_ValueError
    (target_layer <- get_layer model layer_name ;;
     Ok (layer_name, target_layer))
    (match last_Conv2D model with
     | Some layer => Ok (name layer, layer)
     | None => Raise (UnboundLocalError
         "cannot access local variable 'target_layer' where it is not associated with a value")
     end).

(** [tf.reduce_mean(grads, axis=(1, 2))[0]] *)
Definition reduce_mean_12 (grads : hwc) : list Q :=
  let pixels := concat grads in
  let n := inject_Z (Z.of_nat (length pixels)) in
  map (fun s => s / n)
      (fold_left (zip_with Qplus) pixels
                 (repeat 0 (length (hd [] pixels)))).

(** [tf.reduce_sum(weights[:, newaxis, newaxis, :] * conv_output, axis=-1)[0]] *)
Definition reduce_sum_weighted (weights : list Q) (conv_output : hwc)
  : grid Q :=
  map (map (fun pixel => qsum (zip_with Qmult weights pixel))) conv_output.

(** [tf.maximum(heatmap, 0) / tf.math.reduce_max(heatmap)].  With no
    cell there is nothing to divide. *)
Definition tf_max_scale (heatmap : grid Q) : grid fl :=
  match list_max (concat heatmap) with
  | Some m => map (map (fun x => fdiv (relu x) m)) heatmap
  | None => map (map (fun _ => NaN)) heatmap
  end.

(** The two shape fixes at the top, on a rank-3 [input_tensor] (as
    [SkinLesionClassifier] passes it): transposed when [shape[1] == 3],
    then given its batch axis. *)
Definition fix_input_shape (input_tensor : hwc) : hwc :=
  if Nat.eqb (snd (shape2 input_tensor)) 3
  then transpose_021 input_tensor else input_tensor.

(** Weights and raw weighted sum: from the layer lookup to the line
    before [tf.maximum]. *)
Definition tensorflow_weighted_sum (model : keras_model) (input_tensor : hwc)
           (target_class : nat) (layer_name : string)
  : result (list Q * grid Q) :=
  '(layer_name, target_layer) <- tensorflow_target_layer model layer_name ;;
  '(conv_output, predictions) <- grad_model model target_layer input_tensor ;;
  loss <- of_option (nth_error predictions target_class)
            (IndexError "slice index out of bounds") ;;
  grads <- tape_gradient model target_layer input_tensor target_class ;;
  let weights := reduce_mean_12 grads in
  Ok (weights, reduce_sum_weighted weights conv_output).

Definition tensorflow_grad_cam (model : keras_model) (input_tensor : hwc)
           (target_class : nat) (layer_name : string)
  : result (hwc * grid fl) :=
  let input_tensor := fix_input_shape input_tensor in
  '(_, heatmap) <- tensorflow_weighted_sum model input_tensor target_class
                                           layer_name ;;
  let heatmap := tf_max_scale heatmap in
  original_image <- normalize_image input_tensor ;;
  Ok (original_image, heatmap).

(** *** apply_grad_cam *)

Section Compositor.

(** [cv2.resize(src, (width, height))] on a float grid *)
Variable cv2_resize : grid fl -> nat * nat -> result (grid fl).
(** what the float-to-[uint8] cast gives for NaN and the infinities
    (platform-dependent) *)
Variable nonfinite_uint8 : fl -> Z.

(** [np.uint8(x)] for a float sample: truncation, then wrap-around. *)
Definition np_uint8 (x : fl) : Z :=
  match x with
  | Num q => (Qtrunc q) mod 256
  | other => nonfinite_uint8 other
  end.

Definition zeros_like (a : hwc) : hwc := map (map (map (fun _ => 0))) a.

(** [heatmap_colored[:, :, 0] = heatmap[:, :, 0]] *)
Definition set_channel_0 (heatmap_colored : hwc) (heatmap : grid Z)
  : result hwc :=
  if negb (shape_eqb (shape2 heatmap_colored) (shape2 heatmap)) then
    Raise (ValueError "could not broadcast input array")
  else if existsb (existsb (fun px => match px with [] => true | _ => false end))
                  heatmap_colored then
    Raise (IndexError "index 0 is out of bounds for axis 2 with size 0")
  else
    Ok (zip_with (zip_with (fun px v =>
                              match px with
                              | [] => []
                              | _ :: others => inject_Z v :: others
                              end))
                 heatmap_colored heatmap).

Definition apply_grad_cam (original_image : hwc) (heatmap : grid fl)
           (alpha : Q) : result hwc :=
  heatmap <- (if shape_eqb (shape2 original_image) (shape2 heatmap)
              then Ok heatmap
              else cv2_resize heatmap (snd (shape2 original_image),
                                       fst (shape2 original_image))) ;;
  let heatmap := map (map (fun x => np_uint8 (fl_scale 255 x))) heatmap in
  heatmap_colored <- set_channel_0 (zeros_like original_image) heatmap ;;
  let visualization :=
    zip_with (zip_with (zip_with (fun x c => x + alpha * c)))
             original_image heatmap_colored in
  Ok (map (map (map (fun x => clip x 0 1))) visualization).

Definition default_alpha : Q := 4 # 10.

End Compositor.

End GradCam.

Import GradCam.

(* ===================================================================== *)
(** ** Calls into the two classifiers, recorded *)
(* ===================================================================== *)

Module Traced.

(** Entry into a method of a classifier or into a function of
    [grad_cam.py]; the attribution functions carry their [target_class]. *)
Inductive event : Type :=
  | MobileNetPredictor_predict_called
  | MobileNetPredictor_predict_with_gradcam_called
  | SkinLesionClassifier_predict_with_gradcam_called
  | pytorch_grad_cam_called (target_class : nat)
  | tensorflow_grad_cam_called (target_class : nat)
  | apply_grad_cam_called.

(** A computation that may raise and that appends to the call log. *)
Definition M (A : Type) : Type := list event -> result A * list event.

Definition ret {A} (a : A) : M A := fun log => (Ok a, log).

Definition raise {A} (e : exn) : M A := fun log => (Raise e, log).

Definition mbind {A B} (c : M A) (k : A -> M B) : M B :=
  fun log =>
    match c log with
    | (Ok a, log') => k a log'
    | (Raise e, log') => (Raise e, log')
    end.

Definition lift {A} (c : result A) : M A := fun log => (c, log).

Definition called (e : event) : M unit := fun log => (Ok tt, log ++ [e]).

(** [try: body except Exception as e: handler e] *)
Definition catch {A} (body : M A) (handler : exn -> M A) : M A :=
  fun log =>
    match body log with
    | (Ok a, log') => (Ok a, log')
    | (Raise e, log') => handler e log'
    end.

Definition run {A} (c : M A) : result A * list event := c [].

End Traced.

Import Traced.

Declare Scope traced_scope.
Delimit Scope traced_scope with traced.
Notation "x <- c ;; k" := (Traced.mbind c (fun x => k))
  (at level 100, c at next level, right associativity) : traced_scope.
Notation "' pat <- c ;; k" :=
  (Traced.mbind c (fun x => match x with pat => k end))
  (at level 100, pat pattern, c at next level, right associativity)
  : traced_scope.
Notation "c ;;; k" := (Traced.mbind c (fun _ => k))
  (at level 100, right associativity) : traced_scope.

(* ===================================================================== *)
(** ** MelanomaClassifier.py and SkinLesionClassifier.py *)
(* ===================================================================== *)

Module Classifiers.

(** a display-form image: [H x W x 3] samples of type [uint8] *)
Definition image_u8 := grid (list Z).

(** Library calls of the classifiers and of [app.py]. *)
Record runtime : Type := {
  (** [torch.softmax(outputs, dim=1)[0]] *)
  torch_softmax : list Q -> list Q;
  cv2_resize : grid fl -> nat * nat -> result (grid fl);
  nonfinite_uint8 : fl -> Z;
  (** [np.array(Image.open(io.BytesIO(b)).convert('RGB'))] *)
  PIL_open_RGB : list Z -> result image_u8;
  (** [Image.fromarray(a).save(buf, format="JPEG")] and
      [base64.b64encode(...).decode()] *)
  jpeg_base64 : image_u8 -> result string;
  (** [str(e)] *)
  py_str : exn -> string
}.

(** The dictionary both [predict] methods return; [predict] leaves
    [gradcam_visualization] out. *)
Record prediction (V : Type) : Type := {
  class_index : nat;
  probabilities : list Q;
  gradcam_visualization : V
}.

(** *** MobileNetPredictor *)

Record MobileNetPredictor : Type := {
  (** [self.model] *)
  model : torch_model;
  (** [self.transform(Image.fromarray(a)).unsqueeze(0).to(self.device)[0]] *)
  transform : image_u8 -> result chw
}.

(** What an instance of [MobileNetPredictor] has: the attributes
    [__init__] assigns and the methods of the class. *)
Definition MobileNetPredictor_dir : list string :=
  [ "config"; "device"; "model"; "transform";
    "_load_model"; "_get_transform"; "prepare_image";
    "predict"; "predict_with_gradcam" ]%string.

(** [getattr(self, attr)] *)
Definition MobileNetPredictor_getattr (attr : string) : result string :=
  if existsb (String.eqb attr) MobileNetPredictor_dir then Ok attr
  else Raise (AttributeError
    ("'MobileNetPredictor' object has no attribute '" ++ attr ++ "'")).

(** Calling a member with two positional arguments.  No member accepts
    them: the methods take at most one, [model] and [transform] are
    callables of one argument, [config] and [device] are not callable. *)
Definition MobileNetPredictor_call2 {A} (member : string) : result A :=
  Raise (TypeError (member ++ ": cannot be called with 2 positional arguments")).

Section WithRuntime.
Variable rt : runtime.

Definition prepare_image (self : MobileNetPredictor) (image_array : image_u8)
  : result chw :=
  transform self image_array.

Definition softmax_argmax (self : MobileNetPredictor) (image_tensor : chw)
  : result (nat * list Q) :=
  outputs <- model_call (model self) image_tensor ;;
  let probabilities := torch_softmax rt outputs in
  predicted_class <- of_option (argmax probabilities)
                       (RuntimeError "argmax(): input has no element") ;;
  Ok (predicted_class, probabilities).

(** The body of [predict]. *)
Definition MobileNetPredictor_predict_body (self : MobileNetPredictor)
           (image_array : image_u8) : result (prediction unit) :=
  image_tensor <- prepare_image self image_array ;;
  '(predicted_class, probabilities) <- softmax_argmax self image_tensor ;;
  Ok {| class_index := predicted_class;
        probabilities := probabilities;
        gradcam_visualization := tt |}.

Definition MobileNetPredictor_predict (self : MobileNetPredictor)
           (image_array : image_u8) : M (prediction unit) :=
  (called MobileNetPredictor_predict_called ;;;
   lift (MobileNetPredictor_predict_body self image_array))%traced.

Definition MobileNetPredictor_predict_with_gradcam
           (self : MobileNetPredictor) (image_array : image_u8)
  : M (prediction hwc) :=
  (called MobileNetPredictor_predict_with_gradcam_called ;;;
   input_tensor <- lift (prepare_image self image_array) ;;
   ' (predicted_class, probabilities) <-
       lift (softmax_argmax self input_tensor) ;;
   called (pytorch_grad_cam_called predicted_class) ;;;
   ' (original_image, heatmap) <-
       lift (pytorch_grad_cam (model self) input_tensor predicted_class
                              "features") ;;
   called apply_grad_cam_called ;;;
   visualization <-
       lift (apply_grad_cam (cv2_resize rt) (nonfinite_uint8 rt)
                            original_image (map (map Num) heatmap)
                            default_alpha) ;;
   ret {| class_index := predicted_class;
          probabilities := probabilities;
          gradcam_visualization := visualization |})%traced.

(** *** SkinLesionClassifier *)

Record SkinLesionClassifier : Type := {
  (** [self.model] *)
  keras : keras_model
}.

Definition SkinLesionClassifier_predict_with_gradcam
           (self : SkinLesionClassifier) (image : hwc)
  : M (prediction hwc) :=
  (called SkinLesionClassifier_predict_with_gradcam_called ;;;
   let processed_image := image in
   predictions <- lift (predict (keras self) image) ;;
   predicted_class <- lift (of_option (argmax predictions)
                              (ValueError "argmax of an empty tensor")) ;;
   let probabilities := predictions in
   called (tensorflow_grad_cam_called predicted_class) ;;;
   ' (original_image, heatmap) <-
       lift (tensorflow_grad_cam (keras self) processed_image predicted_class
                                 "conv2d_93") ;;
   called apply_grad_cam_called ;;;
   visualization <-
       lift (apply_grad_cam (cv2_resize rt) (nonfinite_uint8 rt)
                            original_image heatmap default_alpha) ;;
   ret {| class_index := predicted_class;
          probabilities := probabilities;
          gradcam_visualization := visualization |})%traced.

End WithRuntime.

End Classifiers.

Import Classifiers.

(* ===================================================================== *)
(** ** app.py *)
(* ===================================================================== *)

Module App.

Record PredictionResponse : Type := {
  class_name : string;
  confidence : Q;
  model_used : string;
  visualization : string
}.

Record ImagePreprocessor : Type := {
  target_size : nat * nat
}.

Record ModelService : Type := {
  preprocessor : ImagePreprocessor;
  mobilenet : MobileNetPredictor;
  nasnet : SkinLesionClassifier;
  nasnet_classes : list (nat * string)
}.

(** [ModelService.__init__], given the two loaded classifiers *)
Definition ModelService_init (mobilenet : MobileNetPredictor)
           (nasnet : SkinLesionClassifier) : ModelService :=
  {| preprocessor := {| target_size := (224, 224)%nat |};
     mobilenet := mobilenet;
     nasnet := nasnet;
     nasnet_classes :=
       [ (0, "Actinic Keratosis"); (1, "Basal Cell Carcinoma");
         (2, "Benign Keratosis"); (3, "Dermatofibroma");
         (4, "Melanoma"); (5, "Melanocytic Nevus");
         (6, "Vascular Lesion") ]%nat%string |}.

(** [d[key]] on a dictionary with integer keys *)
Fixpoint dict_get {V} (d : list (nat * V)) (key : nat) : result V :=
  match d with
  | [] => Raise (KeyError "key")
  | (k, v) :: rest => if Nat.eqb k key then Ok v else dict_get rest key
  end.

(** [{i: float(p) for i, p in enumerate(ps)}[key]] *)
Definition enumerate_get (ps : list Q) (key : nat) : result Q :=
  of_option (nth_error ps key) (KeyError "key").

(** [ps[i]] on a Python list *)
Definition list_get (ps : list Q) (i : nat) : result Q :=
  of_option (nth_error ps i) (IndexError "list index out of range").

Section Service.
Variable rt : runtime.
Variable cv : ImagePreprocessing.cv2 image_u8 (grid Z) (grid Z).

(** [tf.cast(processed_image, tf.float32) / 255.0] *)
Definition cast_div_255 (a : image_u8) : hwc :=
  map (map (map (fun z => inject_Z z / 255))) a.

(** [(visualization * 255).astype(np.uint8)] *)
Definition times_255_uint8 (a : hwc) : image_u8 :=
  map (map (map (fun x => np_uint8 (nonfinite_uint8 rt) (Num (x * 255))))) a.

(** The body of the [try] block. *)
Definition process_image_body (self : ModelService) (image_bytes : list Z)
  : M PredictionResponse :=
  (image_array <- lift (PIL_open_RGB rt image_bytes) ;;
   processed_image <-
     lift (ImagePreprocessing.preprocess
             cv (target_size (preprocessor self)) image_array) ;;
   processed_image <-
     match processed_image with
     | None => raise (HTTPException 400 "Image preprocessing failed")
     | Some a => ret a
     end ;;
   mobilenet_result <-
     MobileNetPredictor_predict rt (mobilenet self) processed_image ;;
   let mobilenet_predicted_class := class_index mobilenet_result in
   mobilenet_confidence <-
     lift (list_get (probabilities mobilenet_result)
                    mobilenet_predicted_class) ;;
   ' (final_class, final_confidence, model_used, visualization) <-
     (if Nat.eqb mobilenet_predicted_class 0 then
        let nasnet_image := cast_div_255 processed_image in
        nasnet_result <-
          SkinLesionClassifier_predict_with_gradcam rt (nasnet self)
                                                    nasnet_image ;;
        final_class <-
          lift (dict_get (nasnet_classes self) (class_index nasnet_result)) ;;
        final_confidence <-
          lift (enumerate_get (probabilities nasnet_result)
                              (class_index nasnet_result)) ;;
        ret (final_class, final_confidence, "NASNetMobile"%string,
             gradcam_visualization nasnet_result)
      else
        visualization <-
          lift (member <- MobileNetPredictor_getattr "gradcam_visualization" ;;
                MobileNetPredictor_call2 member)%py ;;
        ret ("Melanoma"%string, mobilenet_confidence, "MobileNetV2"%string,
             visualization)) ;;
   visualization_str <-
     lift (jpeg_base64 rt (times_255_uint8 visualization)) ;;
   ret {| class_name := final_class;
          confidence := final_confidence;
          model_used := model_used;
          visualization := visualization_str |})%traced.

Definition process_image (self : ModelService) (image_bytes : list Z)
  : M PredictionResponse :=
  catch (process_image_body self image_bytes)
        (fun e => raise (HTTPException 500 (py_str rt e))).

(** [file.content_type.startswith("image/")] *)
Definition is_image_content_type (content_type : string) : bool :=
  String.prefix "image/" content_type.

(** The [/predict] endpoint. *)
Definition predict_endpoint (self : ModelService) (content_type : string)
           (contents : list Z) : M PredictionResponse :=
  if negb (is_image_content_type content_type) then
    raise (HTTPException 400 "File must be an image")
  else
    process_image self contents.

End Service.

(** Status of the HTTP response the framework sends. *)
Definition response_status {A} (r : result A) : Z :=
  match r with
  | Ok _ => 200
  | Raise (HTTPException status _) => status
  | Raise _ => 500
  end.

Definition client_error (status : Z) : bool :=
  (400 <=? status)%Z && (status <? 500)%Z.

Definition server_error (status : Z) : bool :=
  (500 <=? status)%Z && (status <? 600)%Z.

End App.

Import App.

(* ===================================================================== *)
(** ** Vocabulary of the properties *)
(* ===================================================================== *)

Module Spec.

Definition in_unit (x : Q) : Prop := 0 <= x /\ x <= 1.

(** a possibly non-finite cell within [0,1]: finite and in range *)
Definition fl_in_unit (x : fl) : Prop :=
  match x with
  | Num q => in_unit q
  | _ => False
  end.

Definition fl_is (v : Q) (x : fl) : Prop :=
  match x with
  | Num q => q == v
  | _ => False
  end.

Definition cells {A} (P : A -> Prop) (g : grid A) : Prop :=
  Forall (Forall P) g.

Definition samples (P : Q -> Prop) (a : hwc) : Prop :=
  Forall (Forall (Forall P)) a.

(** a grid whose largest and smallest cell coincide *)
Definition uniform (g : grid Q) : Prop :=
  exists lo hi,
    list_min (concat g) = Some lo /\ list_max (concat g) = Some hi /\
    lo == hi.

(** The attribution algorithm in the words of the specification, on a
    channel-first activation: the weight of a channel is the spatial
    mean of the gradient on that channel, and the heatmap is the sum
    over the channels of weight times channel. *)
Definition spec_weights (gradient : chw) : list Q := map plane_mean gradient.

Fixpoint spec_heatmap (weights : list Q) (activation : chw)
         (zero : grid Q) : grid Q :=
  match weights, activation with
  | w :: ws, a :: acts => grid_add (grid_scale w a) (spec_heatmap ws acts zero)
  | _, _ => zero
  end.

(** channel [c] of a channel-last tensor, and all its channels *)
Definition channel (c : nat) (t : hwc) : grid Q :=
  map (map (fun px => nth c px 0)) t.

Definition channels_of (t : hwc) : chw :=
  map (fun c => channel c t) (seq 0 (length (hd [] (concat t)))).

(** all pixels of a channel-last tensor have the same number of
    channels *)
Definition well_formed (t : hwc) : Prop :=
  Forall (fun px => length px = length (hd [] (concat t))) (concat t).

(** the first [n] terms, from channel [k] on, of the weighted sum at one
    pixel *)
Fixpoint pixel_sum (ws : list Q) (k n : nat) (px : list Q) : Q :=
  match ws, n with
  | w :: ws', S n' => w * nth k px 0 + pixel_sum ws' (S k) n' px
  | _, _ => 0
  end.

Definition same_list (u v : list Q) : Prop := Forall2 Qeq u v.
Definition same_grid (g h : grid Q) : Prop := Forall2 (Forall2 Qeq) g h.

(** Calls into the Stage-2 classifier, and runs of an attribution
    function, in a call log. *)
Definition is_stage2_call (e : event) : bool :=
  match e with
  | SkinLesionClassifier_predict_with_gradcam_called => true
  | _ => false
  end.

Definition is_attribution_run (e : event) : bool :=
  match e with
  | pytorch_grad_cam_called _ | tensorflow_grad_cam_called _ => true
  | _ => false
  end.

Definition stage2_calls (log : list event) : nat :=
  length (filter is_stage2_call log).

Definition attribution_runs (log : list event) : nat :=
  length (filter is_attribution_run log).

(** what [self.mobilenet.gradcam_visualization] raises *)
Definition no_gradcam_visualization : exn :=
  AttributeError
    "'MobileNetPredictor' object has no attribute 'gradcam_visualization'".

(** two images with numerically equal samples *)
Definition same_image (a b : hwc) : Prop :=
  Forall2 (Forall2 (Forall2 Qeq)) a b.

(** every pixel has at least one channel *)
Definition has_channels (a : hwc) : Prop :=
  Forall (Forall (fun px : list Q => px <> [])) a.

(** the all-zero heatmap of the size of an image *)
Definition zero_heatmap_like (a : hwc) : grid fl :=
  map (map (fun _ => Num 0)) a.

End Spec.

Import Spec.

(* ===================================================================== *)
(** ** Concrete instances used by the examples below *)
(* ===================================================================== *)

Module Examples.

(** An OpenCV whose colour conversion rejects every image (as it does
    for a single-channel input) and whose other calls are the identity. *)
Definition cv_gray_fails : ImagePreprocessing.cv2 nat nat nat :=
  {| ImagePreprocessing.cvtColor_RGB2GRAY := fun _ =>
       Raise (Cv2Error "Invalid number of channels in input image");
     ImagePreprocessing.cvtColor_BGR2RGB := fun im => Ok im;
     ImagePreprocessing.getStructuringElement_RECT := fun _ => Ok 0%nat;
     ImagePreprocessing.morphologyEx_BLACKHAT := fun g _ => Ok g;
     ImagePreprocessing.threshold_BINARY := fun g _ _ => Ok (10%Z, g);
     ImagePreprocessing.inpaint_TELEA := fun im _ _ => Ok (S im);
     ImagePreprocessing.GaussianBlur := fun im _ _ => Ok im;
     ImagePreprocessing.addWeighted := fun im _ _ _ _ => Ok (im + 100)%nat;
     ImagePreprocessing.resize_NEAREST := fun im _ => Ok (2 * im)%nat;
     ImagePreprocessing.imdecode_COLOR := fun _ => Ok None |}.

(** The same with a blur that fails and a resize that fails. *)
Definition cv_all_fail : ImagePreprocessing.cv2 nat nat nat :=
  {| ImagePreprocessing.cvtColor_RGB2GRAY := fun _ =>
       Raise (Cv2Error "Invalid number of channels in input image");
     ImagePreprocessing.cvtColor_BGR2RGB := fun im => Ok im;
     ImagePreprocessing.getStructuringElement_RECT := fun _ => Ok 0%nat;
     ImagePreprocessing.morphologyEx_BLACKHAT := fun g _ => Ok g;
     ImagePreprocessing.threshold_BINARY := fun g _ _ => Ok (10%Z, g);
     ImagePreprocessing.inpaint_TELEA := fun im _ _ => Ok (S im);
     ImagePreprocessing.GaussianBlur := fun _ _ _ =>
       Raise (Cv2Error "GaussianBlur");
     ImagePreprocessing.addWeighted := fun im _ _ _ _ => Ok (im + 100)%nat;
     ImagePreprocessing.resize_NEAREST := fun _ _ =>
       Raise (Cv2Error "(-215:Assertion failed) !ssize.empty() in function 'resize'");
     ImagePreprocessing.imdecode_COLOR := fun _ => Ok None |}.

(** *** A small linear network, once per backend

    A pointwise (1x1) convolution with matrix [W1] as the only named
    layer, then global average pooling and a dense layer with matrix
    [W2].  Its gradients are linear algebra:
    d out[k] / d act[c][i][j] = W2[k][c] / (h*w), and
    d out[k] / d in[c'][i][j] = (sum over c of W2[k][c] * W1[c][c']) / (h*w). *)

Definition W1 : list (list Q) := [[1; 1; 0]; [0; 1; 1]; [0; 0; 1]; [1; 0; 0]].
Definition W2 : list (list Q) := [[1; 2; 3; 4]; [0; 1; 0; 1]].

Definition dot (u v : list Q) : Q := qsum (zip_with Qmult u v).

(** [g^T W]: the combination of the rows of [W] with coefficients [g] *)
Definition vec_mat (g : list Q) (W : list (list Q)) : list Q :=
  fold_left (zip_with Qplus)
            (zip_with (fun gk row => map (Qmult gk) row) g W)
            (repeat 0 (length (hd [] W))).

Definition per_cell (v : Q) (cells : nat) : Q :=
  v / inject_Z (Z.of_nat cells).

(** channel-first *)
Definition lin_comb (coeffs : list Q) (planes : chw) : grid Q :=
  fold_left grid_add (zip_with grid_scale coeffs planes)
            (map (map (fun _ => 0)) (hd [] planes)).

Definition conv1x1_chw (W : list (list Q)) (x : chw) : chw :=
  map (fun row => lin_comb row x) W.

Definition head_chw (a : chw) : list Q :=
  map (fun row => dot row (map plane_mean a)) W2.

Definition constant_planes (values : list Q) (like : grid Q) : chw :=
  map (fun v => map (map (fun _ => per_cell v (length (concat like)))) like)
      values.

Definition features_module : torch_module :=
  {| module_call := fun x => Ok (conv1x1_chw W1 x);
     is_Conv2d := true |}.

Definition tiny_torch : torch_model :=
  {| model_attr := Some [("features"%string, features_module)];
     named_modules := [("model.features"%string, features_module)];
     model_call := fun x => Ok (head_chw (conv1x1_chw W1 x));
     backward_input_grad := fun x g =>
       Ok (constant_planes (vec_mat (vec_mat g W2) W1) (hd [] x));
     hook_activation := fun _ x => Ok (conv1x1_chw W1 x);
     hook_gradient := fun _ x g =>
       Ok (constant_planes (vec_mat g W2) (hd [] x)) |}.

(** a 2x2 input with three channels *)
Definition input_chw : chw :=
  [ [[1; 2]; [3; 4]]; [[0; 1]; [1; 0]]; [[2; 2]; [0; 1]] ].

(** channel-last *)
Definition conv1x1_hwc (W : list (list Q)) (x : hwc) : hwc :=
  map (map (fun pixel => map (fun row => dot row pixel) W)) x.

Definition head_hwc (a : hwc) : list Q :=
  map (fun row => dot row (reduce_mean_12 a)) W2.

Definition conv_layer : keras_layer :=
  {| name := "conv2d_93"; is_Conv2D := true |}.

Definition pool_layer : keras_layer :=
  {| name := "global_average_pooling2d"; is_Conv2D := false |}.

Definition dense_layer : keras_layer :=
  {| name := "dense"; is_Conv2D := false |}.

Definition tiny_keras : keras_model :=
  {| layers := [conv_layer; pool_layer; dense_layer];
     predict := fun x => Ok (head_hwc (conv1x1_hwc W1 x));
     grad_model := fun _ x =>
       Ok (conv1x1_hwc W1 x, head_hwc (conv1x1_hwc W1 x));
     tape_gradient := fun _ x c =>
       Ok (map (map (fun _ =>
                  map (fun v => per_cell v (length (concat x)))
                      (nth c W2 [])))
               x) |}.

(** the same network with its convolution under another name *)
Definition renamed_keras : keras_model :=
  {| layers := [ {| name := "conv2d"; is_Conv2D := true |};
                 pool_layer; dense_layer ];
     predict := predict tiny_keras;
     grad_model := grad_model tiny_keras;
     tape_gradient := tape_gradient tiny_keras |}.

(** a 2x2 all-gray image, a 2x2 black one and one with structure *)
Definition gray_hwc : hwc :=
  [ [[1 # 2; 1 # 2; 1 # 2]; [1 # 2; 1 # 2; 1 # 2]];
    [[1 # 2; 1 # 2; 1 # 2]; [1 # 2; 1 # 2; 1 # 2]] ].

Definition black_hwc : hwc :=
  [ [[0; 0; 0]; [0; 0; 0]]; [[0; 0; 0]; [0; 0; 0]] ].

Definition input_hwc : hwc :=
  [ [[1; 0; 2]; [2; 1; 2]]; [[3; 1; 0]; [4; 0; 1]] ].

(** *** Library calls of the compositor *)

(** nearest-neighbour resampling to [(width, height)] *)
Definition resize_nearest (src : grid fl) (size : nat * nat)
  : result (grid fl) :=
  let (w, h) := size in
  let (sh, sw) := shape2 src in
  if Nat.eqb sh 0 || Nat.eqb sw 0 || Nat.eqb w 0 || Nat.eqb h 0 then
    Raise (Cv2Error "(-215:Assertion failed) !ssize.empty() in function 'resize'")
  else
    Ok (map (fun i =>
               map (fun j => nth (j * sw / w) (nth (i * sh / h) src []) NaN)
                   (seq 0 w))
            (seq 0 h)).

Definition nonfinite_to_zero (x : fl) : Z := 0.

(** a 1x2 image in [0,1], and one with a sample above 1 *)
Definition unit_image : hwc := [ [[1 # 2; 0; 1]; [1 # 4; 3 # 4; 0]] ].
Definition bright_image : hwc := [ [[2; 0; 0]] ].

(** *** A service over mock classifiers

    The classifiers answer with fixed probabilities, as the mock
    adapters of the specification's scenarios do. *)

Definition gray_u8 : image_u8 :=
  [ [[128; 128; 128]; [128; 128; 128]];
    [[128; 128; 128]; [128; 128; 128]] ]%Z.

Definition mock_cv : ImagePreprocessing.cv2 image_u8 (grid Z) (grid Z) :=
  {| ImagePreprocessing.cvtColor_RGB2GRAY := fun im =>
       Ok (map (map (fun px => hd 0%Z px)) im);
     ImagePreprocessing.cvtColor_BGR2RGB := fun im =>
       Ok (map (map (@rev Z)) im);
     ImagePreprocessing.getStructuringElement_RECT := fun size =>
       Ok (repeat (repeat 1%Z (fst size)) (snd size));
     ImagePreprocessing.morphologyEx_BLACKHAT := fun g _ =>
       Ok (map (map (fun _ => 0%Z)) g);
     ImagePreprocessing.threshold_BINARY := fun g t v =>
       Ok (t, map (map (fun x => if (t <? x)%Z then v else 0%Z)) g);
     ImagePreprocessing.inpaint_TELEA := fun im _ _ => Ok im;
     ImagePreprocessing.GaussianBlur := fun im _ _ => Ok im;
     ImagePreprocessing.addWeighted := fun im _ _ _ _ => Ok im;
     ImagePreprocessing.resize_NEAREST := fun im _ =>
       match im with
       | [] => Raise (Cv2Error "(-215:Assertion failed) !ssize.empty() in function 'resize'")
       | _ => Ok im
       end;
     ImagePreprocessing.imdecode_COLOR := fun b =>
       match b with [] => Ok None | _ => Ok (Some gray_u8) end |}.

Definition mock_str (e : exn) : string :=
  match e with
  | Cv2Error m | ValueError m | TypeError m | AttributeError m
  | UnboundLocalError m | IndexError m | KeyError m
  | UnidentifiedImageError m | RuntimeError m => m
  | HTTPException _ d => d
  end.

(** Undecodable bytes: the empty string.  A decodable image with no
    rows stands for one that the resize step rejects. *)
Definition mock_rt : runtime :=
  {| torch_softmax := fun logits => logits;
     cv2_resize := resize_nearest;
     nonfinite_uint8 := nonfinite_to_zero;
     PIL_open_RGB := fun b =>
       match b with
       | [] => Raise (UnidentifiedImageError "cannot identify image file")
       | [0%Z] => Ok []
       | _ => Ok gray_u8
       end;
     jpeg_base64 := fun _ => Ok "/9j/4AAQSkZJRg=="%string;
     py_str := mock_str |}.

Definition mock_mobilenet (probs : list Q) : MobileNetPredictor :=
  {| model :=
       {| model_attr := model_attr tiny_torch;
          named_modules := named_modules tiny_torch;
          model_call := fun _ => Ok probs;
          backward_input_grad := backward_input_grad tiny_torch;
          hook_activation := hook_activation tiny_torch;
          hook_gradient := hook_gradient tiny_torch |};
     transform := fun im =>
       Ok (channels_of (map (map (map inject_Z)) im)) |}.

Definition mock_nasnet (probs : list Q) : SkinLesionClassifier :=
  {| keras :=
       {| layers := layers tiny_keras;
          predict := fun _ => Ok probs;
          grad_model := fun _ x => Ok (conv1x1_hwc W1 x, probs);
          tape_gradient := fun _ x _ =>
            Ok (map (map (fun _ =>
                       map (fun v => per_cell v (length (concat x)))
                           [1; 2; 3; 4]))
                    x) |} |}.

Definition seven_probs : list Q :=
  [1 # 20; 1 # 20; 1 # 10; 1 # 20; 6 # 10; 1 # 10; 1 # 20].

End Examples.

(* ===================================================================== *)
(** ** The rest of the classifiers, and vocabulary for their properties *)
(* ===================================================================== *)

Module Rest.

(** *** MelanomaClassifier.py: ModelConfig and MobileNetV2Classifier *)

Record ModelConfig : Type := {
  learning_rate : Q;
  dropout_rate : Q;
  batch_size : nat;
  num_unfreeze_stages : nat;
  layers_per_stage : nat;
  grad_clip_value : Q;
  patience : nat;
  num_epochs : nat;
  image_size : nat;
  num_classes : nat
}.

(** [ModelConfig.__init__] *)
Definition ModelConfig_init : ModelConfig :=
  {| learning_rate := 8 # 10000;
     dropout_rate := 2 # 10;
     batch_size := 32;
     num_unfreeze_stages := 4;
     layers_per_stage := 3;
     grad_clip_value := 16514 # 10000;
     patience := 10;
     num_epochs := 50;
     image_size := 224;
     num_classes := 2 |}.

(** [l[-n:]]: the start index [-n] counts from the end, is clamped at
    the front of the list, and [-0] is [0]. *)
Definition slice_last {A} (n : nat) (l : list A) : list A :=
  skipn (if Nat.eqb n 0 then 0 else length l - n) l.

(** [requires_grad] of every parameter: one list per block of
    [self.model.features], and the parameters of [self.model.classifier]. *)
Record trainable : Type := {
  features_requires_grad : list (list bool);
  classifier_requires_grad : list bool
}.

(** [MobileNetV2Classifier.__init__], on the flags of the blocks of the
    pretrained [features].  The new classifier is [Dropout] (no
    parameter) and [Linear] (weight and bias). *)
Definition MobileNetV2Classifier_init (config : ModelConfig)
           (pretrained_features : list (list bool)) : trainable :=
  let classifier := [true; true] in
  (* for param in self.model.parameters(): param.requires_grad = False *)
  let features := map (map (fun _ => false)) pretrained_features in
  let classifier := map (fun _ => false) classifier in
  (* the blocks of stages_to_unfreeze are the last ones of features *)
  let stages_to_unfreeze :=
    slice_last (num_unfreeze_stages config * layers_per_stage config)
               features in
  let features :=
    firstn (length features - length stages_to_unfreeze) features
    ++ map (map (fun _ => true)) stages_to_unfreeze in
  (* for param in self.model.classifier.parameters(): ... = True *)
  let classifier := map (fun _ => true) classifier in
  {| features_requires_grad := features;
     classifier_requires_grad := classifier |}.

(** *** SkinLesionClassifier.py: the label table and the output layer *)

Definition LABELS : list (nat * string) :=
  [ (0, "akiec"); (1, "bcc"); (2, "bkl"); (3, "df");
    (4, "mel"); (5, "nv"); (6, "vasc") ]%nat%string.

(** [Dense(len(self.LABELS), activation='softmax')] *)
Definition output_units : nat := length LABELS.

(** *** Vocabulary *)

(** every row has the length of the first one, as in a numpy array *)
Definition rect {A} (g : grid A) : Prop :=
  Forall (fun row => length row = snd (shape2 g)) g.

(** [g[i][j]], when in range *)
Definition pixel_at {A} (g : grid A) (i j : nat) : option A :=
  match nth_error g i with
  | Some row => nth_error row j
  | None => None
  end.

(** one pixel of the visualization, from the pixel of the image and the
    byte of the heatmap at that place: the byte goes to channel 0 *)
Definition blend (alpha : Q) (px : list Q) (u : Z) : list Q :=
  match px with
  | [] => []
  | r :: others =>
      clip (r + alpha * inject_Z u) 0 1
      :: map (fun x => clip (x + alpha * 0) 0 1) others
  end.

End Rest.

Import Rest.

Module MoreExamples.

(** the small network with a target layer of two channels, fewer than
    its input has *)
Definition narrow_module : torch_module :=
  {| module_call := fun x =>
       Ok (Examples.conv1x1_chw [[1; 1; 0]; [0; 1; 1]] x);
     is_Conv2d := true |}.

Definition narrow_torch : torch_model :=
  {| model_attr := Some [("features"%string, narrow_module)];
     named_modules := [("model.features"%string, narrow_module)];
     model_call := fun x =>
       Ok (map (fun row =>
                  Examples.dot row
                    (map plane_mean
                         (Examples.conv1x1_chw [[1; 1; 0]; [0; 1; 1]] x)))
               [[1; 2]; [0; 1]]);
     backward_input_grad := fun x g =>
       Ok (Examples.constant_planes
             (Examples.vec_mat (Examples.vec_mat g [[1; 2]; [0; 1]])
                               [[1; 1; 0]; [0; 1; 1]])
             (hd [] x));
     hook_activation := fun _ x =>
       Ok (Examples.conv1x1_chw [[1; 1; 0]; [0; 1; 1]] x);
     hook_gradient := fun _ x g =>
       Ok (Examples.constant_planes
             (Examples.vec_mat g [[1; 2]; [0; 1]]) (hd [] x)) |}.

(** a 2x3 image with two channels: three pixels wide *)
Definition three_wide : hwc :=
  [ [[1; 2]; [3; 4]; [5; 6]]; [[7; 8]; [9; 10]; [11; 12]] ].

(** a 1x2 image and a heatmap of its size with a hot and a cold cell *)
Definition two_pixels : hwc := [ [[1 # 2; 1 # 4; 0]; [1 # 2; 1 # 4; 0]] ].
Definition hot_cold : grid fl := [ [Num (1 # 2); Num 0] ].

(** inputs with negative samples only: on the small network every cell
    of the weighted sum is then negative *)
Definition negative_chw : chw :=
  [ [[-1; -2]; [-3; -4]]; [[-1; -1]; [-1; -2]]; [[-2; -2]; [-1; -1]] ].

Definition negative_hwc : hwc :=
  [ [[-1; -1; -2]; [-2; -1; -2]]; [[-3; -1; -1]; [-4; -2; -1]] ].

End MoreExamples.

(** Turns the boolean comparisons in the context into inequalities. *)
Ltac qle_bool :=
  repeat match goal with
         | H : Qle_bool _ _ = true |- _ => apply Qle_bool_iff in H
         | H : Qle_bool ?a ?b = false |- _ =>
             assert (~ a <= b)
               by (let Hc := fresh in
                   intro Hc; apply Qle_bool_iff in Hc; congruence);
             clear H
         end.

(* ===================================================================== *)
(** * Properties *)
(* ===================================================================== *)

(** ** Preprocessing: fail-soft steps, optional result *)

Section PreprocessingFacts.
Context {Image Gray Kernel : Type}.
Variable cv : ImagePreprocessing.cv2 Image Gray Kernel.
Variable target_size : nat * nat.

Import ImagePreprocessing.

Lemma hair_remove_returns (image : Image) :
  exists a, hair_remove cv image = Ok a.
Proof.
  unfold hair_remove.
  destruct (hair_remove_body cv image) as [a|e]; simpl; eauto.
Qed.

Lemma sharpen_image_returns (image : Image) :
  exists a, sharpen_image cv image = Ok a.
Proof.
  unfold sharpen_image.
  destruct (sharpen_image_body cv image) as [a|e]; simpl; eauto.
Qed.

(** A failure of the last step, after the mask was computed, is a
    failure of the body: nothing of the earlier steps is kept. *)
Lemma hair_remove_body_inpaint_fails (image : Image) g k b t v e :
  cvtColor_RGB2GRAY cv image = Ok g ->
  getStructuringElement_RECT cv (17, 17)%nat = Ok k ->
  morphologyEx_BLACKHAT cv g k = Ok b ->
  threshold_BINARY cv b 10 255 = Ok (v, t) ->
  inpaint_TELEA cv image t 1 = Raise e ->
  hair_remove_body cv image = Raise e.
Proof.
  intros Hg Hk Hb Ht Hi. unfold hair_remove_body.
  rewrite Hg; simpl. rewrite Hk; simpl. rewrite Hb; simpl.
  rewrite Ht; simpl. now rewrite Hi.
Qed.

(** C7. When hair removal fails internally it returns its input
    unmodified, and the output of [preprocess] is then the input
    sharpened and resized; when sharpening fails internally it returns
    its input unmodified as well; neither step raises to the pipeline. *)
Theorem preprocess_fail_soft (image : Image) :
  (forall e, hair_remove_body cv image = Raise e ->
     hair_remove cv image = Ok image /\
     preprocess cv target_size image =
       try_except (s <- sharpen_image cv image ;;
                   r <- resize_NEAREST cv s target_size ;;
                   Ok (Some r))
                  (fun _ => Ok None)) /\
  (forall e, sharpen_image_body cv image = Raise e ->
     sharpen_image cv image = Ok image) /\
  (exists a, hair_remove cv image = Ok a) /\
  (exists a, sharpen_image cv image = Ok a).
Proof.
  split; [|split; [|split]].
  - intros e He.
    assert (Hh : hair_remove cv image = Ok image).
    { unfold hair_remove. now rewrite He. }
    split; [exact Hh|].
    unfold preprocess, preprocess_body. rewrite Hh; simpl.
    destruct (sharpen_image cv image) as [s|es]; simpl; [|reflexivity].
    destruct (resize_NEAREST cv s target_size); reflexivity.
  - intros e He. unfold sharpen_image. now rewrite He.
  - apply hair_remove_returns.
  - apply sharpen_image_returns.
Qed.

Lemma preprocess_returns (image : Image) :
  exists r, preprocess cv target_size image = Ok r.
Proof.
  unfold preprocess.
  destruct (r <- preprocess_body cv target_size image ;; Ok (Some r))
    as [a|e]; simpl; eauto.
Qed.

Lemma process_bytes_returns (image_bytes : list Z) :
  exists r, process_bytes cv target_size image_bytes = Ok r.
Proof.
  unfold process_bytes.
  match goal with |- exists r, try_except ?b _ = _ => destruct b end;
    simpl; eauto.
Qed.

Lemma preprocess_None_iff (image : Image) :
  preprocess cv target_size image = Ok None <->
  exists e, preprocess_body cv target_size image = Raise e.
Proof.
  unfold preprocess.
  destruct (preprocess_body cv target_size image) as [a|e]; simpl; split.
  - discriminate.
  - intros [e He]. discriminate.
  - eauto.
  - reflexivity.
Qed.

Lemma preprocess_body_resize_raises (image : Image) h s e :
  hair_remove cv image = Ok h ->
  sharpen_image cv h = Ok s ->
  resize_NEAREST cv s target_size = Raise e ->
  preprocess_body cv target_size image = Raise e.
Proof.
  intros Hh Hs Hr. unfold preprocess_body.
  rewrite Hh; simpl. rewrite Hs; simpl. now rewrite Hr.
Qed.

(** C10. [preprocess] and [process_bytes] never raise: each returns an
    image or the sentinel [None]; [preprocess] returns [None] exactly
    when its body raised, which a failing resize makes it do, and
    [process_bytes] returns [None] on data that do not decode. *)
Theorem preprocessing_entry_points_never_raise :
  (forall image, exists r, preprocess cv target_size image = Ok r) /\
  (forall image_bytes,
     exists r, process_bytes cv target_size image_bytes = Ok r) /\
  (forall image,
     preprocess cv target_size image = Ok None <->
     exists e, preprocess_body cv target_size image = Raise e) /\
  (forall image h s e,
     hair_remove cv image = Ok h ->
     sharpen_image cv h = Ok s ->
     resize_NEAREST cv s target_size = Raise e ->
     preprocess cv target_size image = Ok None) /\
  (forall image_bytes e,
     imdecode_COLOR cv image_bytes = Raise e \/
     imdecode_COLOR cv image_bytes = Ok None ->
     process_bytes cv target_size image_bytes = Ok None).
Proof.
  split; [exact preprocess_returns|].
  split; [exact process_bytes_returns|].
  split; [exact preprocess_None_iff|].
  split.
  - intros image h s e Hh Hs Hr. apply preprocess_None_iff.
    exists e. eapply preprocess_body_resize_raises; eauto.
  - intros image_bytes e [H|H]; unfold process_bytes; rewrite H; reflexivity.
Qed.

End PreprocessingFacts.

Lemma preprocess_fail_soft_witness :
  ImagePreprocessing.hair_remove Examples.cv_gray_fails 7%nat = Ok 7%nat /\
  ImagePreprocessing.preprocess Examples.cv_gray_fails (224, 224)%nat 7%nat
    = Ok (Some 214%nat) /\
  ImagePreprocessing.sharpen_image Examples.cv_all_fail 7%nat = Ok 7%nat.
Proof.
  pose proof (preprocess_fail_soft Examples.cv_gray_fails (224, 224)%nat 7%nat)
    as [H1 _].
  pose proof (preprocess_fail_soft Examples.cv_all_fail (224, 224)%nat 7%nat)
    as [_ [H2 _]].
  destruct (H1 _ eq_refl) as [Ha Hb].
  split; [exact Ha|]. split; [rewrite Hb; reflexivity|].
  exact (H2 _ eq_refl).
Defined.

Lemma preprocessing_entry_points_never_raise_witness :
  ImagePreprocessing.preprocess Examples.cv_all_fail (224, 224)%nat 7%nat
    = Ok None /\
  ImagePreprocessing.process_bytes Examples.cv_all_fail (224, 224)%nat [] 
    = Ok None.
Proof.
  pose proof (preprocessing_entry_points_never_raise
                Examples.cv_all_fail (224, 224)%nat)
    as [_ [_ [_ [H4 H5]]]].
  split.
  - apply (H4 7%nat 7%nat 7%nat
              (Cv2Error "(-215:Assertion failed) !ssize.empty() in function 'resize'"));
      reflexivity.
  - apply (H5 [] (Cv2Error "")). right. reflexivity.
Defined.

(** ** Generic facts on fallible calls and on lists of samples *)

Lemma bind_Ok_inv {A B} (c : result A) (k : A -> result B) (b : B) :
  Py.bind c k = Ok b -> exists a, c = Ok a /\ k a = Ok b.
Proof. destruct c as [a|e]; simpl; [eauto | discriminate]. Qed.

Lemma of_option_Ok_inv {A} (o : option A) (e : exn) (a : A) :
  of_option o e = Ok a -> o = Some a.
Proof. destruct o; simpl; congruence. Qed.

Lemma qmin_spec (x y : Q) : qmin x y <= x /\ qmin x y <= y.
Proof.
  unfold qmin. destruct (Qle_bool x y) eqn:E.
  - apply Qle_bool_iff in E. split; lra.
  - assert (~ x <= y) by (intro H; apply Qle_bool_iff in H; congruence).
    split; lra.
Qed.

Lemma qmax_spec (x y : Q) : x <= qmax x y /\ y <= qmax x y.
Proof.
  unfold qmax. destruct (Qle_bool x y) eqn:E.
  - apply Qle_bool_iff in E. split; lra.
  - assert (~ x <= y) by (intro H; apply Qle_bool_iff in H; congruence).
    split; lra.
Qed.

Lemma fold_qmin_le (r : list Q) : forall a,
  fold_left qmin r a <= a /\ (forall y, In y r -> fold_left qmin r a <= y).
Proof.
  induction r as [|x r IH]; intros a; simpl.
  - split; [lra | contradiction].
  - destruct (IH (qmin a x)) as [H1 H2].
    destruct (qmin_spec a x) as [Ha Hx].
    split; [lra|]. intros y [<-|Hy]; [lra | now apply H2].
Qed.

Lemma fold_qmax_ge (r : list Q) : forall a,
  a <= fold_left qmax r a /\ (forall y, In y r -> y <= fold_left qmax r a).
Proof.
  induction r as [|x r IH]; intros a; simpl.
  - split; [lra | contradiction].
  - destruct (IH (qmax a x)) as [H1 H2].
    destruct (qmax_spec a x) as [Ha Hx].
    split; [lra|]. intros y [<-|Hy]; [lra | now apply H2].
Qed.

Lemma list_min_le (l : list Q) (lo : Q) :
  list_min l = Some lo -> forall y, In y l -> lo <= y.
Proof.
  destruct l as [|x r]; simpl; [discriminate|].
  intros [= <-] y Hy. destruct (fold_qmin_le r x) as [H1 H2].
  destruct Hy as [<-|Hy]; [exact H1 | now apply H2].
Qed.

Lemma list_max_ge (l : list Q) (hi : Q) :
  list_max l = Some hi -> forall y, In y l -> y <= hi.
Proof.
  destruct l as [|x r]; simpl; [discriminate|].
  intros [= <-] y Hy. destruct (fold_qmax_ge r x) as [H1 H2].
  destruct Hy as [<-|Hy]; [exact H1 | now apply H2].
Qed.

Lemma list_min_le_max (l : list Q) (lo hi : Q) :
  list_min l = Some lo -> list_max l = Some hi -> lo <= hi.
Proof.
  intros Hlo Hhi. destruct l as [|x r]; [discriminate|].
  apply Qle_trans with x.
  - apply (list_min_le _ Hlo). now left.
  - apply (list_max_ge _ Hhi). now left.
Qed.

Lemma in_grid_concat {A} (g : grid A) (row : list A) (x : A) :
  In row g -> In x row -> In x (concat g).
Proof. intros Hr Hx. apply in_concat. eauto. Qed.

Lemma cells_map {A B} (P : B -> Prop) (f : A -> B) (g : grid A) :
  (forall row x, In row g -> In x row -> P (f x)) ->
  cells P (map (map f) g).
Proof.
  intros H. unfold cells. apply Forall_forall. intros row' Hrow'.
  apply in_map_iff in Hrow' as [row [<- Hrow]].
  apply Forall_forall. intros y Hy.
  apply in_map_iff in Hy as [x [<- Hx]]. eauto.
Qed.

(** ** Heatmap normalisation *)

(** The divisor of the guarded normalisation is positive. *)
Lemma minmax_divisor_positive (l : list Q) (lo hi : Q) :
  list_min l = Some lo -> list_max l = Some hi -> 0 < hi - lo + eps.
Proof.
  intros Hlo Hhi. pose proof (list_min_le_max _ Hlo Hhi).
  unfold eps. lra.
Qed.

Lemma minmax_scale_in_unit (lo hi x : Q) :
  lo <= x -> x <= hi -> in_unit (minmax_scale lo hi x).
Proof.
  intros H1 H2. unfold in_unit, minmax_scale, eps. split.
  - apply Qle_shift_div_l; lra.
  - apply Qle_shift_div_r; lra.
Qed.

Lemma minmax_scale_uniform (lo hi x : Q) :
  lo <= x -> x <= hi -> lo == hi -> minmax_scale lo hi x == 0.
Proof.
  intros H1 H2 H3. unfold minmax_scale.
  assert (Hx : x - lo == 0) by lra.
  rewrite Hx. unfold Qdiv. lra.
Qed.

Lemma normalize_grid_returns (g : grid Q) :
  concat g <> [] -> exists n, normalize_grid g = Ok n.
Proof.
  intros Hne. unfold normalize_grid, np_minmax.
  destruct (concat g) as [|x r] eqn:E; [congruence|]. simpl. eauto.
Qed.

Lemma normalize_grid_inv (g n : grid Q) :
  normalize_grid g = Ok n ->
  exists lo hi, list_min (concat g) = Some lo /\
                list_max (concat g) = Some hi /\
                n = map (map (minmax_scale lo hi)) g.
Proof.
  unfold normalize_grid, np_minmax. intros H.
  apply bind_Ok_inv in H as [lo [Hlo H]].
  apply bind_Ok_inv in H as [hi [Hhi H]].
  apply of_option_Ok_inv in Hlo. apply of_option_Ok_inv in Hhi.
  injection H as <-. eauto.
Qed.

Lemma normalize_grid_in_unit (g n : grid Q) :
  normalize_grid g = Ok n -> cells in_unit n.
Proof.
  intros H. apply normalize_grid_inv in H as (lo & hi & Hlo & Hhi & ->).
  apply cells_map. intros row x Hrow Hx.
  pose proof (in_grid_concat g row x Hrow Hx) as Hin.
  apply minmax_scale_in_unit.
  - now apply (list_min_le _ Hlo).
  - now apply (list_max_ge _ Hhi).
Qed.

Lemma normalize_grid_uniform (g n : grid Q) :
  normalize_grid g = Ok n -> uniform g -> cells (fun x => x == 0) n.
Proof.
  intros H (lo' & hi' & Hlo' & Hhi' & Heq).
  apply normalize_grid_inv in H as (lo & hi & Hlo & Hhi & ->).
  assert (lo' = lo) by congruence. assert (hi' = hi) by congruence.
  subst lo' hi'.
  apply cells_map. intros row x Hrow Hx.
  pose proof (in_grid_concat g row x Hrow Hx) as Hin.
  apply minmax_scale_uniform; [| | exact Heq].
  - now apply (list_min_le _ Hlo).
  - now apply (list_max_ge _ Hhi).
Qed.

Lemma relu_nonneg (x : Q) : 0 <= relu x.
Proof. unfold relu. apply qmax_spec. Qed.

Lemma relu_le (x m : Q) : x <= m -> 0 <= m -> relu x <= m.
Proof.
  intros Hx Hm. unfold relu, qmax.
  destruct (Qle_bool x 0); lra.
Qed.

Lemma fdiv_nonzero (x y : Q) : ~ y == 0 -> fdiv x y = Num (x / y).
Proof.
  intros Hy. unfold fdiv.
  destruct (Qeq_bool y 0) eqn:E; [|reflexivity].
  apply Qeq_bool_iff in E. contradiction.
Qed.

Lemma tf_max_scale_in_unit (g : grid Q) (m : Q) :
  list_max (concat g) = Some m -> ~ m == 0 ->
  cells fl_in_unit (tf_max_scale g).
Proof.
  intros Hm Hnz. unfold tf_max_scale. rewrite Hm.
  apply cells_map. intros row x Hrow Hx.
  pose proof (in_grid_concat g row x Hrow Hx) as Hin.
  pose proof (list_max_ge _ Hm _ Hin) as Hle.
  rewrite fdiv_nonzero by exact Hnz. simpl.
  destruct (Qlt_le_dec 0 m) as [Hpos|Hneg].
  - split.
    + apply Qle_shift_div_l; [lra|]. pose proof (relu_nonneg x). lra.
    + apply Qle_shift_div_r; [lra|].
      assert (relu x <= m) by (apply relu_le; lra). lra.
  - assert (Hr : relu x = 0).
    { unfold relu, qmax. destruct (Qle_bool x 0) eqn:E; [reflexivity|].
      assert (~ x <= 0) by (intro H; apply Qle_bool_iff in H; congruence).
      lra. }
    rewrite Hr.
    assert (Hz : 0 / m == 0) by (unfold Qdiv; ring).
    unfold in_unit. rewrite Hz. split; lra.
Qed.

(** Where the TensorFlow scaling leaves the guarded formula: a uniform
    positive grid is mapped to ones. *)
Lemma tf_max_scale_uniform_positive (g : grid Q) (lo hi : Q) :
  list_min (concat g) = Some lo -> list_max (concat g) = Some hi ->
  lo == hi -> 0 < hi -> cells (fl_is 1) (tf_max_scale g).
Proof.
  intros Hlo Hhi Heq Hpos. unfold tf_max_scale. rewrite Hhi.
  apply cells_map. intros row x Hrow Hx.
  pose proof (in_grid_concat g row x Hrow Hx) as Hin.
  pose proof (list_max_ge _ Hhi _ Hin) as Hle.
  pose proof (list_min_le _ Hlo _ Hin) as Hge.
  rewrite fdiv_nonzero by lra. simpl.
  assert (Hr : relu x == hi).
  { unfold relu, qmax. destruct (Qle_bool x 0) eqn:E.
    - apply Qle_bool_iff in E. lra.
    - lra. }
  rewrite Hr. field. lra.
Qed.

(** With a zero maximum every cell is [0/0]. *)
Lemma tf_max_scale_zero_max (g : grid Q) (m : Q) :
  list_max (concat g) = Some m -> m == 0 ->
  cells (fun x => x = NaN) (tf_max_scale g).
Proof.
  intros Hm Hz. unfold tf_max_scale. rewrite Hm.
  apply cells_map. intros row x Hrow Hx.
  pose proof (in_grid_concat g row x Hrow Hx) as Hin.
  pose proof (list_max_ge _ Hm _ Hin) as Hle.
  unfold fdiv.
  assert (E1 : Qeq_bool m 0 = true) by now apply Qeq_bool_iff.
  rewrite E1.
  assert (E2 : Qeq_bool (relu x) 0 = true).
  { apply Qeq_bool_iff. unfold relu, qmax.
    destruct (Qle_bool x 0) eqn:E; [reflexivity|].
    assert (~ x <= 0) by (intro H; apply Qle_bool_iff in H; congruence).
    lra. }
  now rewrite E2.
Qed.

Lemma pytorch_grad_cam_inv model input_tensor target_class layer_name img heat :
  pytorch_grad_cam model input_tensor target_class layer_name = Ok (img, heat) ->
  exists w raw,
    pytorch_weighted_sum model input_tensor target_class layer_name
      = Ok (w, raw) /\
    normalize_grid (map (map relu) raw) = Ok heat.
Proof.
  unfold pytorch_grad_cam. intros H.
  apply bind_Ok_inv in H as [[w raw] [Hws H]].
  apply bind_Ok_inv in H as [heat' [Hn H]].
  apply bind_Ok_inv in H as [img' [_ H]].
  injection H as _ <-. eauto.
Qed.

Lemma tensorflow_grad_cam_inv model input_tensor target_class layer_name
      img heat :
  tensorflow_grad_cam model input_tensor target_class layer_name
    = Ok (img, heat) ->
  exists w raw,
    tensorflow_weighted_sum model (fix_input_shape input_tensor) target_class
                            layer_name = Ok (w, raw) /\
    heat = tf_max_scale raw.
Proof.
  unfold tensorflow_grad_cam. intros H.
  apply bind_Ok_inv in H as [[w raw] [Hws H]].
  apply bind_Ok_inv in H as [img' [_ H]].
  injection H as _ <-. eauto.
Qed.

(** C2, as the code has it.  PyTorch variant: every cell of the returned
    heatmap lies in [0,1], a uniform rectified sum gives an all-zero
    heatmap, and the divisor [max - min + 1e-8] is positive.  TensorFlow
    variant: every cell lies in [0,1] when the largest cell of the
    weighted sum is not zero. *)
Theorem heatmap_cells_in_unit :
  (forall model input_tensor target_class layer_name img heat,
     pytorch_grad_cam model input_tensor target_class layer_name
       = Ok (img, heat) ->
     cells in_unit heat /\
     (forall w raw,
        pytorch_weighted_sum model input_tensor target_class layer_name
          = Ok (w, raw) ->
        uniform (map (map relu) raw) -> cells (fun x => x == 0) heat)) /\
  (forall samples lo hi,
     list_min samples = Some lo -> list_max samples = Some hi ->
     0 < hi - lo + eps) /\
  (forall model input_tensor target_class layer_name img heat w raw m,
     tensorflow_grad_cam model input_tensor target_class layer_name
       = Ok (img, heat) ->
     tensorflow_weighted_sum model (fix_input_shape input_tensor) target_class
                             layer_name = Ok (w, raw) ->
     list_max (concat raw) = Some m -> ~ m == 0 ->
     cells fl_in_unit heat).
Proof.
  split; [|split].
  - intros model input_tensor target_class layer_name img heat H.
    apply pytorch_grad_cam_inv in H as (w & raw & Hws & Hn).
    split.
    + eapply normalize_grid_in_unit; eauto.
    + intros w' raw' Hws' Hu.
      rewrite Hws in Hws'. injection Hws' as <- <-.
      eapply normalize_grid_uniform; eauto.
  - exact minmax_divisor_positive.
  - intros model input_tensor target_class layer_name img heat w raw m
           H Hws Hm Hnz.
    apply tensorflow_grad_cam_inv in H as (w' & raw' & Hws' & ->).
    rewrite Hws in Hws'. injection Hws' as <- <-.
    eapply tf_max_scale_in_unit; eauto.
Qed.

Lemma heatmap_cells_in_unit_witness :
  (exists img heat,
     pytorch_grad_cam Examples.tiny_torch Examples.input_chw 0 "features"
       = Ok (img, heat) /\ cells in_unit heat) /\
  0 < 3 - 1 + eps /\
  (exists img heat,
     tensorflow_grad_cam Examples.tiny_keras Examples.input_hwc 0 "conv2d_93"
       = Ok (img, heat) /\ cells fl_in_unit heat).
Proof.
  destruct heatmap_cells_in_unit as [Hp [He Ht]].
  split; [|split].
  - destruct (pytorch_grad_cam Examples.tiny_torch Examples.input_chw 0
                               "features") as [[img heat]|e] eqn:E.
    + exists img, heat. split; [reflexivity|].
      exact (proj1 (Hp _ _ _ _ _ _ E)).
    + vm_compute in E. discriminate E.
  - apply (He [1; 3; 2]); reflexivity.
  - destruct (tensorflow_grad_cam Examples.tiny_keras Examples.input_hwc 0
                                  "conv2d_93") as [[img heat]|e] eqn:E.
    + exists img, heat. split; [reflexivity|].
      destruct (tensorflow_weighted_sum
                  Examples.tiny_keras (fix_input_shape Examples.input_hwc) 0
                  "conv2d_93") as [[w raw]|e] eqn:Ews.
      * destruct (list_max (concat raw)) as [m|] eqn:Em.
        -- apply (Ht _ _ _ _ _ _ _ _ _ E Ews Em).
           vm_compute in Ews. injection Ews as <- <-.
           vm_compute in Em. injection Em as <-. discriminate.
        -- vm_compute in Ews. injection Ews as <- <-.
           vm_compute in Em. discriminate Em.
      * vm_compute in Ews. discriminate Ews.
    + vm_compute in E. discriminate E.
Defined.

(** C2 as stated fails on the TensorFlow variant: for a uniform image
    the weighted sum is uniform and positive, and the returned heatmap
    is all ones, not all zeros. *)
Lemma tensorflow_uniform_heatmap_is_ones :
  exists img heat w raw,
    tensorflow_grad_cam Examples.tiny_keras Examples.gray_hwc 0 "conv2d_93"
      = Ok (img, heat) /\
    tensorflow_weighted_sum Examples.tiny_keras
                            (fix_input_shape Examples.gray_hwc) 0 "conv2d_93"
      = Ok (w, raw) /\
    uniform raw /\
    cells (fl_is 1) heat /\
    ~ cells (fl_is 0) heat.
Proof.
  eexists. eexists. eexists. eexists.
  split; [vm_compute; reflexivity|].
  split; [vm_compute; reflexivity|].
  split; [|split].
  - eexists. eexists. split; [vm_compute; reflexivity|].
    split; [vm_compute; reflexivity|]. reflexivity.
  - repeat constructor.
  - intros H. inversion H as [|? ? Hrow _]. inversion Hrow as [|? ? Hcell _].
    vm_compute in Hcell. discriminate Hcell.
Qed.

(** On a black image the weighted sum is zero everywhere and every
    cell of the TensorFlow heatmap is [0/0]. *)
Example tensorflow_zero_heatmap_is_nan :
  exists img,
    tensorflow_grad_cam Examples.tiny_keras Examples.black_hwc 0 "conv2d_93"
      = Ok (img, [[NaN; NaN]; [NaN; NaN]]).
Proof. eexists. vm_compute. reflexivity. Qed.

(** ** Compositing *)

Section CompositorFacts.
Variable cv2_resize : grid fl -> nat * nat -> result (grid fl).
Variable nonfinite_uint8 : fl -> Z.

Lemma clip_in_unit (y : Q) : in_unit (clip y 0 1).
Proof.
  unfold in_unit, clip, qmin, qmax.
  destruct (Qle_bool y 0) eqn:E1.
  - destruct (Qle_bool 0 1) eqn:E2; lra.
  - assert (~ y <= 0) by (intro H; apply Qle_bool_iff in H; congruence).
    destruct (Qle_bool y 1) eqn:E2.
    + apply Qle_bool_iff in E2. lra.
    + lra.
Qed.

Lemma clip_id (x alpha : Q) : in_unit x -> clip (x + alpha * 0) 0 1 == x.
Proof.
  intros [H0 H1]. unfold clip, qmin, qmax.
  destruct (Qle_bool (x + alpha * 0) 0) eqn:E1.
  - apply Qle_bool_iff in E1. change (Qle_bool 0 1) with true. cbv iota. lra.
  - destruct (Qle_bool (x + alpha * 0) 1) eqn:E2.
    + lra.
    + assert (~ x + alpha * 0 <= 1)
        by (intro H; apply Qle_bool_iff in H; congruence).
      lra.
Qed.

Lemma zip_with_map {A B C D} (f : B -> C -> D) (g : A -> B) (h : A -> C)
      (l : list A) :
  zip_with f (map g l) (map h l) = map (fun x => f (g x) (h x)) l.
Proof. induction l as [|x l IH]; simpl; [reflexivity | now rewrite IH]. Qed.

Lemma zip_with_map_r {A C D} (f : A -> C -> D) (h : A -> C) (l : list A) :
  zip_with f l (map h l) = map (fun x => f x (h x)) l.
Proof. induction l as [|x l IH]; simpl; [reflexivity | now rewrite IH]. Qed.

Lemma shape2_map {A B} (f : list A -> list B) (g : grid A) :
  (forall row, length (f row) = length row) ->
  shape2 (map f g) = shape2 g.
Proof.
  intros Hf. unfold shape2. rewrite length_map.
  destruct g as [|row g]; simpl; [reflexivity | now rewrite Hf].
Qed.

Lemma shape_eqb_refl (s : nat * nat) : shape_eqb s s = true.
Proof. unfold shape_eqb. now rewrite !Nat.eqb_refl. Qed.

Lemma Forall2_map_self {A} (R : A -> A -> Prop) (f : A -> A) (l : list A) :
  Forall (fun x => R (f x) x) l -> Forall2 R (map f l) l.
Proof. induction 1; simpl; constructor; assumption. Qed.

Lemma no_empty_pixel (a : hwc) :
  has_channels a ->
  existsb (existsb (fun px : list Q =>
                      match px with [] => true | _ => false end))
          (zeros_like a) = false.
Proof.
  unfold has_channels, zeros_like. intros H.
  induction H as [|row a Hrow _ IH]; simpl; [reflexivity|].
  rewrite IH, orb_false_r.
  induction Hrow as [|px row Hpx _ IHrow]; simpl; [reflexivity|].
  rewrite IHrow, orb_false_r. destruct px; [congruence | reflexivity].
Qed.

(** Writing zeros into channel 0 of a zero image changes nothing. *)
Lemma set_channel_0_zeros (a : hwc) :
  has_channels a ->
  set_channel_0 (zeros_like a) (map (map (fun _ => 0%Z)) a)
  = Ok (zeros_like a).
Proof.
  intros Hc. unfold set_channel_0.
  assert (Hs : shape2 (zeros_like a)
               = shape2 (map (map (fun _ : list Q => 0%Z)) a)).
  { unfold zeros_like.
    rewrite !shape2_map by (intros; apply length_map). reflexivity. }
  rewrite Hs, shape_eqb_refl. simpl.
  rewrite (no_empty_pixel Hc).
  unfold zeros_like. rewrite zip_with_map. apply (f_equal Ok).
  apply map_ext. intros row. rewrite zip_with_map.
  apply map_ext. intros px. destruct px; reflexivity.
Qed.

(** The blend, once the heatmap is all zero and of the image's size. *)
Lemma composite_zero (image : hwc) (alpha : Q) :
  has_channels image ->
  apply_grad_cam cv2_resize nonfinite_uint8 image (zero_heatmap_like image) alpha
  = Ok (map (map (map (fun x => clip (x + alpha * 0) 0 1))) image).
Proof.
  intros Hc. unfold apply_grad_cam, zero_heatmap_like.
  rewrite (shape2_map (map (fun _ : list Q => Num 0)))
    by (intros; apply length_map).
  rewrite shape_eqb_refl. simpl.
  rewrite map_map.
  rewrite (map_ext _ (map (fun _ : list Q => 0%Z)))
    by (intros row; now rewrite map_map).
  rewrite (set_channel_0_zeros Hc). simpl. apply (f_equal Ok).
  unfold zeros_like. rewrite zip_with_map_r, map_map.
  apply map_ext. intros row. rewrite zip_with_map_r, map_map.
  apply map_ext. intros px. now rewrite zip_with_map_r, map_map.
Qed.

Lemma clipped_same_image (image : hwc) (alpha : Q) :
  samples in_unit image ->
  same_image (map (map (map (fun x => clip (x + alpha * 0) 0 1))) image)
             image.
Proof.
  unfold samples, same_image. intros H.
  apply Forall2_map_self. eapply Forall_impl; [|exact H].
  intros row Hrow. apply Forall2_map_self.
  eapply Forall_impl; [|exact Hrow].
  intros px Hpx. apply Forall2_map_self.
  eapply Forall_impl; [|exact Hpx].
  intros x Hx. now apply clip_id.
Qed.

Lemma composite_in_unit (image : hwc) (heatmap : grid fl) (alpha : Q)
      (v : hwc) :
  apply_grad_cam cv2_resize nonfinite_uint8 image heatmap alpha = Ok v -> samples in_unit v.
Proof.
  unfold apply_grad_cam. intros H.
  apply bind_Ok_inv in H as [h [_ H]].
  apply bind_Ok_inv in H as [c [_ H]].
  injection H as <-. unfold samples.
  apply Forall_forall. intros row Hrow.
  apply in_map_iff in Hrow as [row0 [<- _]].
  apply Forall_forall. intros px Hpx.
  apply in_map_iff in Hpx as [px0 [<- _]].
  apply Forall_forall. intros x Hx.
  apply in_map_iff in Hx as [x0 [<- _]].
  apply clip_in_unit.
Qed.

(** C9, as the code has it.  For an image with samples in [0,1] an
    all-zero heatmap leaves the image as it is, both when the heatmap
    has the image's size and when [cv2.resize] brings it to that size;
    and whatever the image and the heatmap, every sample of a returned
    visualization lies in [0,1]. *)
Theorem composite_zero_heatmap_and_bound :
  (forall image alpha,
     has_channels image -> samples in_unit image ->
     exists v, apply_grad_cam cv2_resize nonfinite_uint8 image (zero_heatmap_like image) alpha = Ok v /\
               same_image v image) /\
  (forall image heatmap alpha,
     has_channels image -> samples in_unit image ->
     shape_eqb (shape2 image) (shape2 heatmap) = false ->
     cv2_resize heatmap (snd (shape2 image), fst (shape2 image))
       = Ok (zero_heatmap_like image) ->
     exists v, apply_grad_cam cv2_resize nonfinite_uint8 image heatmap alpha = Ok v /\ same_image v image) /\
  (forall image heatmap alpha v,
     apply_grad_cam cv2_resize nonfinite_uint8 image heatmap alpha = Ok v -> samples in_unit v).
Proof.
  split; [|split].
  - intros image alpha Hc Hu. eexists. split.
    + now apply composite_zero.
    + now apply clipped_same_image.
  - intros image heatmap alpha Hc Hu Hne Hr.
    pose proof (composite_zero alpha Hc) as Hz.
    unfold apply_grad_cam in *. rewrite Hne, Hr.
    unfold zero_heatmap_like in Hz.
    rewrite (shape2_map (map (fun _ : list Q => Num 0))) in Hz
      by (intros; apply length_map).
    rewrite shape_eqb_refl in Hz. simpl in Hz. simpl.
    eexists. split; [exact Hz|]. now apply clipped_same_image.
  - exact composite_in_unit.
Qed.

End CompositorFacts.

Lemma composite_zero_heatmap_and_bound_witness :
  (exists v, apply_grad_cam Examples.resize_nearest Examples.nonfinite_to_zero
               Examples.unit_image [[Num 0; Num 0]] default_alpha = Ok v /\
             same_image v Examples.unit_image) /\
  (exists v, apply_grad_cam Examples.resize_nearest Examples.nonfinite_to_zero
               Examples.unit_image [[Num 0]] default_alpha = Ok v /\
             same_image v Examples.unit_image) /\
  samples in_unit [ [[1; 0; 0]] ].
Proof.
  destruct (composite_zero_heatmap_and_bound
              Examples.resize_nearest Examples.nonfinite_to_zero)
    as [Ha [Hb Hc]].
  assert (Hch : has_channels Examples.unit_image).
  { repeat constructor; discriminate. }
  assert (Hu : samples in_unit Examples.unit_image).
  { repeat constructor; discriminate. }
  split; [|split].
  - exact (Ha Examples.unit_image default_alpha Hch Hu).
  - apply (Hb Examples.unit_image [[Num 0]] default_alpha Hch Hu);
      reflexivity.
  - apply (Hc Examples.bright_image [[Num 1]] default_alpha).
    vm_compute. reflexivity.
Defined.

(** C9 as stated fails for an image with a sample outside [0,1]: the
    clip changes it although the heatmap is all zero. *)
Lemma composite_zero_heatmap_not_identity :
  apply_grad_cam Examples.resize_nearest Examples.nonfinite_to_zero
                 Examples.bright_image
                 (zero_heatmap_like Examples.bright_image) default_alpha
    = Ok [ [[1; 0; 0]] ] /\
  ~ same_image [ [[1; 0; 0]] ] Examples.bright_image.
Proof.
  split.
  - vm_compute. reflexivity.
  - intros H. inversion H as [|? ? ? ? Hrow _]; subst.
    inversion Hrow as [|? ? ? ? Hpx _]; subst.
    inversion Hpx as [|? ? ? ? Hx _]; subst.
    vm_compute in Hx. discriminate Hx.
Qed.

(** ** Target-layer lookup *)

Lemma find_module_None_raises (model : torch_model) (layer_name : string) :
  find_module (target_model model) layer_name = None ->
  pytorch_target_layer model layer_name
  = Raise (ValueError ("Layer " ++ layer_name ++ " not found in model")).
Proof. unfold pytorch_target_layer. now intros ->. Qed.

Lemma get_layer_unresolved (model : keras_model) (layer_name : string) :
  find (fun l => String.eqb (name l) layer_name) (layers model) = None ->
  get_layer model layer_name
  = Raise (ValueError ("No such layer: " ++ layer_name)).
Proof. unfold get_layer. now intros ->. Qed.

(** [find] on the reversed list gives the last match. *)
Lemma find_rev_last {A} (p : A -> bool) (l : list A) (x : A) :
  find p (rev l) = Some x ->
  exists before after,
    l = before ++ x :: after /\ p x = true /\
    forall y, In y after -> p y = false.
Proof.
  induction l as [|a l IH] using rev_ind; simpl.
  - discriminate.
  - rewrite rev_app_distr. simpl. destruct (p a) eqn:Ea.
    + intros [= <-]. exists l, []. repeat split; auto. intros y [].
    + intros H. destruct (IH H) as (before & after & -> & Hp & Hafter).
      exists before, (after ++ [a]). split; [|split]; auto.
      * now rewrite <- app_assoc.
      * intros y Hy. apply in_app_or in Hy as [Hy|[<-|[]]]; auto.
Qed.

(** C6, as the code has it.  PyTorch variant: an unresolved layer name
    raises the named error at once, before the model is run, and there
    is no fallback.  TensorFlow variant: an unresolved name is replaced,
    once, by the last [Conv2D] layer of the model when there is one. *)
Theorem unresolved_target_layer :
  (forall model input_tensor target_class layer_name,
     find_module (target_model model) layer_name = None ->
     pytorch_target_layer model layer_name
       = Raise (ValueError ("Layer " ++ layer_name ++ " not found in model")) /\
     pytorch_grad_cam model input_tensor target_class layer_name
       = Raise (ValueError ("Layer " ++ layer_name ++ " not found in model"))) /\
  (forall model layer_name layer,
     find (fun l => String.eqb (name l) layer_name) (layers model) = None ->
     last_Conv2D model = Some layer ->
     tensorflow_target_layer model layer_name = Ok (name layer, layer) /\
     exists before after,
       layers model = before ++ layer :: after /\
       is_Conv2D layer = true /\
       forall l, In l after -> is_Conv2D l = false).
Proof.
  split.
  - intros model input_tensor target_class layer_name H.
    pose proof (find_module_None_raises model layer_name H) as Hr.
    split; [exact Hr|].
    unfold pytorch_grad_cam, pytorch_weighted_sum. now rewrite Hr.
  - intros model layer_name layer Hun Hlast. split.
    + unfold tensorflow_target_layer.
      rewrite (get_layer_unresolved model layer_name Hun). simpl.
      now rewrite Hlast.
    + now apply find_rev_last.
Qed.

Lemma unresolved_target_layer_witness :
  pytorch_grad_cam Examples.tiny_torch Examples.input_chw 0 "conv2d_93"
    = Raise (ValueError "Layer conv2d_93 not found in model") /\
  tensorflow_target_layer Examples.renamed_keras "conv2d_93"
    = Ok ("conv2d"%string, {| name := "conv2d"; is_Conv2D := true |}).
Proof.
  destruct unresolved_target_layer as [Hp Ht]. split.
  - apply (Hp Examples.tiny_torch Examples.input_chw 0%nat
              "conv2d_93"%string). reflexivity.
  - apply (Ht Examples.renamed_keras "conv2d_93"%string
              {| name := "conv2d"; is_Conv2D := true |});
      reflexivity.
Defined.

(** C6 as stated fails on the PyTorch variant: the model has a
    convolution, the name does not resolve, and the call raises
    without trying it. *)
Lemma pytorch_has_no_fallback :
  find (fun nm => is_Conv2d (snd nm))
       (rev (target_model Examples.tiny_torch))
    = Some ("features"%string, Examples.features_module) /\
  pytorch_grad_cam Examples.tiny_torch Examples.input_chw 0 "conv2d_93"
    = Raise (ValueError "Layer conv2d_93 not found in model") /\
  exists r,
    pytorch_grad_cam Examples.tiny_torch Examples.input_chw 0 "features"
      = Ok r.
Proof.
  split; [reflexivity|]. split; [reflexivity|].
  eexists. vm_compute. reflexivity.
Qed.

(** In the TensorFlow variant a model without any [Conv2D] leaves
    [target_layer] unbound: the [ValueError] of the source is never
    reached. *)
Example tensorflow_no_conv_unbound_local :
  tensorflow_target_layer
    {| layers := [Examples.pool_layer; Examples.dense_layer];
       predict := predict Examples.tiny_keras;
       grad_model := grad_model Examples.tiny_keras;
       tape_gradient := tape_gradient Examples.tiny_keras |}
    "conv2d_93"
  = Raise (UnboundLocalError
      "cannot access local variable 'target_layer' where it is not associated with a value").
Proof. reflexivity. Qed.

(** ** Weights and weighted sum *)

(** PyTorch variant: the weights are the spatial means of
    [input_tensor.grad], the gradient at the input of the model, and the
    loop pairs them with the first channels of the layer's output. *)
Lemma pytorch_weights_are_input_gradient_means
      model input_tensor target_class layer_name w raw :
  pytorch_weighted_sum model input_tensor target_class layer_name
    = Ok (w, raw) ->
  exists output g gradients,
    model_call model input_tensor = Ok output /\
    one_hot output target_class = Ok g /\
    backward_input_grad model input_tensor g = Ok gradients /\
    w = spec_weights gradients.
Proof.
  unfold pytorch_weighted_sum. intros H.
  apply bind_Ok_inv in H as [layer [_ H]].
  apply bind_Ok_inv in H as [output [Hout H]].
  apply bind_Ok_inv in H as [g [Hg H]].
  apply bind_Ok_inv in H as [gradients [Hgr H]].
  apply bind_Ok_inv in H as [features [_ H]].
  apply bind_Ok_inv in H as [heat [_ H]].
  injection H as <- _.
  exists output, g, gradients. auto.
Qed.

(** TensorFlow variant: the weights are the spatial means of the
    gradient at the output of the target layer, and the sum runs over
    the channels of that output. *)
Lemma tensorflow_weighted_sum_inv
      model input_tensor target_class layer_name w raw :
  tensorflow_weighted_sum model input_tensor target_class layer_name
    = Ok (w, raw) ->
  exists used_name target_layer conv_output predictions grads,
    tensorflow_target_layer model layer_name = Ok (used_name, target_layer) /\
    grad_model model target_layer input_tensor
      = Ok (conv_output, predictions) /\
    tape_gradient model target_layer input_tensor target_class = Ok grads /\
    w = reduce_mean_12 grads /\
    raw = reduce_sum_weighted w conv_output.
Proof.
  unfold tensorflow_weighted_sum. intros H.
  apply bind_Ok_inv in H as [[used_name target_layer] [Hl H]].
  apply bind_Ok_inv in H as [[conv_output predictions] [Hg H]].
  apply bind_Ok_inv in H as [loss [_ H]].
  apply bind_Ok_inv in H as [grads [Hgr H]].
  injection H as <- <-.
  exists used_name, target_layer, conv_output, predictions, grads. auto.
Qed.

Lemma Forall2_Qeq_length (u v : list Q) : same_list u v -> length u = length v.
Proof. induction 1; simpl; congruence. Qed.

(** C3 on the PyTorch variant, evaluated.  On the small network the
    gradient at the target layer's output has four channels with spatial
    means 1/4, 2/4, 3/4 and 1; [pytorch_grad_cam] instead uses three
    weights, the spatial means 5/4, 3/4, 5/4 of the gradient at the
    model's input, and its weighted sum is not the sum over the
    activation's channels of weight times channel. *)
Theorem pytorch_weights_not_activation_gradient :
  exists w raw in_grad act_grad act,
    pytorch_weighted_sum Examples.tiny_torch Examples.input_chw 0 "features"
      = Ok (w, raw) /\
    backward_input_grad Examples.tiny_torch Examples.input_chw [1; 0]
      = Ok in_grad /\
    hook_gradient Examples.tiny_torch "features" Examples.input_chw [1; 0]
      = Ok act_grad /\
    hook_activation Examples.tiny_torch "features" Examples.input_chw
      = Ok act /\
    w = spec_weights in_grad /\
    same_list w [5 # 4; 3 # 4; 5 # 4] /\
    same_list (spec_weights act_grad) [1 # 4; 2 # 4; 3 # 4; 1] /\
    ~ same_list w (spec_weights act_grad) /\
    ~ same_grid raw (spec_heatmap (spec_weights act_grad) act (zeros 2 2)).
Proof.
  eexists. eexists. eexists. eexists. eexists.
  split; [vm_compute; reflexivity|].
  split; [vm_compute; reflexivity|].
  split; [vm_compute; reflexivity|].
  split; [vm_compute; reflexivity|].
  split; [vm_compute; reflexivity|].
  split; [repeat constructor|].
  split; [repeat constructor|].
  split.
  - intros H. apply Forall2_Qeq_length in H. vm_compute in H. discriminate H.
  - intros H. inversion H as [|? ? ? ? Hrow _]; subst.
    inversion Hrow as [|? ? ? ? Hcell _]; subst.
    vm_compute in Hcell. discriminate Hcell.
Qed.

(** ** The TensorFlow variant against the words of the specification *)

Lemma qsum_from (l : list Q) : forall a, fold_left Qplus l a == a + qsum l.
Proof.
  unfold qsum. induction l as [|x l IH]; intros a; cbn [fold_left].
  - lra.
  - rewrite (IH (a + x)), (IH (0 + x)). lra.
Qed.

Lemma qsum_cons (x : Q) (l : list Q) : qsum (x :: l) == x + qsum l.
Proof. unfold qsum. cbn [fold_left]. rewrite qsum_from. unfold qsum. lra. Qed.

Lemma concat_map_map {A B} (f : A -> B) (g : grid A) :
  concat (map (map f) g) = map f (concat g).
Proof. symmetry. apply concat_map. Qed.

Lemma map_map_map {A B C} (f : B -> C) (h : A -> B) (g : grid A) :
  map (map f) (map (map h) g) = map (map (fun x => f (h x))) g.
Proof.
  rewrite map_map. apply map_ext. intros row. now rewrite map_map.
Qed.

Lemma grid_add_map {A} (f h : A -> Q) (g : grid A) :
  grid_add (map (map f) g) (map (map h) g)
  = map (map (fun x => f x + h x)) g.
Proof.
  unfold grid_add. rewrite zip_with_map.
  apply map_ext. intros row. now rewrite zip_with_map.
Qed.

(** The sum over the channels of weight times channel, cell by cell. *)
Lemma spec_heatmap_cells (act : hwc) (ws : list Q) : forall k n,
  spec_heatmap ws (map (fun c => channel c act) (seq k n))
               (map (map (fun _ => 0)) act)
  = map (map (pixel_sum ws k n)) act.
Proof.
  induction ws as [|w ws IH]; intros k n.
  - destruct n; reflexivity.
  - destruct n as [|n]; [reflexivity|]. simpl.
    rewrite IH. unfold grid_scale, channel.
    rewrite map_map_map. now rewrite grid_add_map.
Qed.

Lemma skipn_nth_cons (px : list Q) : forall k,
  (k < length px)%nat -> skipn k px = nth k px 0 :: skipn (S k) px.
Proof.
  induction px as [|x px IH]; intros k Hk; simpl in *; [lia|].
  destruct k as [|k]; [reflexivity|]. apply IH. lia.
Qed.

Lemma pixel_sum_dot (px : list Q) (ws : list Q) : forall k n,
  n = (length px - k)%nat ->
  pixel_sum ws k n px == qsum (zip_with Qmult ws (skipn k px)).
Proof.
  induction ws as [|w ws IH]; intros k n Hn.
  - destruct n; reflexivity.
  - destruct n as [|n]; simpl.
    + rewrite skipn_all2 by lia. reflexivity.
    + rewrite (@skipn_nth_cons px k) by lia. simpl.
      rewrite qsum_cons, (@IH (S k) n) by lia. reflexivity.
Qed.

Lemma Forall2_map_map {A B} (R : B -> B -> Prop) (f h : A -> B)
      (l : list A) :
  (forall x, In x l -> R (f x) (h x)) -> Forall2 R (map f l) (map h l).
Proof.
  induction l as [|x l IH]; intros H; simpl; constructor.
  - apply H. now left.
  - apply IH. intros y Hy. apply H. now right.
Qed.

(** The heatmap of [tensorflow_grad_cam] before scaling is the sum over
    the channels of weight times channel of the layer's output. *)
Lemma tensorflow_heatmap_is_channel_sum (weights : list Q) (act : hwc) :
  well_formed act ->
  same_grid (reduce_sum_weighted weights act)
            (spec_heatmap weights (channels_of act)
                          (map (map (fun _ => 0)) act)).
Proof.
  intros Hwf. unfold channels_of. rewrite spec_heatmap_cells.
  unfold reduce_sum_weighted, same_grid.
  unfold well_formed in Hwf. rewrite Forall_forall in Hwf.
  apply Forall2_map_map. intros row Hrow.
  apply Forall2_map_map. intros px Hpx.
  rewrite (@pixel_sum_dot px weights 0%nat (length (hd [] (concat act)))).
  - reflexivity.
  - rewrite (Hwf px (in_grid_concat act row px Hrow Hpx)). lia.
Qed.

Lemma zip_with_plus_length (u v : list Q) :
  length u = length v -> length (zip_with Qplus u v) = length u.
Proof.
  revert v. induction u as [|x u IH]; intros [|y v] H; simpl in *;
    try discriminate; [reflexivity|]. f_equal. apply IH. lia.
Qed.

Lemma zip_with_plus_nth (u v : list Q) (c : nat) :
  length u = length v ->
  nth c (zip_with Qplus u v) 0 == nth c u 0 + nth c v 0.
Proof.
  revert v c. induction u as [|x u IH]; intros [|y v] c H; simpl in *;
    try discriminate.
  - destruct c; lra.
  - destruct c as [|c]; [reflexivity|]. apply IH. lia.
Qed.

(** Summing the pixel vectors sums each channel. *)
Lemma pixel_vector_sum (pixels : list (list Q)) : forall init,
  (forall px, In px pixels -> length px = length init) ->
  length (fold_left (zip_with Qplus) pixels init) = length init /\
  forall c,
    nth c (fold_left (zip_with Qplus) pixels init) 0
    == nth c init 0 + qsum (map (fun px => nth c px 0) pixels).
Proof.
  induction pixels as [|px pixels IH]; intros init H; simpl.
  - split; [reflexivity|]. intros c. unfold qsum. simpl. lra.
  - assert (Hpx : length init = length px) by (symmetry; apply H; now left).
    destruct (IH (zip_with Qplus init px)) as [Hlen Hnth].
    { intros q Hq. rewrite zip_with_plus_length by exact Hpx.
      apply H. now right. }
    split.
    + now rewrite Hlen, zip_with_plus_length.
    + intros c. rewrite Hnth, zip_with_plus_nth, qsum_cons by exact Hpx. lra.
Qed.

(** The weights of [tensorflow_grad_cam] are the spatial means, channel
    by channel, of the gradient at the layer's output. *)
Lemma tensorflow_weights_are_spatial_means (grads : hwc) :
  well_formed grads ->
  same_list (reduce_mean_12 grads) (spec_weights (channels_of grads)).
Proof.
  intros Hwf. unfold well_formed in Hwf. rewrite Forall_forall in Hwf.
  unfold reduce_mean_12, spec_weights, channels_of, same_list.
  set (pixels := concat grads) in *.
  set (C := length (hd [] pixels)) in *.
  destruct (pixel_vector_sum pixels (repeat 0 C)) as [Hlen Hnth].
  { intros px Hpx. rewrite repeat_length. now apply Hwf. }
  rewrite repeat_length in Hlen.
  rewrite map_map.
  set (V := fold_left (zip_with Qplus) pixels (repeat 0 C)) in *.
  assert (HV : Forall2 Qeq
                 (map (fun s => s / inject_Z (Z.of_nat (length pixels))) V)
                 (map (fun c => plane_mean (channel c grads))
                      (seq 0 (length V)))).
  { clearbody V.
    assert (Hgen : forall k (l : list Q),
              (forall c, (c < length l)%nat ->
                 nth c l 0 / inject_Z (Z.of_nat (length pixels))
                 == plane_mean (channel (k + c) grads)) ->
              Forall2 Qeq
                (map (fun s => s / inject_Z (Z.of_nat (length pixels))) l)
                (map (fun c => plane_mean (channel c grads))
                     (seq k (length l)))).
    { intros k l. revert k. induction l as [|x l IH]; intros k H; simpl;
        constructor.
      - specialize (H 0%nat). simpl in H. rewrite Nat.add_0_r in H.
        apply H. lia.
      - apply IH. intros c Hc. specialize (H (S c)). simpl in H.
        rewrite Nat.add_succ_r in H. apply H. lia. }
    apply Hgen. intros c Hc. simpl.
    unfold plane_mean, channel. rewrite concat_map_map, length_map.
    fold pixels. rewrite Hnth.
    rewrite nth_repeat. unfold Qdiv.
    assert (H0 : 0 + qsum (map (fun px => nth c px 0) pixels)
                 == qsum (map (fun px => nth c px 0) pixels)) by lra.
    now rewrite H0. }
  rewrite Hlen in HV. exact HV.
Qed.

(** ** The cascade *)

Section CascadeFacts.
Variable rt : runtime.
Variable cv : ImagePreprocessing.cv2 image_u8 (grid Z) (grid Z).

Lemma argmax_from_bound (l : list Q) : forall best besti i,
  (besti < i)%nat ->
  (argmax_from best besti i l < i + length l)%nat.
Proof.
  induction l as [|x l IH]; intros best besti i Hlt; simpl.
  - lia.
  - destruct (Qle_bool x best).
    + specialize (IH best besti (S i)). lia.
    + specialize (IH x i (S i)). lia.
Qed.

Lemma argmax_in_range (l : list Q) (i : nat) :
  argmax l = Some i -> (i < length l)%nat.
Proof.
  destruct l as [|x l]; simpl; [discriminate|].
  intros [= <-]. pose proof (@argmax_from_bound l x 0%nat 1%nat). lia.
Qed.

Lemma predict_body_inv (mn : MobileNetPredictor) (a : image_u8)
      (p : prediction unit) :
  MobileNetPredictor_predict_body rt mn a = Ok p ->
  argmax (probabilities p) = Some (class_index p).
Proof.
  unfold MobileNetPredictor_predict_body, softmax_argmax. intros H.
  apply bind_Ok_inv in H as [t [_ H]].
  apply bind_Ok_inv in H as [[c ps] [H1 H]].
  injection H as <-.
  apply bind_Ok_inv in H1 as [out [_ H1]].
  apply bind_Ok_inv in H1 as [c' [Hc H1]].
  injection H1 as <- <-. simpl.
  now apply of_option_Ok_inv in Hc.
Qed.

(** [probabilities[class_index]] never fails on what [predict] returns. *)
Lemma predict_confidence (mn : MobileNetPredictor) (a : image_u8)
      (p : prediction unit) :
  MobileNetPredictor_predict_body rt mn a = Ok p ->
  exists conf,
    nth_error (probabilities p) (class_index p) = Some conf /\
    list_get (probabilities p) (class_index p) = Ok conf.
Proof.
  intros H. apply predict_body_inv in H. apply argmax_in_range in H.
  unfold list_get.
  destruct (nth_error (probabilities p) (class_index p)) as [conf|] eqn:E.
  - exists conf. auto.
  - apply nth_error_None in E. lia.
Qed.

(** The run of [process_image] on the terminal branch. *)
Lemma process_image_terminal (self : ModelService) (image_bytes : list Z)
      (image_array processed : image_u8) (p : prediction unit) :
  PIL_open_RGB rt image_bytes = Ok image_array ->
  ImagePreprocessing.preprocess cv (target_size (preprocessor self))
                                image_array = Ok (Some processed) ->
  MobileNetPredictor_predict_body rt (mobilenet self) processed = Ok p ->
  class_index p <> 0%nat ->
  run (process_image rt cv self image_bytes)
  = (Raise (HTTPException 500 (py_str rt no_gradcam_visualization)),
     [MobileNetPredictor_predict_called]).
Proof.
  intros Hopen Hpre Hpred Hcls.
  destruct (predict_confidence _ _ Hpred) as [conf [_ Hconf]].
  unfold run, process_image, catch, process_image_body, mbind, lift, ret,
    raise, MobileNetPredictor_predict, called.
  rewrite Hopen, Hpre. simpl. rewrite Hpred, Hconf.
  destruct (class_index p) as [|c]; [congruence|]. reflexivity.
Qed.

(** The log of one call of the Stage-2 classifier. *)
Lemma stage2_log (nn : SkinLesionClassifier) (image : hwc)
      (log : list event) :
  exists r rest,
    SkinLesionClassifier_predict_with_gradcam rt nn image log
    = (r, log ++ SkinLesionClassifier_predict_with_gradcam_called :: rest) /\
    stage2_calls rest = 0%nat /\
    (attribution_runs rest <= 1)%nat /\
    (forall p, r = Ok p ->
       rest = [tensorflow_grad_cam_called (class_index p);
               apply_grad_cam_called] /\
       argmax (probabilities p) = Some (class_index p) /\
       predict (keras nn) image = Ok (probabilities p)).
Proof.
  unfold SkinLesionClassifier_predict_with_gradcam, mbind, lift, ret, called.
  destruct (predict (keras nn) image) as [preds|e]; simpl.
  2:{ exists (Raise e), []. rewrite app_nil_r || idtac.
      repeat split; auto; try discriminate. }
  destruct (argmax preds) as [c|] eqn:Ec; simpl.
  2:{ eexists _, []. repeat split; auto; try discriminate. }
  destruct (tensorflow_grad_cam (keras nn) image c "conv2d_93")
    as [[orig heat]|e]; simpl.
  2:{ eexists _, [tensorflow_grad_cam_called c].
      rewrite <- app_assoc. simpl.
      repeat split; auto; try discriminate. }
  destruct (apply_grad_cam (cv2_resize rt) (nonfinite_uint8 rt) orig heat
                           default_alpha) as [vis|e]; simpl.
  2:{ eexists _, [tensorflow_grad_cam_called c; apply_grad_cam_called].
      rewrite <- !app_assoc. simpl.
      repeat split; auto; try discriminate. }
  eexists _, [tensorflow_grad_cam_called c; apply_grad_cam_called].
  rewrite <- !app_assoc. simpl.
  split; [reflexivity|]. split; [reflexivity|]. split; [auto|].
  intros p [= <-]. simpl. auto.
Qed.

(** What the specialist branch leaves in the log, whether or not the
    Stage-2 classifier or the encoding raises. *)
Lemma process_image_specialist_log (self : ModelService)
      (image_bytes : list Z) (image_array processed : image_u8)
      (p : prediction unit) :
  PIL_open_RGB rt image_bytes = Ok image_array ->
  ImagePreprocessing.preprocess cv (target_size (preprocessor self))
                                image_array = Ok (Some processed) ->
  MobileNetPredictor_predict_body rt (mobilenet self) processed = Ok p ->
  class_index p = 0%nat ->
  exists r rest,
    SkinLesionClassifier_predict_with_gradcam
      rt (nasnet self) (cast_div_255 processed)
      [MobileNetPredictor_predict_called]
    = (r, MobileNetPredictor_predict_called
            :: SkinLesionClassifier_predict_with_gradcam_called :: rest) /\
    snd (run (process_image rt cv self image_bytes))
    = MobileNetPredictor_predict_called
        :: SkinLesionClassifier_predict_with_gradcam_called :: rest.
Proof.
  intros Hopen Hpre Hpred Hcls.
  destruct (predict_confidence _ _ Hpred) as [conf [_ Hconf]].
  destruct (stage2_log (nasnet self) (cast_div_255 processed)
                       [MobileNetPredictor_predict_called])
    as (r & rest & Hrun & _).
  exists r, rest. split; [exact Hrun|].
  unfold run, process_image, catch, process_image_body, mbind, lift, ret,
    raise, MobileNetPredictor_predict, called.
  rewrite Hopen, Hpre. simpl. rewrite Hpred, Hconf, Hcls. simpl.
  unfold mbind in Hrun. rewrite Hrun. simpl.
  destruct r as [nr|e]; simpl; [|reflexivity].
  destruct (dict_get (nasnet_classes self) (class_index nr)); simpl;
    [|reflexivity].
  destruct (enumerate_get (probabilities nr) (class_index nr)); simpl;
    [|reflexivity].
  destruct (jpeg_base64 rt _); reflexivity.
Qed.

(** C1, evaluated on the code.  When Stage 1 predicts the terminal
    class (index 1), [process_image] looks up
    [self.mobilenet.gradcam_visualization], which [MobileNetPredictor]
    does not have; the [AttributeError] is caught by the handler and the
    request ends in an [HTTPException] with status 500.  No response
    with [model_used = "MobileNetV2"] is produced. *)
Theorem terminal_prediction_never_completes
        (self : ModelService) (image_bytes : list Z)
        (image_array processed : image_u8) (p : prediction unit) :
  PIL_open_RGB rt image_bytes = Ok image_array ->
  ImagePreprocessing.preprocess cv (target_size (preprocessor self))
                                image_array = Ok (Some processed) ->
  MobileNetPredictor_predict_body rt (mobilenet self) processed = Ok p ->
  class_index p = 1%nat ->
  fst (run (process_image rt cv self image_bytes))
    = Raise (HTTPException 500 (py_str rt no_gradcam_visualization)) /\
  response_status (fst (run (process_image rt cv self image_bytes))) = 500%Z /\
  forall response,
    fst (run (process_image rt cv self image_bytes)) <> Ok response.
Proof.
  intros Hopen Hpre Hpred Hcls.
  assert (Hne : class_index p <> 0%nat) by lia.
  rewrite (process_image_terminal self image_bytes Hopen Hpre Hpred Hne).
  simpl. repeat split. intros response. discriminate.
Qed.

(** C4, evaluated on the code.  On the terminal branch the Stage-2
    classifier is never called, but no attribution function runs
    either; on the specialist branch the Stage-2 classifier is called
    exactly once, at most one attribution runs, and a request that
    completes ran exactly one, [tensorflow_grad_cam] on the Stage-2
    model for the class the response reports. *)
Theorem cascade_attribution_paths
        (self : ModelService) (image_bytes : list Z)
        (image_array processed : image_u8) (p : prediction unit) :
  PIL_open_RGB rt image_bytes = Ok image_array ->
  ImagePreprocessing.preprocess cv (target_size (preprocessor self))
                                image_array = Ok (Some processed) ->
  MobileNetPredictor_predict_body rt (mobilenet self) processed = Ok p ->
  let outcome := run (process_image rt cv self image_bytes) in
  (class_index p <> 0%nat ->
     stage2_calls (snd outcome) = 0%nat /\
     attribution_runs (snd outcome) = 0%nat /\
     exists e, fst outcome = Raise e) /\
  (class_index p = 0%nat ->
     stage2_calls (snd outcome) = 1%nat /\
     (attribution_runs (snd outcome) <= 1)%nat /\
     forall response, fst outcome = Ok response ->
       model_used response = "NASNetMobile"%string /\
       exists c,
         snd outcome = [MobileNetPredictor_predict_called;
                        SkinLesionClassifier_predict_with_gradcam_called;
                        tensorflow_grad_cam_called c;
                        apply_grad_cam_called] /\
         dict_get (nasnet_classes self) c = Ok (class_name response)).
Proof.
  intros Hopen Hpre Hpred outcome. subst outcome. split.
  - intros Hne.
    rewrite (process_image_terminal self image_bytes Hopen Hpre Hpred Hne).
    simpl. repeat split. eauto.
  - intros Hcls.
    destruct (predict_confidence _ _ Hpred) as [conf [_ Hconf]].
    destruct (stage2_log (nasnet self) (cast_div_255 processed)
                         [MobileNetPredictor_predict_called])
      as (r & rest & Hrun & Hs2 & Hattr & Hok).
    simpl in Hrun.
    assert (Hlog : snd (run (process_image rt cv self image_bytes))
                   = MobileNetPredictor_predict_called
                       :: SkinLesionClassifier_predict_with_gradcam_called
                       :: rest).
    { destruct (process_image_specialist_log self image_bytes
                  Hopen Hpre Hpred Hcls) as (r' & rest' & Hrun' & Hlog').
      rewrite Hrun in Hrun'. injection Hrun' as _ <-. exact Hlog'. }
    rewrite Hlog. split; [|split].
    + unfold stage2_calls in *. simpl. now rewrite Hs2.
    + unfold attribution_runs in *. simpl. exact Hattr.
    + intros response Hresp.
      revert Hresp.
      unfold run, process_image, catch, process_image_body, mbind, lift, ret,
        raise, MobileNetPredictor_predict, called.
      rewrite Hopen, Hpre. simpl. rewrite Hpred, Hconf, Hcls. simpl.
      unfold mbind in Hrun. rewrite Hrun. simpl.
      destruct r as [nr|e]; simpl; [|discriminate].
      destruct (Hok nr eq_refl) as (-> & _ & _).
      destruct (dict_get (nasnet_classes self) (class_index nr)) as [cn|e]
        eqn:Ecn; simpl; [|discriminate].
      destruct (enumerate_get (probabilities nr) (class_index nr));
        simpl; [|discriminate].
      destruct (jpeg_base64 rt _); simpl; [|discriminate].
      intros [= <-]. simpl. split; [reflexivity|].
      exists (class_index nr). auto.
Qed.

(** C5, evaluated on the code.  Bytes that do not decode, and an image
    for which [preprocess] returns [None], both end in an
    [HTTPException] with status 500: the status 400 raised for [None]
    is raised inside the [try] block and replaced by its handler.  The
    status is a server error, not a client error. *)
Theorem invalid_image_is_reported_as_500
        (self : ModelService) (image_bytes : list Z) :
  (exists e, PIL_open_RGB rt image_bytes = Raise e) \/
  (exists image_array,
     PIL_open_RGB rt image_bytes = Ok image_array /\
     ImagePreprocessing.preprocess cv (target_size (preprocessor self))
                                   image_array = Ok None) ->
  let outcome := fst (run (process_image rt cv self image_bytes)) in
  (exists detail, outcome = Raise (HTTPException 500 detail)) /\
  response_status outcome = 500%Z /\
  client_error (response_status outcome) = false /\
  server_error (response_status outcome) = true /\
  forall content_type,
    is_image_content_type content_type = true ->
    fst (run (predict_endpoint rt cv self content_type image_bytes))
    = outcome.
Proof.
  intros H outcome. subst outcome.
  assert (Hrun : exists detail,
             run (process_image rt cv self image_bytes)
             = (Raise (HTTPException 500 detail), [])).
  { unfold run, process_image, catch, process_image_body, mbind, lift, ret,
      raise.
    destruct H as [[e He]|[image_array [Hopen Hnone]]].
    - rewrite He. eauto.
    - rewrite Hopen, Hnone. eauto. }
  destruct Hrun as [detail Hrun].
  split; [exists detail; now rewrite Hrun|].
  rewrite Hrun. simpl. repeat split.
  intros content_type Hct. unfold predict_endpoint. rewrite Hct. simpl.
  now rewrite Hrun.
Qed.

(** C8.  When Stage 1 returns the probabilities [0.9, 0.1] its class
    index is 0 and the Stage-2 classifier is called; when that call
    returns class index 4 (and the JPEG encoding succeeds) the response
    has [class_name = "Melanoma"], [model_used = "NASNetMobile"] and the
    Stage-2 probability at index 4 as its confidence. *)
Theorem specialist_melanoma_scenario
        (mn : MobileNetPredictor) (nn : SkinLesionClassifier)
        (image_bytes : list Z) (image_array processed : image_u8)
        (p1 : prediction unit) (p2 : prediction hwc)
        (log2 : list event) (encoded : string) :
  let self := ModelService_init mn nn in
  PIL_open_RGB rt image_bytes = Ok image_array ->
  ImagePreprocessing.preprocess cv (224, 224)%nat image_array
    = Ok (Some processed) ->
  MobileNetPredictor_predict_body rt mn processed = Ok p1 ->
  probabilities p1 = [9 # 10; 1 # 10] ->
  SkinLesionClassifier_predict_with_gradcam
    rt nn (cast_div_255 processed) [MobileNetPredictor_predict_called]
    = (Ok p2, log2) ->
  class_index p2 = 4%nat ->
  jpeg_base64 rt (times_255_uint8 rt (gradcam_visualization p2))
    = Ok encoded ->
  class_index p1 = 0%nat /\
  stage2_calls log2 = 1%nat /\
  exists conf,
    nth_error (probabilities p2) 4 = Some conf /\
    run (process_image rt cv self image_bytes)
    = (Ok {| class_name := "Melanoma";
             confidence := conf;
             model_used := "NASNetMobile";
             visualization := encoded |},
       log2).
Proof.
  intros self Hopen Hpre Hpred Hprobs Hs2 Hc2 Hjpg.
  assert (Hc1 : class_index p1 = 0%nat).
  { pose proof (predict_body_inv _ _ Hpred) as Harg.
    rewrite Hprobs in Harg.
    change (argmax [9 # 10; 1 # 10]) with (Some 0%nat) in Harg. congruence. }
  destruct (predict_confidence _ _ Hpred) as [conf1 [_ Hconf1]].
  destruct (stage2_log nn (cast_div_255 processed)
                       [MobileNetPredictor_predict_called])
    as (r & rest & Hrun & Hcalls & _ & Hok).
  rewrite Hs2 in Hrun. injection Hrun as <- ->.
  destruct (Hok p2 eq_refl) as (-> & Harg2 & _).
  pose proof (argmax_in_range _ Harg2) as Hrange. rewrite Hc2 in Hrange.
  destruct (nth_error (probabilities p2) 4) as [conf|] eqn:Econf;
    [|apply nth_error_None in Econf; lia].
  split; [exact Hc1|]. split; [reflexivity|].
  exists conf. split; [reflexivity|].
  unfold run, process_image, catch, process_image_body, mbind, lift, ret,
    raise, MobileNetPredictor_predict, called.
  subst self. rewrite Hopen. simpl. rewrite Hpre. simpl.
  rewrite Hpred, Hconf1, Hc1. simpl.
  unfold mbind in Hs2. rewrite Hs2. simpl.
  rewrite Hc2. simpl. unfold enumerate_get. rewrite Econf. simpl.
  rewrite Hjpg. reflexivity.
Qed.

End CascadeFacts.

Lemma terminal_prediction_never_completes_witness :
  fst (run (process_image
              Examples.mock_rt Examples.mock_cv
              (ModelService_init (Examples.mock_mobilenet [2 # 10; 8 # 10])
                                 (Examples.mock_nasnet Examples.seven_probs))
              [1; 2]%Z))
  = Raise (HTTPException 500
      "'MobileNetPredictor' object has no attribute 'gradcam_visualization'").
Proof.
  apply (terminal_prediction_never_completes
           Examples.mock_rt Examples.mock_cv
           (ModelService_init (Examples.mock_mobilenet [2 # 10; 8 # 10])
                              (Examples.mock_nasnet Examples.seven_probs))
           [1; 2]%Z
           (image_array := Examples.gray_u8) (processed := Examples.gray_u8)
           (p := {| class_index := 1; probabilities := [2 # 10; 8 # 10];
                    gradcam_visualization := tt |}));
    reflexivity.
Defined.

Lemma cascade_attribution_paths_witness :
  (let outcome :=
     run (process_image
            Examples.mock_rt Examples.mock_cv
            (ModelService_init (Examples.mock_mobilenet [2 # 10; 8 # 10])
                               (Examples.mock_nasnet Examples.seven_probs))
            [1; 2]%Z) in
   stage2_calls (snd outcome) = 0%nat /\
   attribution_runs (snd outcome) = 0%nat /\
   exists e, fst outcome = Raise e) /\
  (let outcome :=
     run (process_image
            Examples.mock_rt Examples.mock_cv
            (ModelService_init (Examples.mock_mobilenet [9 # 10; 1 # 10])
                               (Examples.mock_nasnet Examples.seven_probs))
            [1; 2]%Z) in
   stage2_calls (snd outcome) = 1%nat /\
   (attribution_runs (snd outcome) <= 1)%nat).
Proof.
  split.
  - apply (cascade_attribution_paths
             Examples.mock_rt Examples.mock_cv
             (ModelService_init (Examples.mock_mobilenet [2 # 10; 8 # 10])
                                (Examples.mock_nasnet Examples.seven_probs))
             [1; 2]%Z
             (image_array := Examples.gray_u8) (processed := Examples.gray_u8)
             (p := {| class_index := 1; probabilities := [2 # 10; 8 # 10];
                      gradcam_visualization := tt |}));
      try reflexivity. discriminate.
  - pose proof (cascade_attribution_paths
             Examples.mock_rt Examples.mock_cv
             (ModelService_init (Examples.mock_mobilenet [9 # 10; 1 # 10])
                                (Examples.mock_nasnet Examples.seven_probs))
             [1; 2]%Z
             (image_array := Examples.gray_u8) (processed := Examples.gray_u8)
             (p := {| class_index := 0; probabilities := [9 # 10; 1 # 10];
                      gradcam_visualization := tt |})
             eq_refl eq_refl eq_refl) as [_ H].
    destruct (H eq_refl) as [H1 [H2 _]]. split; assumption.
Defined.

Lemma invalid_image_is_reported_as_500_witness :
  fst (run (process_image
              Examples.mock_rt Examples.mock_cv
              (ModelService_init (Examples.mock_mobilenet [2 # 10; 8 # 10])
                                 (Examples.mock_nasnet Examples.seven_probs))
              []))
    = Raise (HTTPException 500 "cannot identify image file") /\
  fst (run (predict_endpoint
              Examples.mock_rt Examples.mock_cv
              (ModelService_init (Examples.mock_mobilenet [2 # 10; 8 # 10])
                                 (Examples.mock_nasnet Examples.seven_probs))
              "image/png" [0%Z]))
    = Raise (HTTPException 500 "Image preprocessing failed").
Proof.
  split.
  - destruct (invalid_image_is_reported_as_500
                Examples.mock_rt Examples.mock_cv
                (ModelService_init (Examples.mock_mobilenet [2 # 10; 8 # 10])
                                   (Examples.mock_nasnet Examples.seven_probs))
                [])
      as [[detail Hd] _].
    + left. eexists. reflexivity.
    + rewrite Hd. vm_compute in Hd. injection Hd as <-. reflexivity.
  - destruct (invalid_image_is_reported_as_500
                Examples.mock_rt Examples.mock_cv
                (ModelService_init (Examples.mock_mobilenet [2 # 10; 8 # 10])
                                   (Examples.mock_nasnet Examples.seven_probs))
                [0%Z])
      as (_ & _ & _ & _ & He).
    + right. exists []. split; reflexivity.
    + rewrite (He "image/png"%string eq_refl). reflexivity.
Defined.

Lemma specialist_melanoma_scenario_witness :
  run (process_image
         Examples.mock_rt Examples.mock_cv
         (ModelService_init (Examples.mock_mobilenet [9 # 10; 1 # 10])
                            (Examples.mock_nasnet Examples.seven_probs))
         [1; 2]%Z)
  = (Ok {| class_name := "Melanoma";
           confidence := 6 # 10;
           model_used := "NASNetMobile";
           visualization := "/9j/4AAQSkZJRg==" |},
     [MobileNetPredictor_predict_called;
      SkinLesionClassifier_predict_with_gradcam_called;
      tensorflow_grad_cam_called 4;
      apply_grad_cam_called]).
Proof.
  edestruct (specialist_melanoma_scenario
               Examples.mock_rt Examples.mock_cv
               (Examples.mock_mobilenet [9 # 10; 1 # 10])
               (Examples.mock_nasnet Examples.seven_probs)
               [1; 2]%Z
               (image_array := Examples.gray_u8)
               (processed := Examples.gray_u8)
               (p1 := {| class_index := 0; probabilities := [9 # 10; 1 # 10];
                         gradcam_visualization := tt |}))
    as (_ & _ & conf & Hconf & Hrun);
    [reflexivity | reflexivity | reflexivity | reflexivity
    | vm_compute; reflexivity | reflexivity | reflexivity | ].
  rewrite Hrun. vm_compute in Hconf. injection Hconf as <-. reflexivity.
Defined.

(** The method the terminal branch could have called: it exists, takes
    the image alone, and runs [pytorch_grad_cam] on the Stage-1 model
    for the predicted class. *)
Example predict_with_gradcam_is_the_stage1_attribution :
  exists p,
    run (MobileNetPredictor_predict_with_gradcam
           Examples.mock_rt (Examples.mock_mobilenet [2 # 10; 8 # 10])
           Examples.gray_u8)
    = (Ok p, [MobileNetPredictor_predict_with_gradcam_called;
              pytorch_grad_cam_called 1;
              apply_grad_cam_called]) /\
    class_index p = 1%nat /\
    MobileNetPredictor_getattr "predict_with_gradcam"
      = Ok "predict_with_gradcam"%string /\
    MobileNetPredictor_getattr "gradcam_visualization"
      = Raise no_gradcam_visualization.
Proof.
  eexists. split; [vm_compute; reflexivity|].
  split; [reflexivity|]. split; reflexivity.
Qed.

(* ===================================================================== *)
(** * Further properties of the code *)
(* ===================================================================== *)

(** ** The predicted class *)

Lemma argmax_from_spec (l : list Q) : forall pre best besti,
  nth_error pre besti = Some best ->
  (forall q, In q pre -> q <= best) ->
  (forall j q, (j < besti)%nat -> nth_error pre j = Some q -> q < best) ->
  exists m,
    nth_error (pre ++ l) (argmax_from best besti (length pre) l) = Some m /\
    (forall q, In q (pre ++ l) -> q <= m) /\
    (forall j q, (j < argmax_from best besti (length pre) l)%nat ->
                 nth_error (pre ++ l) j = Some q -> q < m).
Proof.
  induction l as [|x l IH]; intros pre best besti Hbest Hmax Hfirst.
  - simpl. rewrite app_nil_r. exists best. auto.
  - assert (Hlt : (besti < length pre)%nat).
    { apply nth_error_Some. congruence. }
    simpl. destruct (Qle_bool x best) eqn:E.
    + apply Qle_bool_iff in E.
      specialize (IH (pre ++ [x]) best besti).
      rewrite length_app, Nat.add_1_r, <- app_assoc in IH. simpl in IH.
      apply IH.
      * rewrite nth_error_app1 by exact Hlt. exact Hbest.
      * intros q Hq. apply in_app_or in Hq as [Hq|[<-|[]]]; auto.
      * intros j q Hj Hq. rewrite nth_error_app1 in Hq by lia. eauto.
    + assert (Hx : best < x).
      { apply Qnot_le_lt. intro H. apply Qle_bool_iff in H. congruence. }
      specialize (IH (pre ++ [x]) x (length pre)).
      rewrite length_app, Nat.add_1_r, <- app_assoc in IH. simpl in IH.
      apply IH.
      * rewrite nth_error_app2 by lia. now rewrite Nat.sub_diag.
      * intros q Hq. apply in_app_or in Hq as [Hq|[<-|[]]].
        -- specialize (Hmax q Hq). lra.
        -- lra.
      * intros j q Hj Hq. rewrite nth_error_app1 in Hq by lia.
        apply nth_error_In in Hq. specialize (Hmax q Hq). lra.
Qed.

Lemma argmax_spec (l : list Q) (i : nat) :
  argmax l = Some i ->
  exists m,
    nth_error l i = Some m /\
    (forall q, In q l -> q <= m) /\
    (forall j q, (j < i)%nat -> nth_error l j = Some q -> q < m).
Proof.
  destruct l as [|x l]; simpl; [discriminate|]. intros [= <-].
  apply (@argmax_from_spec l [x] x 0%nat).
  - reflexivity.
  - intros q [<-|[]]. lra.
  - intros j q Hj. lia.
Qed.

Section MoreCascadeFacts.
Variable rt : runtime.
Variable cv : ImagePreprocessing.cv2 image_u8 (grid Z) (grid Z).

(** X5.  Whatever [MobileNetPredictor.predict] returns, its class index
    addresses an entry of [probabilities], that entry is at least every
    other one, and every earlier entry is strictly smaller. *)
Theorem predict_returns_first_maximum (mn : MobileNetPredictor)
        (image_array : image_u8) (p : prediction unit) :
  MobileNetPredictor_predict_body rt mn image_array = Ok p ->
  exists conf,
    list_get (probabilities p) (class_index p) = Ok conf /\
    (forall q, In q (probabilities p) -> q <= conf) /\
    (forall j q, (j < class_index p)%nat ->
                 nth_error (probabilities p) j = Some q -> q < conf).
Proof.
  intros H. apply predict_body_inv in H.
  destruct (argmax_spec _ H) as (m & Hm & Hmax & Hfirst).
  exists m. unfold list_get. rewrite Hm. auto.
Qed.

(** What one call of the Stage-2 classifier appends to the log. *)
Lemma stage2_log_shape (nn : SkinLesionClassifier) (image : hwc)
      (log : list event) :
  exists r rest,
    SkinLesionClassifier_predict_with_gradcam rt nn image log
    = (r, log ++ SkinLesionClassifier_predict_with_gradcam_called :: rest) /\
    ((rest = [] /\ exists e, r = Raise e) \/
     (exists c, rest = [tensorflow_grad_cam_called c] /\ exists e, r = Raise e) \/
     (exists c, rest = [tensorflow_grad_cam_called c; apply_grad_cam_called])).
Proof.
  unfold SkinLesionClassifier_predict_with_gradcam, mbind, lift, ret, called.
  destruct (predict (keras nn) image) as [preds|e]; simpl.
  2:{ exists (Raise e), []. split; [reflexivity|]. left. eauto. }
  destruct (argmax preds) as [c|] eqn:Ec; simpl.
  2:{ eexists _, []. split; [reflexivity|]. left. eauto. }
  destruct (tensorflow_grad_cam (keras nn) image c "conv2d_93")
    as [[orig heat]|e]; simpl.
  2:{ eexists _, [tensorflow_grad_cam_called c].
      rewrite <- app_assoc. simpl. split; [reflexivity|].
      right. left. eauto. }
  destruct (apply_grad_cam (cv2_resize rt) (nonfinite_uint8 rt) orig heat
                           default_alpha) as [vis|e]; simpl;
    eexists _, [tensorflow_grad_cam_called c; apply_grad_cam_called];
    rewrite <- !app_assoc; simpl; (split; [reflexivity|]);
    right; right; eauto.
Qed.

(** X3.  The call log of every request is a prefix of: Stage-1
    [predict], Stage-2 [predict_with_gradcam], [tensorflow_grad_cam],
    [apply_grad_cam].  So Stage 1 is asked at most once and first,
    Stage 2 at most once, and [pytorch_grad_cam] never runs. *)
Theorem request_log_is_a_prefix (self : ModelService) (image_bytes : list Z) :
  exists c rest,
    snd (run (process_image rt cv self image_bytes)) ++ rest
    = [MobileNetPredictor_predict_called;
       SkinLesionClassifier_predict_with_gradcam_called;
       tensorflow_grad_cam_called c;
       apply_grad_cam_called].
Proof.
  unfold run, process_image, catch, process_image_body, mbind, lift, ret,
    raise, MobileNetPredictor_predict, called.
  destruct (PIL_open_RGB rt image_bytes) as [image_array|e]; simpl;
    [|exists 0%nat; eexists; reflexivity].
  destruct (ImagePreprocessing.preprocess cv _ image_array)
    as [[processed|]|e]; simpl;
    try (exists 0%nat; eexists; reflexivity).
  destruct (MobileNetPredictor_predict_body rt (mobilenet self) processed)
    as [p|e]; simpl; [|exists 0%nat; eexists; reflexivity].
  destruct (list_get (probabilities p) (class_index p)) as [conf|e]; simpl;
    [|exists 0%nat; eexists; reflexivity].
  destruct (Nat.eqb (class_index p) 0); simpl;
    [|exists 0%nat; eexists; reflexivity].
  destruct (stage2_log_shape (nasnet self) (cast_div_255 processed)
                             [MobileNetPredictor_predict_called])
    as (r & rest & Hrun & Hshape).
  unfold mbind in Hrun. simpl in Hrun. rewrite Hrun. simpl.
  assert (Hlog : forall (out : result PredictionResponse * list event),
            snd out = MobileNetPredictor_predict_called
                        :: SkinLesionClassifier_predict_with_gradcam_called
                        :: rest ->
            exists c rest',
              snd out ++ rest'
              = [MobileNetPredictor_predict_called;
                 SkinLesionClassifier_predict_with_gradcam_called;
                 tensorflow_grad_cam_called c;
                 apply_grad_cam_called]).
  { intros out ->.
    destruct Hshape as [[-> _]|[[c [-> _]]|[c ->]]].
    - exists 0%nat. eexists. reflexivity.
    - exists c. eexists. reflexivity.
    - exists c, []. reflexivity. }
  apply Hlog.
  destruct r as [nr|e]; simpl; [|reflexivity].
  destruct (dict_get (nasnet_classes self) (class_index nr)); simpl;
    [|reflexivity].
  destruct (enumerate_get (probabilities nr) (class_index nr)); simpl;
    [|reflexivity].
  destruct (jpeg_base64 rt _); reflexivity.
Qed.

End MoreCascadeFacts.

Section CompletedRequests.
Variable rt : runtime.
Variable cv : ImagePreprocessing.cv2 image_u8 (grid Z) (grid Z).

(** X2.  A request that completes went through Stage 2: the response
    names NASNetMobile, its class name is the entry of the label table
    at the Stage-2 class index, its confidence is the largest of the
    Stage-2 probabilities, and Stage 1 had predicted index 0. *)
Theorem completed_request_went_through_stage2
        (mn : MobileNetPredictor) (nn : SkinLesionClassifier)
        (image_bytes : list Z) (response : PredictionResponse) :
  fst (run (process_image rt cv (ModelService_init mn nn) image_bytes))
    = Ok response ->
  model_used response = "NASNetMobile"%string /\
  In (class_name response)
     [ "Actinic Keratosis"; "Basal Cell Carcinoma"; "Benign Keratosis";
       "Dermatofibroma"; "Melanoma"; "Melanocytic Nevus";
       "Vascular Lesion" ]%string /\
  exists image_array processed p1 probs c,
    PIL_open_RGB rt image_bytes = Ok image_array /\
    ImagePreprocessing.preprocess cv (224, 224)%nat image_array
      = Ok (Some processed) /\
    MobileNetPredictor_predict_body rt mn processed = Ok p1 /\
    class_index p1 = 0%nat /\
    predict (keras nn) (cast_div_255 processed) = Ok probs /\
    argmax probs = Some c /\
    dict_get (nasnet_classes (ModelService_init mn nn)) c
      = Ok (class_name response) /\
    nth_error probs c = Some (confidence response) /\
    (forall q, In q probs -> q <= confidence response).
Proof.
  unfold run, process_image, catch, process_image_body, mbind, lift, ret,
    raise, MobileNetPredictor_predict, called.
  destruct (PIL_open_RGB rt image_bytes) as [image_array|e] eqn:Hopen;
    simpl; [|discriminate].
  destruct (ImagePreprocessing.preprocess cv (224, 224)%nat image_array)
    as [[processed|]|e] eqn:Hpre; simpl; try discriminate.
  destruct (MobileNetPredictor_predict_body rt mn processed)
    as [p1|e] eqn:Hp1; simpl; [|discriminate].
  destruct (list_get (probabilities p1) (class_index p1)) as [conf|e];
    simpl; [|discriminate].
  destruct (class_index p1) as [|k] eqn:Hc1; simpl; [|discriminate].
  destruct (stage2_log rt nn (cast_div_255 processed)
                       [MobileNetPredictor_predict_called])
    as (r & rest & Hrun & _ & _ & Hok).
  unfold mbind in Hrun. simpl in Hrun. rewrite Hrun. simpl.
  destruct r as [nr|e]; simpl; [|discriminate].
  destruct (Hok nr eq_refl) as (_ & Harg & Hpred).
  destruct (argmax_spec _ Harg) as (m & Hm & Hmax & _).
  unfold enumerate_get. rewrite Hm.
  destruct (class_index nr) as [|[|[|[|[|[|[|k]]]]]]] eqn:Hc2; simpl;
    try discriminate;
    (destruct (jpeg_base64 rt _); simpl; [|discriminate];
     intros [= <-]; simpl;
     split; [reflexivity|]; split; [tauto|];
     exists image_array, processed, p1, (probabilities nr);
     eexists; repeat split; eauto).
Qed.

(** X1.  The [/predict] endpoint answers a content type that does not
    start with [image/] with status 400 and asks no classifier; for any
    other request it returns a response or an [HTTPException] with
    status 500, never another client error. *)
Theorem predict_endpoint_statuses (self : ModelService)
        (content_type : string) (contents : list Z) :
  (is_image_content_type content_type = false ->
     run (predict_endpoint rt cv self content_type contents)
     = (Raise (HTTPException 400 "File must be an image"), [])) /\
  (is_image_content_type content_type = true ->
     (exists response,
        fst (run (predict_endpoint rt cv self content_type contents))
        = Ok response) \/
     (exists detail,
        fst (run (predict_endpoint rt cv self content_type contents))
        = Raise (HTTPException 500 detail))).
Proof.
  unfold predict_endpoint. split; intros ->; simpl; [reflexivity|].
  unfold run, process_image, catch.
  destruct (process_image_body rt cv self contents []) as [[response|e] log];
    simpl; eauto.
Qed.

(** X4.  A Stage-2 model with [len(LABELS)] outputs can only predict an
    index that both label tables hold; an index outside the table makes
    the lookup [self.nasnet_classes[...]] raise [KeyError], and the
    request ends with status 500 after Stage 2 has run. *)
Theorem stage2_label_lookup
        (mn : MobileNetPredictor) (nn : SkinLesionClassifier) :
  (forall probs c,
     length probs = output_units -> argmax probs = Some c ->
     exists label abbreviation,
       dict_get (nasnet_classes (ModelService_init mn nn)) c = Ok label /\
       dict_get LABELS c = Ok abbreviation) /\
  (forall image_bytes image_array processed p1 p2 log2,
     PIL_open_RGB rt image_bytes = Ok image_array ->
     ImagePreprocessing.preprocess cv (224, 224)%nat image_array
       = Ok (Some processed) ->
     MobileNetPredictor_predict_body rt mn processed = Ok p1 ->
     class_index p1 = 0%nat ->
     SkinLesionClassifier_predict_with_gradcam
       rt nn (cast_div_255 processed) [MobileNetPredictor_predict_called]
       = (Ok p2, log2) ->
     (7 <= class_index p2)%nat ->
     run (process_image rt cv (ModelService_init mn nn) image_bytes)
     = (Raise (HTTPException 500 (py_str rt (KeyError "key"))), log2)).
Proof.
  split.
  - intros probs c Hlen Harg. apply argmax_in_range in Harg.
    rewrite Hlen in Harg. unfold output_units in Harg. simpl in Harg.
    do 7 (destruct c as [|c];
          [simpl; eexists; eexists; split; reflexivity|]).
    exfalso. lia.
  - intros image_bytes image_array processed p1 p2 log2
           Hopen Hpre Hp1 Hc1 Hs2 Hc2.
    destruct (predict_confidence rt _ _ Hp1) as [conf [_ Hconf]].
    unfold run, process_image, catch, process_image_body, mbind, lift, ret,
      raise, MobileNetPredictor_predict, called.
    rewrite Hopen. simpl. rewrite Hpre. simpl.
    rewrite Hp1, Hconf, Hc1. simpl.
    unfold mbind in Hs2. rewrite Hs2. simpl.
    remember (class_index p2) as c2 eqn:Ec2. clear Ec2.
    do 7 (destruct c2 as [|c2]; [exfalso; lia|]).
    reflexivity.
Qed.

End CompletedRequests.

Lemma predict_returns_first_maximum_witness :
  exists conf,
    list_get [2 # 10; 8 # 10] 1 = Ok conf /\
    (forall q, In q [2 # 10; 8 # 10] -> q <= conf).
Proof.
  destruct (predict_returns_first_maximum
              Examples.mock_rt (Examples.mock_mobilenet [2 # 10; 8 # 10])
              Examples.gray_u8
              (p := {| class_index := 1; probabilities := [2 # 10; 8 # 10];
                       gradcam_visualization := tt |})
              eq_refl)
    as (conf & Hconf & Hmax & _).
  exists conf. split; assumption.
Defined.

Lemma completed_request_went_through_stage2_witness :
  model_used {| class_name := "Melanoma";
                confidence := 6 # 10;
                model_used := "NASNetMobile";
                visualization := "/9j/4AAQSkZJRg==" |}
  = "NASNetMobile"%string.
Proof.
  apply (completed_request_went_through_stage2
           Examples.mock_rt Examples.mock_cv
           (Examples.mock_mobilenet [9 # 10; 1 # 10])
           (Examples.mock_nasnet Examples.seven_probs)
           [1; 2]%Z).
  vm_compute. reflexivity.
Defined.

Lemma predict_endpoint_statuses_witness :
  run (predict_endpoint
         Examples.mock_rt Examples.mock_cv
         (ModelService_init (Examples.mock_mobilenet [2 # 10; 8 # 10])
                            (Examples.mock_nasnet Examples.seven_probs))
         "text/plain" [1; 2]%Z)
    = (Raise (HTTPException 400 "File must be an image"), []) /\
  ((exists response,
      fst (run (predict_endpoint
                  Examples.mock_rt Examples.mock_cv
                  (ModelService_init (Examples.mock_mobilenet [2 # 10; 8 # 10])
                                     (Examples.mock_nasnet Examples.seven_probs))
                  "image/png" [1; 2]%Z))
      = Ok response) \/
   (exists detail,
      fst (run (predict_endpoint
                  Examples.mock_rt Examples.mock_cv
                  (ModelService_init (Examples.mock_mobilenet [2 # 10; 8 # 10])
                                     (Examples.mock_nasnet Examples.seven_probs))
                  "image/png" [1; 2]%Z))
      = Raise (HTTPException 500 detail))).
Proof.
  split.
  - apply (predict_endpoint_statuses
             Examples.mock_rt Examples.mock_cv
             (ModelService_init (Examples.mock_mobilenet [2 # 10; 8 # 10])
                                (Examples.mock_nasnet Examples.seven_probs))
             "text/plain" [1; 2]%Z).
    reflexivity.
  - apply (predict_endpoint_statuses
             Examples.mock_rt Examples.mock_cv
             (ModelService_init (Examples.mock_mobilenet [2 # 10; 8 # 10])
                                (Examples.mock_nasnet Examples.seven_probs))
             "image/png" [1; 2]%Z).
    reflexivity.
Defined.

Lemma stage2_label_lookup_witness :
  (exists label abbreviation,
     dict_get (nasnet_classes
                 (ModelService_init (Examples.mock_mobilenet [9 # 10; 1 # 10])
                                    (Examples.mock_nasnet Examples.seven_probs)))
              4 = Ok label /\
     dict_get LABELS 4 = Ok abbreviation) /\
  fst (run (process_image
              Examples.mock_rt Examples.mock_cv
              (ModelService_init
                 (Examples.mock_mobilenet [9 # 10; 1 # 10])
                 (Examples.mock_nasnet [0; 0; 0; 0; 0; 0; 0; 1]))
              [1; 2]%Z))
  = Raise (HTTPException 500 "key").
Proof.
  split.
  - apply (proj1 (stage2_label_lookup
                    Examples.mock_rt Examples.mock_cv
                    (Examples.mock_mobilenet [9 # 10; 1 # 10])
                    (Examples.mock_nasnet Examples.seven_probs))
                 Examples.seven_probs 4%nat);
      reflexivity.
  - erewrite (proj2 (stage2_label_lookup
                       Examples.mock_rt Examples.mock_cv
                       (Examples.mock_mobilenet [9 # 10; 1 # 10])
                       (Examples.mock_nasnet [0; 0; 0; 0; 0; 0; 0; 1]))
                    [1; 2]%Z Examples.gray_u8 Examples.gray_u8
                    {| class_index := 0; probabilities := [9 # 10; 1 # 10];
                       gradcam_visualization := tt |});
      [reflexivity | reflexivity | reflexivity | reflexivity | reflexivity
      | vm_compute; reflexivity | vm_compute; lia ].
Defined.

(** ** The attribution functions *)





(** X11.  The layer lookup of [tensorflow_grad_cam] has three outcomes:
    the first layer with the requested name (the fallback is then not
    consulted), else the last [Conv2D] under its own name, else an
    [UnboundLocalError] when no layer is a [Conv2D].  The [ValueError]
    "Layer ... not found in model" of its last line is never raised. *)
Theorem tensorflow_target_layer_outcomes (model : keras_model)
        (layer_name : string) :
  (forall msg,
     tensorflow_target_layer model layer_name <> Raise (ValueError msg)) /\
  ((exists layer,
      find (fun l => String.eqb (name l) layer_name) (layers model)
        = Some layer /\
      name layer = layer_name /\
      tensorflow_target_layer model layer_name = Ok (layer_name, layer)) \/
   (find (fun l => String.eqb (name l) layer_name) (layers model) = None /\
    exists layer,
      last_Conv2D model = Some layer /\
      tensorflow_target_layer model layer_name = Ok (name layer, layer)) \/
   (find (fun l => String.eqb (name l) layer_name) (layers model) = None /\
    (forall l, In l (layers model) -> is_Conv2D l = false) /\
    exists msg,
      tensorflow_target_layer model layer_name
      = Raise (UnboundLocalError msg))).
Proof.
  unfold tensorflow_target_layer, get_layer.
  destruct (find (fun l => String.eqb (name l) layer_name) (layers model))
    as [layer|] eqn:Hfind; simpl.
  - split; [discriminate|]. left. exists layer.
    apply find_some in Hfind as [_ Hname]. apply String.eqb_eq in Hname.
    auto.
  - destruct (last_Conv2D model) as [layer|] eqn:Hlast.
    + split; [discriminate|]. right. left. eauto.
    + split; [discriminate|]. right. right.
      split; [reflexivity|]. split; [|eauto].
      intros l Hl. unfold last_Conv2D in Hlast.
      apply (find_none _ _ Hlast). now apply -> in_rev.
Qed.

Lemma set_one_out_of_range (l : list Q) : forall i,
  (length l <= i)%nat -> set_one l i = None.
Proof.
  induction l as [|x l IH]; intros i Hi; simpl; [reflexivity|].
  destruct i as [|i]; simpl in Hi; [lia|].
  rewrite IH by lia. reflexivity.
Qed.

(** X12.  PyTorch variant: a target class beyond the model's outputs
    raises [IndexError] when the one-hot vector is written, after the
    forward pass and before any gradient is read. *)
Theorem pytorch_target_class_out_of_range
        (model : torch_model) (input_tensor : chw) (target_class : nat)
        (layer_name : string) (layer : torch_module) (output : list Q) :
  pytorch_target_layer model layer_name = Ok layer ->
  model_call model input_tensor = Ok output ->
  (length output <= target_class)%nat ->
  pytorch_grad_cam model input_tensor target_class layer_name
  = Raise (IndexError "index is out of bounds for dimension 1").
Proof.
  intros Hl Hout Hc.
  unfold pytorch_grad_cam, pytorch_weighted_sum, one_hot.
  rewrite Hl. simpl. rewrite Hout. simpl.
  rewrite set_one_out_of_range by now rewrite length_map.
  reflexivity.
Qed.

Lemma pytorch_target_class_out_of_range_witness :
  pytorch_grad_cam Examples.tiny_torch Examples.input_chw 2 "features"
  = Raise (IndexError "index is out of bounds for dimension 1").
Proof.
  apply (@pytorch_target_class_out_of_range
           Examples.tiny_torch Examples.input_chw 2%nat "features"%string
           Examples.features_module
           (Examples.head_chw
              (Examples.conv1x1_chw Examples.W1 Examples.input_chw))).
  - reflexivity.
  - reflexivity.
  - simpl. lia.
Defined.

Lemma heatmap_loop_outcome (features : chw) (weights : list Q) :
  forall i heatmap,
    (i <= length features)%nat ->
    ((i + length weights <= length features)%nat ->
       exists h, heatmap_loop weights i features heatmap = Ok h) /\
    ((length features < i + length weights)%nat ->
       heatmap_loop weights i features heatmap
       = Raise (IndexError "index is out of bounds for dimension 1")).
Proof.
  induction weights as [|w weights IH]; intros i heatmap Hi; simpl.
  - split; [eauto | lia].
  - destruct (nth_error features i) as [plane|] eqn:E; simpl.
    + assert (i < length features)%nat by (apply nth_error_Some; congruence).
      destruct (IH (S i) (grid_add heatmap (grid_scale w plane))) as [H1 H2];
        [lia|].
      split; intros Hlen; [apply H1 | apply H2]; lia.
    + apply nth_error_None in E. split; [lia | reflexivity].
Qed.

(** X13.  PyTorch variant: there is one weight per channel of the
    gradient at the input, and the loop reads that many channels of the
    target layer's output; when the layer has fewer channels than the
    gradient the call raises [IndexError], otherwise the weighted sum
    is returned. *)
Theorem pytorch_loop_needs_enough_channels
        (model : torch_model) (input_tensor : chw) (target_class : nat)
        (layer_name : string) (layer : torch_module)
        (output g : list Q) (gradients features : chw) :
  pytorch_target_layer model layer_name = Ok layer ->
  model_call model input_tensor = Ok output ->
  one_hot output target_class = Ok g ->
  backward_input_grad model input_tensor g = Ok gradients ->
  module_call layer input_tensor = Ok features ->
  ((length features < length gradients)%nat ->
     pytorch_grad_cam model input_tensor target_class layer_name
     = Raise (IndexError "index is out of bounds for dimension 1")) /\
  ((length gradients <= length features)%nat ->
     exists w raw,
       pytorch_weighted_sum model input_tensor target_class layer_name
         = Ok (w, raw) /\
       length w = length gradients).
Proof.
  intros Hl Hout Hg Hgr Hf.
  unfold pytorch_grad_cam, pytorch_weighted_sum.
  rewrite Hl. simpl. rewrite Hout. simpl. rewrite Hg. simpl.
  rewrite Hgr. simpl. rewrite Hf. simpl.
  set (z := zeros _ _).
  destruct (heatmap_loop_outcome features (torch_mean_23 gradients) z
                                 (Nat.le_0_l _))
    as [H1 H2].
  unfold torch_mean_23 in *. rewrite length_map in *.
  split; intros Hlen.
  - rewrite H2 by lia. reflexivity.
  - destruct H1 as [h Hh]; [lia|]. rewrite Hh. simpl.
    eexists. eexists. split; [reflexivity|]. apply length_map.
Qed.

(** ** The classifiers' [predict_with_gradcam] *)

Section PredictWithGradcam.
Variable rt : runtime.

(** X6.  When [predict_with_gradcam] returns, in either classifier, the
    class index is the first maximum of the probabilities, the
    attribution function of that classifier's backend ran once, for that
    class, followed by [apply_grad_cam], and every sample of the
    visualization lies in [0,1]. *)
Theorem predict_with_gradcam_results :
  (forall mn image_array log p log',
     MobileNetPredictor_predict_with_gradcam rt mn image_array log
       = (Ok p, log') ->
     argmax (probabilities p) = Some (class_index p) /\
     log' = log ++ [MobileNetPredictor_predict_with_gradcam_called;
                    pytorch_grad_cam_called (class_index p);
                    apply_grad_cam_called] /\
     samples in_unit (gradcam_visualization p)) /\
  (forall nn image log p log',
     SkinLesionClassifier_predict_with_gradcam rt nn image log
       = (Ok p, log') ->
     argmax (probabilities p) = Some (class_index p) /\
     log' = log ++ [SkinLesionClassifier_predict_with_gradcam_called;
                    tensorflow_grad_cam_called (class_index p);
                    apply_grad_cam_called] /\
     samples in_unit (gradcam_visualization p)).
Proof.
  split.
  - intros mn image_array log p log'.
    unfold MobileNetPredictor_predict_with_gradcam, mbind, lift, ret, called.
    destruct (prepare_image mn image_array) as [t|e]; simpl;
      [|discriminate].
    unfold softmax_argmax.
    destruct (model_call (model mn) t) as [out|e]; simpl; [|discriminate].
    destruct (argmax (torch_softmax rt out)) as [c|] eqn:Ec; simpl;
      [|discriminate].
    destruct (pytorch_grad_cam (model mn) t c "features")
      as [[orig heat]|e]; simpl; [|discriminate].
    destruct (apply_grad_cam (cv2_resize rt) (nonfinite_uint8 rt) orig
                             (map (map Num) heat) default_alpha)
      as [vis|e] eqn:Ev; simpl; [|discriminate].
    intros [= <- <-]. simpl. split; [exact Ec|]. split.
    + now rewrite <- !app_assoc.
    + eapply composite_in_unit; eauto.
  - intros nn image log p log'.
    unfold SkinLesionClassifier_predict_with_gradcam, mbind, lift, ret,
      called.
    destruct (predict (keras nn) image) as [preds|e]; simpl; [|discriminate].
    destruct (argmax preds) as [c|] eqn:Ec; simpl; [|discriminate].
    destruct (tensorflow_grad_cam (keras nn) image c "conv2d_93")
      as [[orig heat]|e]; simpl; [|discriminate].
    destruct (apply_grad_cam (cv2_resize rt) (nonfinite_uint8 rt) orig heat
                             default_alpha)
      as [vis|e] eqn:Ev; simpl; [|discriminate].
    intros [= <- <-]. simpl. split; [exact Ec|]. split.
    + now rewrite <- !app_assoc.
    + eapply composite_in_unit; eauto.
Qed.

End PredictWithGradcam.

Lemma predict_with_gradcam_results_witness :
  (exists p log',
     MobileNetPredictor_predict_with_gradcam
       Examples.mock_rt (Examples.mock_mobilenet [2 # 10; 8 # 10])
       Examples.gray_u8 [] = (Ok p, log') /\
     samples in_unit (gradcam_visualization p)) /\
  (exists p log',
     SkinLesionClassifier_predict_with_gradcam
       Examples.mock_rt (Examples.mock_nasnet Examples.seven_probs)
       Examples.gray_hwc [] = (Ok p, log') /\
     samples in_unit (gradcam_visualization p)).
Proof.
  destruct (predict_with_gradcam_results Examples.mock_rt) as [H1 H2].
  split.
  - destruct (MobileNetPredictor_predict_with_gradcam
                Examples.mock_rt (Examples.mock_mobilenet [2 # 10; 8 # 10])
                Examples.gray_u8 []) as [[p|e] log'] eqn:E.
    + exists p, log'. split; [reflexivity|].
      exact (proj2 (proj2 (H1 _ _ _ _ _ E))).
    + vm_compute in E. discriminate E.
  - destruct (SkinLesionClassifier_predict_with_gradcam
                Examples.mock_rt (Examples.mock_nasnet Examples.seven_probs)
                Examples.gray_hwc []) as [[p|e] log'] eqn:E.
    + exists p, log'. split; [reflexivity|].
      exact (proj2 (proj2 (H2 _ _ _ _ _ E))).
    + vm_compute in E. discriminate E.
Defined.

(** ** Preprocessing, once more *)

Section MorePreprocessingFacts.
Context {Image Gray Kernel : Type}.
Variable cv : ImagePreprocessing.cv2 Image Gray Kernel.
Variable target_size : nat * nat.

Import ImagePreprocessing.

(** X17.  The two filters always hand an image to the resize step, and
    [preprocess] returns [None] exactly when that step raises; when both
    filters fail the image resized is the input itself, and when only
    sharpening fails it is the hair-removed image. *)
Theorem preprocess_none_only_from_resize (image : Image) :
  exists filtered,
    (h <- hair_remove cv image ;; sharpen_image cv h) = Ok filtered /\
    preprocess cv target_size image
    = match resize_NEAREST cv filtered target_size with
      | Ok r => Ok (Some r)
      | Raise _ => Ok None
      end /\
    ((exists e, hair_remove_body cv image = Raise e) ->
     (exists e, sharpen_image_body cv image = Raise e) ->
     filtered = image) /\
    (forall h,
       hair_remove_body cv image = Ok h ->
       (exists e, sharpen_image_body cv h = Raise e) ->
       filtered = h).
Proof.
  unfold preprocess, preprocess_body, hair_remove, sharpen_image.
  destruct (hair_remove_body cv image) as [h|eh] eqn:Hh; simpl.
  - destruct (sharpen_image_body cv h) as [s|es] eqn:Hs; simpl.
    + exists s. split; [reflexivity|]. split.
      * destruct (resize_NEAREST cv s target_size); reflexivity.
      * split.
        -- intros [e He]. discriminate.
        -- intros h' [= <-] [e He]. congruence.
    + exists h. split; [reflexivity|]. split.
      * destruct (resize_NEAREST cv h target_size); reflexivity.
      * split.
        -- intros [e He]. discriminate.
        -- intros h' [= <-] _. reflexivity.
  - destruct (sharpen_image_body cv image) as [s|es] eqn:Hs; simpl.
    + exists s. split; [reflexivity|]. split.
      * destruct (resize_NEAREST cv s target_size); reflexivity.
      * split.
        -- intros _ [e He]. discriminate.
        -- intros h' Hh'. discriminate.
    + exists image. split; [reflexivity|]. split.
      * destruct (resize_NEAREST cv image target_size); reflexivity.
      * split.
        -- reflexivity.
        -- intros h' Hh'. discriminate.
Qed.

End MorePreprocessingFacts.

Lemma preprocess_none_only_from_resize_witness :
  exists filtered,
    ImagePreprocessing.preprocess Examples.cv_all_fail (224, 224)%nat 7%nat
    = match ImagePreprocessing.resize_NEAREST
              Examples.cv_all_fail filtered (224, 224)%nat with
      | Ok r => Ok (Some r)
      | Raise _ => Ok None
      end /\
    filtered = 7%nat.
Proof.
  destruct (preprocess_none_only_from_resize
              Examples.cv_all_fail (224, 224)%nat 7%nat)
    as (filtered & _ & Hpre & Hboth & _).
  exists filtered. split; [exact Hpre|].
  apply Hboth; eexists; reflexivity.
Defined.

(** ** Which parameters [MobileNetV2Classifier] trains *)

Lemma slice_last_start {A} (n : nat) (l : list A) :
  let start := if Nat.eqb n 0 then 0%nat else (length l - n)%nat in
  slice_last n l = skipn start l /\
  (start <= length l)%nat /\
  (length l - length (slice_last n l))%nat = start.
Proof.
  intros start. unfold slice_last. fold start.
  assert (Hs : (start <= length l)%nat).
  { unfold start. destruct (Nat.eqb n 0); lia. }
  split; [reflexivity|]. split; [exact Hs|].
  rewrite length_skipn. lia.
Qed.

(** X15.  After [MobileNetV2Classifier.__init__] a feature block is
    trainable exactly when it is one of the last
    [num_unfreeze_stages * layers_per_stage] blocks (all blocks when
    there are fewer), the two classifier parameters are trainable, and
    with a product of 0 the slice [[-0:]] is the whole list, so every
    block is trainable. *)
Theorem unfrozen_blocks (config : ModelConfig)
        (pretrained_features : list (list bool)) :
  let n := (num_unfreeze_stages config * layers_per_stage config)%nat in
  let start :=
    if Nat.eqb n 0 then 0%nat else (length pretrained_features - n)%nat in
  let after := MobileNetV2Classifier_init config pretrained_features in
  (forall i flags,
     nth_error pretrained_features i = Some flags ->
     nth_error (features_requires_grad after) i
     = Some (map (fun _ => Nat.leb start i) flags)) /\
  length (features_requires_grad after) = length pretrained_features /\
  classifier_requires_grad after = [true; true] /\
  (n = 0%nat ->
   features_requires_grad after
   = map (map (fun _ => true)) pretrained_features).
Proof.
  intros n start after.
  set (F := map (map (fun _ : bool => false)) pretrained_features).
  assert (HF : length F = length pretrained_features) by apply length_map.
  assert (Hafter : features_requires_grad after
                   = firstn start F
                     ++ map (map (fun _ => true)) (skipn start F)).
  { unfold after, MobileNetV2Classifier_init. simpl. fold F. fold n.
    destruct (slice_last_start n F) as (Hslice & _ & Hlen).
    rewrite Hlen, Hslice, HF. reflexivity. }
  assert (Hstart : (start <= length F)%nat).
  { unfold start. rewrite HF. destruct (Nat.eqb n 0); lia. }
  split; [|split; [|split]].
  - intros i flags Hi. rewrite Hafter.
    assert (HFi : nth_error F i = Some (map (fun _ => false) flags)).
    { unfold F. now rewrite nth_error_map, Hi. }
    destruct (Nat.leb start i) eqn:E.
    + apply Nat.leb_le in E.
      rewrite nth_error_app2 by (rewrite length_firstn; lia).
      rewrite length_firstn, Nat.min_l by lia.
      rewrite nth_error_map, nth_error_skipn.
      replace (start + (i - start))%nat with i by lia.
      rewrite HFi. simpl. now rewrite map_map.
    + apply Nat.leb_gt in E.
      rewrite nth_error_app1 by (rewrite length_firstn; lia).
      rewrite nth_error_firstn.
      assert (Hlt : Nat.ltb i start = true) by now apply Nat.ltb_lt.
      rewrite Hlt. exact HFi.
  - rewrite Hafter, length_app, length_firstn, length_map, length_skipn.
    lia.
  - reflexivity.
  - intros Hn. rewrite Hafter. unfold start. rewrite Hn. simpl.
    unfold F. rewrite map_map. apply map_ext. intros block.
    now rewrite map_map.
Qed.

Lemma unfrozen_blocks_witness :
  nth_error
    (features_requires_grad
       (MobileNetV2Classifier_init ModelConfig_init
                                   (repeat [true; true] 19)))
    6 = Some [false; false] /\
  nth_error
    (features_requires_grad
       (MobileNetV2Classifier_init ModelConfig_init
                                   (repeat [true; true] 19)))
    7 = Some [true; true] /\
  features_requires_grad
    (MobileNetV2Classifier_init
       {| learning_rate := 0; dropout_rate := 0; batch_size := 1;
          num_unfreeze_stages := 0; layers_per_stage := 3;
          grad_clip_value := 0; patience := 0; num_epochs := 0;
          image_size := 224; num_classes := 2 |}
       [[false]; [false]])
  = [[true]; [true]].
Proof.
  split; [|split].
  - apply (proj1 (unfrozen_blocks ModelConfig_init (repeat [true; true] 19))
                 6%nat [true; true]).
    reflexivity.
  - apply (proj1 (unfrozen_blocks ModelConfig_init (repeat [true; true] 19))
                 7%nat [true; true]).
    reflexivity.
  - apply (proj2 (proj2 (proj2 (unfrozen_blocks
             {| learning_rate := 0; dropout_rate := 0; batch_size := 1;
                num_unfreeze_stages := 0; layers_per_stage := 3;
                grad_clip_value := 0; patience := 0; num_epochs := 0;
                image_size := 224; num_classes := 2 |}
             [[false]; [false]])))).
    reflexivity.
Defined.

Lemma pytorch_loop_needs_enough_channels_witness :
  pytorch_grad_cam MoreExamples.narrow_torch Examples.input_chw 0 "features"
    = Raise (IndexError "index is out of bounds for dimension 1") /\
  exists w raw,
    pytorch_weighted_sum Examples.tiny_torch Examples.input_chw 0 "features"
      = Ok (w, raw) /\
    length w = 3%nat.
Proof.
  split.
  - eapply (@pytorch_loop_needs_enough_channels
              MoreExamples.narrow_torch Examples.input_chw 0%nat
              "features"%string);
      [reflexivity | reflexivity | reflexivity | reflexivity | reflexivity
      | simpl; lia].
  - edestruct (@pytorch_loop_needs_enough_channels
                 Examples.tiny_torch Examples.input_chw 0%nat
                 "features"%string)
      as [_ H];
      [reflexivity | reflexivity | reflexivity | reflexivity | reflexivity |].
    destruct H as (w & raw & Hws & Hlen); [simpl; lia|].
    exists w, raw. split; [exact Hws|]. rewrite Hlen. reflexivity.
Defined.

(** ** Compositing, pixel by pixel *)

Lemma clip_Qeq (x y : Q) : x == y -> clip x 0 1 == clip y 0 1.
Proof.
  intros Hxy. unfold clip, qmin, qmax.
  destruct (Qle_bool x 0) eqn:E1; destruct (Qle_bool y 0) eqn:E2;
    try change (Qle_bool 0 1) with true; cbv iota;
    try destruct (Qle_bool x 1) eqn:E3; try destruct (Qle_bool y 1) eqn:E4;
    qle_bool; lra.
Qed.

Lemma clip_saturates (y : Q) : 1 <= y -> clip y 0 1 == 1.
Proof.
  intros Hy. unfold clip, qmin, qmax.
  destruct (Qle_bool y 0) eqn:E1; [qle_bool; lra|].
  destruct (Qle_bool y 1) eqn:E2; qle_bool; lra.
Qed.

Lemma zip_with_fuse {A B C D E} (f : A -> C -> D) (g : B -> E -> C)
      (z : A -> B) (l : list A) : forall m,
  zip_with f l (zip_with g (map z l) m)
  = zip_with (fun a b => f a (g (z a) b)) l m.
Proof.
  induction l as [|a l IH]; intros [|b m]; simpl; try reflexivity.
  now rewrite IH.
Qed.

Lemma map_zip_with {A B C D} (h : C -> D) (f : A -> B -> C) (l : list A) :
  forall m, map h (zip_with f l m) = zip_with (fun a b => h (f a b)) l m.
Proof.
  induction l as [|a l IH]; intros [|b m]; simpl; try reflexivity.
  now rewrite IH.
Qed.

Lemma zip_with_ext {A B C} (f g : A -> B -> C) (l : list A) :
  (forall a b, f a b = g a b) ->
  forall m, zip_with f l m = zip_with g l m.
Proof.
  intros H. induction l as [|a l IH]; intros [|b m]; simpl; try reflexivity.
  now rewrite H, IH.
Qed.

Lemma nth_error_zip_with {A B C} (f : A -> B -> C) (l : list A) :
  forall m i,
    nth_error (zip_with f l m) i
    = match nth_error l i, nth_error m i with
      | Some a, Some b => Some (f a b)
      | _, _ => None
      end.
Proof.
  induction l as [|a l IH]; intros [|b m] [|i]; simpl; try reflexivity.
  - now destruct (nth_error l i).
  - apply IH.
Qed.

Lemma pixel_at_zip_with {A B C} (f : A -> B -> C) (g : grid A) (h : grid B)
      (i j : nat) :
  pixel_at (zip_with (zip_with f) g h) i j
  = match pixel_at g i j, pixel_at h i j with
    | Some a, Some b => Some (f a b)
    | _, _ => None
    end.
Proof.
  unfold pixel_at. rewrite nth_error_zip_with.
  destruct (nth_error g i) as [row|]; [|reflexivity].
  destruct (nth_error h i) as [hrow|].
  - apply nth_error_zip_with.
  - now destruct (nth_error row j).
Qed.

Lemma pixel_at_map {A B} (f : A -> B) (g : grid A) (i j : nat) :
  pixel_at (map (map f) g) i j = option_map f (pixel_at g i j).
Proof.
  unfold pixel_at. rewrite nth_error_map.
  destruct (nth_error g i) as [row|]; simpl; [|reflexivity].
  apply nth_error_map.
Qed.

Lemma shape_eqb_true (s t : nat * nat) :
  shape_eqb s t = true -> fst s = fst t /\ snd s = snd t.
Proof.
  unfold shape_eqb. intros H. apply andb_true_iff in H as [H1 H2].
  apply Nat.eqb_eq in H1. apply Nat.eqb_eq in H2. auto.
Qed.

Lemma Forall2_zip_with_l {A B} (R : A -> A -> Prop) (f : A -> B -> A)
      (l : list A) :
  forall m,
    length l = length m ->
    (forall a b, In a l -> In b m -> R (f a b) a) ->
    Forall2 R (zip_with f l m) l.
Proof.
  induction l as [|a l IH]; intros [|b m] Hlen H; simpl in *;
    try discriminate; constructor.
  - apply H; now left.
  - apply IH; [lia|]. intros a' b' Ha Hb. apply H; now right.
Qed.

Lemma blend_length (alpha : Q) (px : list Q) (u : Z) :
  length (blend alpha px u) = length px.
Proof. destruct px; simpl; [reflexivity|]. now rewrite length_map. Qed.

Section CompositorPixels.
Variable cv2_resize : grid fl -> nat * nat -> result (grid fl).
Variable nonfinite_uint8 : fl -> Z.

(** With a heatmap of the image's size, the visualization is the image
    and the bytes of the heatmap blended pixel by pixel. *)
Lemma composite_closed_form (image : hwc) (heatmap : grid fl) (alpha : Q)
      (v : hwc) :
  shape_eqb (shape2 image) (shape2 heatmap) = true ->
  apply_grad_cam cv2_resize nonfinite_uint8 image heatmap alpha = Ok v ->
  v = zip_with (zip_with (blend alpha)) image
               (map (map (fun x => np_uint8 nonfinite_uint8 (fl_scale 255 x)))
                    heatmap).
Proof.
  intros Hshape. unfold apply_grad_cam. rewrite Hshape. simpl.
  intros H. apply bind_Ok_inv in H as [colored [Hc H]].
  injection H as <-. unfold set_channel_0 in Hc.
  destruct (negb _); [discriminate|].
  destruct (existsb _ _); [discriminate|].
  injection Hc as <-. unfold zeros_like.
  rewrite zip_with_fuse, map_zip_with.
  apply zip_with_ext. intros row urow.
  rewrite zip_with_fuse, map_zip_with.
  apply zip_with_ext. intros px u.
  destruct px as [|r others]; simpl; [reflexivity|].
  now rewrite zip_with_map_r, map_map.
Qed.

Lemma composite_returns (image : hwc) (heatmap : grid fl) (alpha : Q) :
  has_channels image ->
  shape_eqb (shape2 image) (shape2 heatmap) = true ->
  exists v, apply_grad_cam cv2_resize nonfinite_uint8 image heatmap alpha
            = Ok v.
Proof.
  intros Hc Hshape. unfold apply_grad_cam. rewrite Hshape. simpl.
  unfold set_channel_0.
  assert (Hs : shape2 (zeros_like image) = shape2 image).
  { unfold zeros_like. apply shape2_map. intros. apply length_map. }
  assert (Hb : shape2 (map (map (fun x => np_uint8 nonfinite_uint8
                                             (fl_scale 255 x)))
                           heatmap)
               = shape2 heatmap).
  { apply shape2_map. intros. apply length_map. }
  rewrite Hs, Hb, Hshape. simpl.
  rewrite (no_empty_pixel Hc). simpl. eauto.
Qed.

(** X8.  For an image whose pixels have a channel and a heatmap of the
    image's size, both rectangular, [apply_grad_cam] returns, and the
    visualization has the image's shape: as many rows, columns and
    channels.  A heatmap of another size is first replaced by what
    [cv2.resize] makes of it. *)
Theorem composite_keeps_image_shape :
  (forall image heatmap alpha,
     has_channels image -> rect image -> rect heatmap ->
     shape_eqb (shape2 image) (shape2 heatmap) = true ->
     exists v,
       apply_grad_cam cv2_resize nonfinite_uint8 image heatmap alpha = Ok v /\
       Forall2 (Forall2 (fun pv px => length pv = length px)) v image) /\
  (forall image heatmap resized alpha,
     shape_eqb (shape2 image) (shape2 heatmap) = false ->
     cv2_resize heatmap (snd (shape2 image), fst (shape2 image))
       = Ok resized ->
     shape_eqb (shape2 image) (shape2 resized) = true ->
     apply_grad_cam cv2_resize nonfinite_uint8 image heatmap alpha
     = apply_grad_cam cv2_resize nonfinite_uint8 image resized alpha).
Proof.
  split.
  - intros image heatmap alpha Hc Hri Hrh Hshape.
    destruct (@composite_returns image heatmap alpha Hc Hshape) as [v Hv].
    exists v. split; [exact Hv|].
    rewrite (@composite_closed_form _ _ _ _ Hshape Hv).
    apply shape_eqb_true in Hshape as [Hrows Hcols]. simpl in Hrows.
    unfold rect in Hri, Hrh. rewrite Forall_forall in Hri, Hrh.
    apply Forall2_zip_with_l.
    + now rewrite length_map.
    + intros row urow Hrow Hurow.
      apply in_map_iff in Hurow as [hrow [<- Hhrow]].
      apply Forall2_zip_with_l.
      * rewrite length_map, (Hri row Hrow), (Hrh hrow Hhrow). exact Hcols.
      * intros px u _ _. apply blend_length.
  - intros image heatmap resized alpha Hne Hr Heq.
    unfold apply_grad_cam. now rewrite Hne, Hr, Heq.
Qed.

(** X9.  The heatmap reaches channel 0 only: every other channel of a
    pixel of the visualization is the clipped channel of the image, and
    two heatmaps give visualizations that differ in channel 0 at most. *)
Theorem composite_touches_channel_0_only :
  (forall image heatmap alpha v i j pv,
     shape_eqb (shape2 image) (shape2 heatmap) = true ->
     apply_grad_cam cv2_resize nonfinite_uint8 image heatmap alpha = Ok v ->
     pixel_at v i j = Some pv ->
     exists px,
       pixel_at image i j = Some px /\
       Forall2 Qeq (tl pv) (map (fun x => clip x 0 1) (tl px))) /\
  (forall image heatmap1 heatmap2 alpha v1 v2 i j pv1 pv2,
     shape_eqb (shape2 image) (shape2 heatmap1) = true ->
     shape_eqb (shape2 image) (shape2 heatmap2) = true ->
     apply_grad_cam cv2_resize nonfinite_uint8 image heatmap1 alpha = Ok v1 ->
     apply_grad_cam cv2_resize nonfinite_uint8 image heatmap2 alpha = Ok v2 ->
     pixel_at v1 i j = Some pv1 -> pixel_at v2 i j = Some pv2 ->
     tl pv1 = tl pv2).
Proof.
  assert (Htl : forall image heatmap alpha v i j pv,
            shape_eqb (shape2 image) (shape2 heatmap) = true ->
            apply_grad_cam cv2_resize nonfinite_uint8 image heatmap alpha
              = Ok v ->
            pixel_at v i j = Some pv ->
            exists px,
              pixel_at image i j = Some px /\
              tl pv = map (fun x => clip (x + alpha * 0) 0 1) (tl px)).
  { intros image heatmap alpha v i j pv Hshape Hv Hpv.
    rewrite (@composite_closed_form _ _ _ _ Hshape Hv) in Hpv.
    rewrite pixel_at_zip_with in Hpv.
    destruct (pixel_at image i j) as [px|]; [|discriminate].
    destruct (pixel_at _ i j) as [u|]; [|discriminate].
    injection Hpv as <-. exists px. split; [reflexivity|].
    destruct px; reflexivity. }
  split.
  - intros image heatmap alpha v i j pv Hshape Hv Hpv.
    destruct (Htl _ _ _ _ _ _ _ Hshape Hv Hpv) as (px & Hpx & ->).
    exists px. split; [exact Hpx|].
    apply Forall2_map_map. intros x _. apply clip_Qeq. lra.
  - intros image heatmap1 heatmap2 alpha v1 v2 i j pv1 pv2
           Hs1 Hs2 Hv1 Hv2 Hp1 Hp2.
    destruct (Htl _ _ _ _ _ _ _ Hs1 Hv1 Hp1) as (px1 & Hpx1 & ->).
    destruct (Htl _ _ _ _ _ _ _ Hs2 Hv2 Hp2) as (px2 & Hpx2 & ->).
    congruence.
Qed.

Lemma Qtrunc_floor (y : Q) : 0 <= y -> Qtrunc y = Qfloor y.
Proof.
  destruct y as [n d]. unfold Qle, Qtrunc, Qfloor. simpl. intros H.
  apply Z.quot_div_nonneg; lia.
Qed.

Lemma np_uint8_at_least_3 (q : Q) :
  1 # 64 <= q -> q <= 1 ->
  (3 <= np_uint8 nonfinite_uint8 (fl_scale 255 (Num q)) <= 255)%Z.
Proof.
  intros Hlo Hhi. simpl. rewrite Qtrunc_floor by lra.
  assert (H3 : (Qfloor (255 # 64) <= Qfloor (255 * q))%Z)
    by (apply Qfloor_resp_le; lra).
  assert (H255 : (Qfloor (255 * q) <= Qfloor 255)%Z)
    by (apply Qfloor_resp_le; lra).
  change (Qfloor (255 # 64)) with 3%Z in H3.
  change (Qfloor 255) with 255%Z in H255.
  rewrite Z.mod_small by lia. lia.
Qed.

Lemma np_uint8_zero (q : Q) :
  0 <= q -> q <= 1 # 256 ->
  np_uint8 nonfinite_uint8 (fl_scale 255 (Num q)) = 0%Z.
Proof.
  intros Hlo Hhi. simpl. rewrite Qtrunc_floor by lra.
  assert (H0 : (Qfloor 0 <= Qfloor (255 * q))%Z)
    by (apply Qfloor_resp_le; lra).
  assert (H1 : (Qfloor (255 * q) <= Qfloor (255 # 256))%Z)
    by (apply Qfloor_resp_le; lra).
  change (Qfloor 0) with 0%Z in H0.
  change (Qfloor (255 # 256)) with 0%Z in H1.
  replace (Qfloor (255 * q)) with 0%Z by lia. reflexivity.
Qed.

(** X10.  The heatmap is scaled to bytes while the image stays in
    [0,1], so with the default alpha the overlay is all or nothing: a
    heatmap cell of at least 1/64 (up to 1) sets channel 0 of its pixel
    to 1 whatever the image holds there, and a cell of at most 1/256
    leaves the clipped image sample. *)
Theorem composite_overlay_is_all_or_nothing
        (image : hwc) (heatmap : grid fl) (v : hwc)
        (i j : nat) (x : Q) (others : list Q) (q : Q) :
  shape_eqb (shape2 image) (shape2 heatmap) = true ->
  apply_grad_cam cv2_resize nonfinite_uint8 image heatmap default_alpha
    = Ok v ->
  pixel_at image i j = Some (x :: others) ->
  0 <= x ->
  pixel_at heatmap i j = Some (Num q) ->
  exists r others',
    pixel_at v i j = Some (r :: others') /\
    (1 # 64 <= q -> q <= 1 -> r == 1) /\
    (0 <= q -> q <= 1 # 256 -> r == clip x 0 1).
Proof.
  intros Hshape Hv Hpx Hx Hq.
  rewrite (@composite_closed_form _ _ _ _ Hshape Hv).
  rewrite pixel_at_zip_with, Hpx, pixel_at_map, Hq. simpl.
  eexists. eexists. split; [reflexivity|]. split.
  - intros Hlo Hhi.
    pose proof (@np_uint8_at_least_3 q Hlo Hhi) as [H3 _]. simpl in H3.
    apply clip_saturates. unfold default_alpha.
    assert (Hu : inject_Z 3 <= inject_Z (Qtrunc (255 * q) mod 256))
      by (rewrite <- Zle_Qle; exact H3).
    change (inject_Z 3) with 3 in Hu. lra.
  - intros Hlo Hhi.
    pose proof (@np_uint8_zero q Hlo Hhi) as H0. simpl in H0. rewrite H0.
    apply clip_Qeq. change (inject_Z 0) with 0. lra.
Qed.

End CompositorPixels.

Lemma composite_keeps_image_shape_witness :
  (exists v,
     apply_grad_cam Examples.resize_nearest Examples.nonfinite_to_zero
                    MoreExamples.two_pixels MoreExamples.hot_cold
                    default_alpha = Ok v /\
     Forall2 (Forall2 (fun pv px => length pv = length px))
             v MoreExamples.two_pixels) /\
  apply_grad_cam Examples.resize_nearest Examples.nonfinite_to_zero
                 MoreExamples.two_pixels [[Num (1 # 2)]] default_alpha
  = apply_grad_cam Examples.resize_nearest Examples.nonfinite_to_zero
                   MoreExamples.two_pixels [[Num (1 # 2); Num (1 # 2)]]
                   default_alpha.
Proof.
  destruct (composite_keeps_image_shape
              Examples.resize_nearest Examples.nonfinite_to_zero)
    as [Ha Hb].
  split.
  - apply Ha.
    + repeat constructor; discriminate.
    + repeat constructor.
    + repeat constructor.
    + reflexivity.
  - apply Hb; reflexivity.
Defined.

Lemma composite_touches_channel_0_only_witness :
  exists px,
    pixel_at MoreExamples.two_pixels 0 0 = Some px /\
    Forall2 Qeq [10 # 40; 0] (map (fun x => clip x 0 1) (tl px)).
Proof.
  apply (proj1 (composite_touches_channel_0_only
                  Examples.resize_nearest Examples.nonfinite_to_zero)
               MoreExamples.two_pixels MoreExamples.hot_cold default_alpha
               [ [[1; 10 # 40; 0]; [10 # 20; 10 # 40; 0]] ] 0%nat 0%nat
               [1; 10 # 40; 0]);
    reflexivity.
Defined.

Lemma composite_overlay_is_all_or_nothing_witness :
  (exists r others',
     pixel_at [ [[1; 10 # 40; 0]; [10 # 20; 10 # 40; 0]] ] 0 0
       = Some (r :: others') /\ r == 1) /\
  (exists r others',
     pixel_at [ [[1; 10 # 40; 0]; [10 # 20; 10 # 40; 0]] ] 0 1
       = Some (r :: others') /\ r == clip (1 # 2) 0 1).
Proof.
  split.
  - destruct (@composite_overlay_is_all_or_nothing
                Examples.resize_nearest Examples.nonfinite_to_zero
                MoreExamples.two_pixels MoreExamples.hot_cold
                [ [[1; 10 # 40; 0]; [10 # 20; 10 # 40; 0]] ]
                0%nat 0%nat (1 # 2) [1 # 4; 0] (1 # 2))
      as (r & others' & Hp & Hhot & _);
      [reflexivity | reflexivity | reflexivity | discriminate
      | reflexivity |].
    exists r, others'. split; [exact Hp|].
    apply Hhot; discriminate.
  - destruct (@composite_overlay_is_all_or_nothing
                Examples.resize_nearest Examples.nonfinite_to_zero
                MoreExamples.two_pixels MoreExamples.hot_cold
                [ [[1; 10 # 40; 0]; [10 # 20; 10 # 40; 0]] ]
                0%nat 1%nat (1 # 2) [1 # 4; 0] 0)
      as (r & others' & Hp & _ & Hcold);
      [reflexivity | reflexivity | reflexivity | discriminate
      | reflexivity |].
    exists r, others'. split; [exact Hp|].
    apply Hcold; discriminate.
Defined.

(** ** The shape fix of [tensorflow_grad_cam] *)

Lemma length_zip_with {A B C} (f : A -> B -> C) (l : list A) :
  forall m, length (zip_with f l m) = Nat.min (length l) (length m).
Proof.
  induction l as [|a l IH]; intros [|b m]; simpl; try reflexivity.
  now rewrite IH.
Qed.

Lemma in_zip_with {A B C} (f : A -> B -> C) (l : list A) :
  forall m y, In y (zip_with f l m) ->
              exists a b, In a l /\ In b m /\ y = f a b.
Proof.
  induction l as [|a l IH]; intros [|b m] y; simpl; try contradiction.
  intros [<-|Hy].
  - exists a, b. auto.
  - destruct (IH m y Hy) as (a' & b' & Ha & Hb & ->).
    exists a', b'. auto.
Qed.

Lemma transpose_shape {A} (width : nat) (rows : list (list A)) :
  Forall (fun r => length r = width) rows ->
  length (transpose width rows) = width /\
  Forall (fun col => length col = length rows) (transpose width rows).
Proof.
  induction 1 as [|r rest Hr _ [IHlen IHcols]]; simpl.
  - split; [apply repeat_length|].
    apply Forall_forall. intros col Hcol.
    apply repeat_spec in Hcol. now subst.
  - split.
    + rewrite length_zip_with, Hr, IHlen. apply Nat.min_id.
    + apply Forall_forall. intros col Hcol.
      apply in_zip_with in Hcol as (x & col' & _ & Hcol' & ->).
      rewrite Forall_forall in IHcols. simpl. now rewrite (IHcols col').
Qed.

Lemma transpose_entry {A} (width : nat) (rows : list (list A)) :
  Forall (fun r => length r = width) rows ->
  forall c j, pixel_at (transpose width rows) c j = pixel_at rows j c.
Proof.
  induction 1 as [|r rest Hr Hrest IH]; intros c j.
  - unfold pixel_at. simpl.
    destruct (nth_error (repeat [] width) c) as [col|] eqn:E.
    + apply nth_error_In, repeat_spec in E. subst.
      now destruct j.
    + now destruct j.
  - destruct (transpose_shape Hrest) as [Hlen _].
    unfold pixel_at in *. simpl. rewrite nth_error_zip_with.
    destruct (nth_error r c) as [x|] eqn:Ex.
    + assert (Hc : (c < width)%nat).
      { rewrite <- Hr. apply nth_error_Some. congruence. }
      destruct (nth_error (transpose width rest) c) as [col|] eqn:Ecol.
      * destruct j as [|j]; simpl; [now rewrite Ex|].
        specialize (IH c j). rewrite Ecol in IH. exact IH.
      * apply nth_error_None in Ecol. lia.
    + apply nth_error_None in Ex.
      destruct j as [|j]; simpl.
      * symmetry. apply nth_error_None. lia.
      * specialize (IH c j).
        assert (Enone : nth_error (transpose width rest) c = None)
          by (apply nth_error_None; lia).
        rewrite Enone in IH. exact IH.
Qed.

(** X14.  [tensorflow_grad_cam] leaves a rank-3 input alone unless its
    second dimension is 3; an image exactly three pixels wide is
    transposed before it reaches the model: row [i] of shape (3, C)
    becomes one of shape (C, 3) with entry [c][j] equal to the old
    entry [j][c]. *)
Theorem fix_input_shape_transposes_width_3 :
  (forall t, snd (shape2 t) <> 3%nat -> fix_input_shape t = t) /\
  (forall t i m,
     snd (shape2 t) = 3%nat ->
     nth_error t i = Some m ->
     Forall (fun px => length px = length (hd [] m)) m ->
     exists m',
       nth_error (fix_input_shape t) i = Some m' /\
       length m' = length (hd [] m) /\
       Forall (fun col => length col = length m) m' /\
       forall c j, pixel_at m' c j = pixel_at m j c).
Proof.
  split.
  - intros t Hw. unfold fix_input_shape.
    destruct (Nat.eqb (snd (shape2 t)) 3) eqn:E; [|reflexivity].
    apply Nat.eqb_eq in E. contradiction.
  - intros t i m Hw Hm Hrect. unfold fix_input_shape.
    rewrite Hw. simpl. unfold transpose_021.
    rewrite nth_error_map, Hm. simpl.
    eexists. split; [reflexivity|].
    destruct (transpose_shape Hrect) as [Hlen Hcols].
    split; [exact Hlen|]. split; [exact Hcols|].
    now apply transpose_entry.
Qed.

Lemma fix_input_shape_transposes_width_3_witness :
  fix_input_shape Examples.input_hwc = Examples.input_hwc /\
  exists m',
    nth_error (fix_input_shape MoreExamples.three_wide) 0 = Some m' /\
    length m' = 2%nat /\
    pixel_at m' 1 2 = Some 6.
Proof.
  destruct fix_input_shape_transposes_width_3 as [Hid Htr]. split.
  - apply Hid. simpl. discriminate.
  - destruct (Htr MoreExamples.three_wide 0%nat [[1; 2]; [3; 4]; [5; 6]])
      as (m' & Hm' & Hlen & _ & Hentry).
    + reflexivity.
    + reflexivity.
    + repeat constructor.
    + exists m'. split; [exact Hm'|]. split; [exact Hlen|].
      rewrite Hentry. reflexivity.
Defined.

(** ** Heatmaps without a positive cell *)

Lemma fold_qmin_ge (c : Q) (r : list Q) : forall a,
  c <= a -> (forall y, In y r -> c <= y) -> c <= fold_left qmin r a.
Proof.
  induction r as [|x r IH]; intros a Ha Hr; simpl; [exact Ha|].
  apply IH.
  - unfold qmin. destruct (Qle_bool a x); [exact Ha|].
    apply Hr. now left.
  - intros y Hy. apply Hr. now right.
Qed.

Lemma list_min_ge (l : list Q) (lo c : Q) :
  list_min l = Some lo -> (forall y, In y l -> c <= y) -> c <= lo.
Proof.
  destruct l as [|x r]; simpl; [discriminate|]. intros [= <-] H.
  apply fold_qmin_ge.
  - apply H. now left.
  - intros y Hy. apply H. now right.
Qed.

Lemma relu_nonpositive (x : Q) : x <= 0 -> relu x = 0.
Proof.
  intros Hx. unfold relu, qmax.
  destruct (Qle_bool x 0) eqn:E; [reflexivity|]. qle_bool. contradiction.
Qed.

Lemma normalize_zero_grid (g n : grid Q) :
  cells (fun x => x = 0) g -> normalize_grid g = Ok n ->
  cells (fun x => x == 0) n.
Proof.
  intros Hz H. apply normalize_grid_inv in H as (lo & hi & Hlo & Hhi & ->).
  unfold cells in Hz. rewrite Forall_forall in Hz.
  assert (Hall : forall y, In y (concat g) -> y = 0).
  { intros y Hy. apply in_concat in Hy as (row & Hrow & Hy).
    specialize (Hz row Hrow). rewrite Forall_forall in Hz. auto. }
  assert (H0 : 0 <= lo).
  { apply (list_min_ge _ Hlo). intros y Hy. rewrite (Hall y Hy). lra. }
  apply cells_map. intros row x Hrow Hx.
  pose proof (in_grid_concat g row x Hrow Hx) as Hin.
  pose proof (list_min_le _ Hlo _ Hin) as Hle.
  pose proof (list_min_le_max _ Hlo Hhi) as Hlh.
  rewrite (Hall x Hin) in *.
  unfold minmax_scale, eps.
  assert (Hnum : 0 - lo == 0) by lra.
  rewrite Hnum. unfold Qdiv. ring.
Qed.

(** X18.  When no cell of the weighted sum is positive: the PyTorch
    heatmap is all zeros; the TensorFlow heatmap is all zeros when the
    largest cell is negative, and every cell of it is NaN when the
    largest cell is exactly zero. *)
Theorem heatmap_without_positive_cell :
  (forall model input_tensor target_class layer_name w raw img heat,
     pytorch_weighted_sum model input_tensor target_class layer_name
       = Ok (w, raw) ->
     cells (fun x => x <= 0) raw ->
     pytorch_grad_cam model input_tensor target_class layer_name
       = Ok (img, heat) ->
     cells (fun x => x == 0) heat) /\
  (forall model input_tensor target_class layer_name w raw m img heat,
     tensorflow_weighted_sum model (fix_input_shape input_tensor) target_class
                             layer_name = Ok (w, raw) ->
     list_max (concat raw) = Some m ->
     tensorflow_grad_cam model input_tensor target_class layer_name
       = Ok (img, heat) ->
     (m < 0 -> cells (fl_is 0) heat) /\
     (m == 0 -> cells (fun x => x = NaN) heat)).
Proof.
  split.
  - intros model input_tensor target_class layer_name w raw img heat
           Hws Hneg H.
    apply pytorch_grad_cam_inv in H as (w' & raw' & Hws' & Hn).
    rewrite Hws in Hws'. injection Hws' as <- <-.
    apply (normalize_zero_grid (g := map (map relu) raw)); [|exact Hn].
    apply cells_map. intros row x Hrow Hx.
    apply relu_nonpositive.
    unfold cells in Hneg. rewrite Forall_forall in Hneg.
    specialize (Hneg row Hrow). rewrite Forall_forall in Hneg. auto.
  - intros model input_tensor target_class layer_name w raw m img heat
           Hws Hm H.
    apply tensorflow_grad_cam_inv in H as (w' & raw' & Hws' & ->).
    rewrite Hws in Hws'. injection Hws' as <- <-. split.
    + intros Hneg. unfold tf_max_scale. rewrite Hm.
      apply cells_map. intros row x Hrow Hx.
      pose proof (in_grid_concat raw row x Hrow Hx) as Hin.
      pose proof (list_max_ge _ Hm _ Hin) as Hle.
      rewrite relu_nonpositive by lra.
      rewrite fdiv_nonzero by lra. simpl. unfold Qdiv. ring.
    + intros Hz. now apply (tf_max_scale_zero_max raw Hm).
Qed.

Lemma heatmap_without_positive_cell_witness :
  (exists img heat,
     pytorch_grad_cam Examples.tiny_torch MoreExamples.negative_chw 0
                      "features" = Ok (img, heat) /\
     cells (fun x => x == 0) heat) /\
  (exists img heat,
     tensorflow_grad_cam Examples.tiny_keras MoreExamples.negative_hwc 0
                         "conv2d_93" = Ok (img, heat) /\
     cells (fl_is 0) heat) /\
  (exists img heat,
     tensorflow_grad_cam Examples.tiny_keras Examples.black_hwc 0
                         "conv2d_93" = Ok (img, heat) /\
     cells (fun x => x = NaN) heat).
Proof.
  destruct heatmap_without_positive_cell as [Hp Ht].
  split; [|split].
  - destruct (pytorch_weighted_sum Examples.tiny_torch
                MoreExamples.negative_chw 0 "features")
      as [[w raw]|e] eqn:Ews; [|vm_compute in Ews; discriminate Ews].
    destruct (pytorch_grad_cam Examples.tiny_torch
                MoreExamples.negative_chw 0 "features")
      as [[img heat]|e] eqn:E; [|vm_compute in E; discriminate E].
    exists img, heat. split; [reflexivity|].
    refine (Hp _ _ _ _ _ _ _ _ Ews _ E).
    vm_compute in Ews. injection Ews as _ <-.
    repeat constructor; discriminate.
  - destruct (tensorflow_weighted_sum Examples.tiny_keras
                (fix_input_shape MoreExamples.negative_hwc) 0 "conv2d_93")
      as [[w raw]|e] eqn:Ews; [|vm_compute in Ews; discriminate Ews].
    destruct (list_max (concat raw)) as [m|] eqn:Em;
      [|vm_compute in Ews; injection Ews as _ <-;
        vm_compute in Em; discriminate Em].
    destruct (tensorflow_grad_cam Examples.tiny_keras
                MoreExamples.negative_hwc 0 "conv2d_93")
      as [[img heat]|e] eqn:E; [|vm_compute in E; discriminate E].
    exists img, heat. split; [reflexivity|].
    apply (proj1 (Ht _ _ _ _ _ _ _ _ _ Ews Em E)).
    vm_compute in Ews. injection Ews as _ <-.
    vm_compute in Em. injection Em as <-. reflexivity.
  - destruct (tensorflow_weighted_sum Examples.tiny_keras
                (fix_input_shape Examples.black_hwc) 0 "conv2d_93")
      as [[w raw]|e] eqn:Ews; [|vm_compute in Ews; discriminate Ews].
    destruct (list_max (concat raw)) as [m|] eqn:Em;
      [|vm_compute in Ews; injection Ews as _ <-;
        vm_compute in Em; discriminate Em].
    destruct (tensorflow_grad_cam Examples.tiny_keras
                Examples.black_hwc 0 "conv2d_93")
      as [[img heat]|e] eqn:E; [|vm_compute in E; discriminate E].
    exists img, heat. split; [reflexivity|].
    apply (proj2 (Ht _ _ _ _ _ _ _ _ _ Ews Em E)).
    vm_compute in Ews. injection Ews as _ <-.
    vm_compute in Em. injection Em as <-. reflexivity.
Defined.

(** ** The TensorFlow variant, end to end *)

(** X16.  What [tensorflow_grad_cam] feeds to its scaling step: with the
    layer's output and the gradient of the class score at that output
    (both with the same channel count at every pixel), the weights are
    the spatial means of the gradient, one per channel, and the raw
    heatmap is the sum over the channels of weight times channel, at
    the spatial size of the layer's output. *)
Theorem tensorflow_weighted_sum_is_grad_cam
        (model : keras_model) (input_tensor : hwc) (target_class : nat)
        (layer_name : string) (w : list Q) (raw : grid Q) :
  tensorflow_weighted_sum model input_tensor target_class layer_name
    = Ok (w, raw) ->
  exists used_name target_layer conv_output predictions grads,
    tensorflow_target_layer model layer_name = Ok (used_name, target_layer) /\
    grad_model model target_layer input_tensor
      = Ok (conv_output, predictions) /\
    tape_gradient model target_layer input_tensor target_class = Ok grads /\
    shape2 raw = shape2 conv_output /\
    (well_formed grads ->
       same_list w (spec_weights (channels_of grads))) /\
    (well_formed conv_output ->
       same_grid raw (spec_heatmap w (channels_of conv_output)
                                   (map (map (fun _ => 0)) conv_output))).
Proof.
  intros H.
  apply tensorflow_weighted_sum_inv in H
    as (used_name & target_layer & conv_output & predictions & grads
        & Hl & Hg & Hgr & -> & ->).
  exists used_name, target_layer, conv_output, predictions, grads.
  repeat split; auto.
  - unfold reduce_sum_weighted. apply shape2_map. intros. apply length_map.
  - apply tensorflow_weights_are_spatial_means.
  - apply tensorflow_heatmap_is_channel_sum.
Qed.

Lemma tensorflow_weighted_sum_is_grad_cam_witness :
  exists w raw,
    tensorflow_weighted_sum Examples.tiny_keras Examples.input_hwc 0
                            "conv2d_93" = Ok (w, raw) /\
    shape2 raw = (2, 2)%nat.
Proof.
  destruct (tensorflow_weighted_sum Examples.tiny_keras Examples.input_hwc 0
                                    "conv2d_93") as [[w raw]|e] eqn:E;
    [|vm_compute in E; discriminate E].
  exists w, raw. split; [reflexivity|].
  destruct (@tensorflow_weighted_sum_is_grad_cam
              Examples.tiny_keras Examples.input_hwc 0%nat "conv2d_93"%string
              w raw E)
    as (used_name & layer & conv_output & predictions & grads
        & Hl & Hg & Hgr & Hshape & _ & _).
  rewrite Hshape. vm_compute in Hl. injection Hl as _ <-.
  injection Hg as <- _. reflexivity.
Defined.
